(** * Olexaa pantry tracker: expiry classification and reminder scheduling

    A shallow embedding of [src/services/notificationService.js] and of the
    item handlers of [App.js], together with the part of the ECMAScript
    [Date], [String] and [parseInt] built-ins those functions call.

    Conventions.
    - A JavaScript number that holds a time value or a day count is an
      integer of magnitude below 2^53; it is modelled by [Z], and the one
      value outside the integers that the code can meet, [NaN], by [None].
    - The engine-dependent parts (time zone, [Date.parse], platform) are the
      fields of a [Host]. The clock is read through the argument [now]; the
      reads of one call are taken to be the same instant.
    - Objects are finite maps from property names to values.
    - [console] output is kept where a claim speaks of logging (the
      scheduler), and left out elsewhere. *)

From Stdlib Require Import ZArith Lia List Ascii String.
From stdpp Require Import base option list gmap strings pretty.

Open Scope Z_scope.

(** ** ECMAScript time values (ECMA-262, "Date Objects") *)

Module JSDate.

Definition msPerSecond : Z := 1000.
Definition msPerMinute : Z := 60000.
Definition msPerHour : Z := 3600000.
Definition msPerDay : Z := 86400000.

(** The range of a time value: 100,000,000 days either side of the epoch. *)
Definition maxTime : Z := 8640000000000000.

Definition Day (t : Z) : Z := t / msPerDay.
Definition TimeWithinDay (t : Z) : Z := t mod msPerDay.

Definition DaysInYear (y : Z) : Z :=
  if negb (y mod 4 =? 0) then 365
  else if negb (y mod 100 =? 0) then 366
  else if negb (y mod 400 =? 0) then 365
  else 366.

Definition DayFromYear (y : Z) : Z :=
  365 * (y - 1970) + (y - 1969) / 4 - (y - 1901) / 100 + (y - 1601) / 400.

Definition TimeFromYear (y : Z) : Z := msPerDay * DayFromYear y.

(** The largest year whose first day is not after [t]: the estimate from the
    mean length of a Gregorian year is off by at most one. *)
Definition YearFromTime (t : Z) : Z :=
  let d := Day t in
  let y0 := 1970 + (d * 400) / 146097 in
  if DayFromYear (y0 + 1) <=? d then y0 + 1
  else if DayFromYear y0 <=? d then y0
  else y0 - 1.

Definition InLeapYear (t : Z) : bool := DaysInYear (YearFromTime t) =? 366.

Definition DayWithinYear (t : Z) : Z := Day t - DayFromYear (YearFromTime t).

(** Days that precede month [m] (0 is January) in a year. *)
Definition daysBeforeMonth (leap : bool) (m : Z) : Z :=
  let l := if leap then 1 else 0 in
  match m with
  | 0 => 0
  | 1 => 31
  | 2 => 59 + l
  | 3 => 90 + l
  | 4 => 120 + l
  | 5 => 151 + l
  | 6 => 181 + l
  | 7 => 212 + l
  | 8 => 243 + l
  | 9 => 273 + l
  | 10 => 304 + l
  | _ => 334 + l
  end.

Definition MonthFromTime (t : Z) : Z :=
  let d := DayWithinYear t in
  let leap := InLeapYear t in
  if d <? daysBeforeMonth leap 1 then 0
  else if d <? daysBeforeMonth leap 2 then 1
  else if d <? daysBeforeMonth leap 3 then 2
  else if d <? daysBeforeMonth leap 4 then 3
  else if d <? daysBeforeMonth leap 5 then 4
  else if d <? daysBeforeMonth leap 6 then 5
  else if d <? daysBeforeMonth leap 7 then 6
  else if d <? daysBeforeMonth leap 8 then 7
  else if d <? daysBeforeMonth leap 9 then 8
  else if d <? daysBeforeMonth leap 10 then 9
  else if d <? daysBeforeMonth leap 11 then 10
  else 11.

Definition DateFromTime (t : Z) : Z :=
  DayWithinYear t - daysBeforeMonth (InLeapYear t) (MonthFromTime t) + 1.

Definition MakeTime (hour min sec ms : Z) : Z :=
  hour * msPerHour + min * msPerMinute + sec * msPerSecond + ms.

(** [MakeDay]: [None] when no time value starts the requested month. *)
Definition MakeDay (year month date : Z) : option Z :=
  let ym := year + month / 12 in
  let mn := month mod 12 in
  let first := DayFromYear ym + daysBeforeMonth (DaysInYear ym =? 366) mn in
  if maxTime <? Z.abs (first * msPerDay) then None
  else Some (first + date - 1).

Definition MakeDate (day time : Z) : Z := day * msPerDay + time.

Definition TimeClip (t : Z) : option Z :=
  if maxTime <? Z.abs t then None else Some t.

(** [Math.ceil (a / b)] for integers [a] and [b > 0]. *)
Definition ceilDiv (a b : Z) : Z := - ((- a) / b).

End JSDate.

Import JSDate.

(** ** Values, strings and [parseInt] *)

(** The values an item property can hold once the store's JSON is decoded. *)
Inductive Val :=
| VUndefined
| VNull
| VBool (b : bool)
| VNumber (n : Z)
| VString (s : string).

#[global] Instance Val_eq_dec : EqDecision Val.
Proof. solve_decision. Defined.

(** An object: own properties by name. A missing property reads [undefined]. *)
Abbreviation Obj := (gmap string Val).

Definition prop (o : Obj) (k : string) : Val := default VUndefined (o !! k).

Definition ToBoolean (v : Val) : bool :=
  match v with
  | VUndefined | VNull => false
  | VBool b => b
  | VNumber n => negb (n =? 0)
  | VString s => negb (String.eqb s "")
  end.

Definition ToString (v : Val) : string :=
  match v with
  | VUndefined => "undefined"
  | VNull => "null"
  | VBool true => "true"
  | VBool false => "false"
  | VNumber n => pretty n
  | VString s => s
  end.

(** [a || b] *)
Definition orElse (a b : Val) : Val := if ToBoolean a then a else b.

(** What a [throw] carries. *)
Inductive Exn :=
| TypeError (msg : string)
| Rejected (msg : string).

(** A computation that returns or throws. *)
Inductive Outcome (A : Type) :=
| Ok (a : A)
| Throw (e : Exn).
Arguments Ok {A} a.
Arguments Throw {A} e.

Definition obind {A B} (m : Outcome A) (k : A -> Outcome B) : Outcome B :=
  match m with
  | Ok a => k a
  | Throw e => Throw e
  end.

(** [try { m } catch (e) { h e }] *)
Definition tryCatch {A} (m : Outcome A) (h : Exn -> Outcome A) : Outcome A :=
  match m with
  | Ok a => Ok a
  | Throw e => h e
  end.

Module JSString.

Definition isSeparator (c : ascii) : bool :=
  (c =? "/")%char || (c =? "-")%char.

(** [s.split(/[\/\-]/)]: every separator character ends a part, so
    consecutive separators give empty parts and there is always one part. *)
Fixpoint split (s : string) : list string :=
  match s with
  | EmptyString => [EmptyString]
  | String c rest =>
      if isSeparator c then EmptyString :: split rest
      else match split rest with
           | p :: ps => String c p :: ps
           | [] => [String c EmptyString]
           end
  end.

Definition bytes (l : list nat) : string :=
  string_of_list_ascii (map ascii_of_nat l).

(** [StrWhiteSpaceChar], as UTF-8 byte sequences: TAB, LF, VT, FF, CR, SP,
    NBSP, the Unicode space separators, LS, PS and the byte order mark. *)
Definition whiteSpace : list string :=
  map bytes
    [ [9]; [10]; [11]; [12]; [13]; [32]; [194; 160]; [225; 154; 128];
      [226; 128; 128]; [226; 128; 129]; [226; 128; 130]; [226; 128; 131];
      [226; 128; 132]; [226; 128; 133]; [226; 128; 134]; [226; 128; 135];
      [226; 128; 136]; [226; 128; 137]; [226; 128; 138]; [226; 128; 168];
      [226; 128; 169]; [226; 128; 175]; [226; 129; 159]; [227; 128; 128];
      [239; 187; 191] ]%nat.

Fixpoint dropPrefix (p s : string) : option string :=
  match p, s with
  | EmptyString, _ => Some s
  | String a p', String b s' => if (a =? b)%char then dropPrefix p' s' else None
  | String _ _, EmptyString => None
  end.

Fixpoint firstPrefix (ps : list string) (s : string) : option string :=
  match ps with
  | [] => None
  | p :: ps' =>
      match dropPrefix p s with
      | Some rest => Some rest
      | None => firstPrefix ps' s
      end
  end.

Definition dropWhiteSpaceChar (s : string) : option string :=
  firstPrefix whiteSpace s.

Fixpoint trimStartFuel (fuel : nat) (s : string) : string :=
  match fuel with
  | O => s
  | S fuel' =>
      match dropWhiteSpaceChar s with
      | Some rest => trimStartFuel fuel' rest
      | None => s
      end
  end.

(** Every white space character is at least one byte, so the length of the
    string is enough fuel. *)
Definition trimStart (s : string) : string := trimStartFuel (String.length s) s.

Definition digitValue (c : ascii) : option Z :=
  let n := Z.of_nat (nat_of_ascii c) in
  if (48 <=? n) && (n <=? 57) then Some (n - 48) else None.

(** Value of the longest prefix of decimal digits, with how many were read. *)
Fixpoint readDigits (acc : Z) (count : nat) (s : string) : Z * nat :=
  match s with
  | EmptyString => (acc, count)
  | String c rest =>
      match digitValue c with
      | Some d => readDigits (10 * acc + d) (S count) rest
      | None => (acc, count)
      end
  end.

(** [parseInt(s, 10)]: [None] is [NaN]. With radix 10 no prefix is
    stripped, and characters after the digits are ignored. *)
Definition parseInt (s : string) : option Z :=
  let s1 := trimStart s in
  let '(sign, s2) :=
    match s1 with
    | String "-" rest => (-1, rest)
    | String "+" rest => (1, rest)
    | _ => (1, s1)
    end in
  match readDigits 0 0%nat s2 with
  | (_, O) => None
  | (n, S _) => Some (sign * n)
  end.

End JSString.

(** ** The host: what the engine and the device decide *)

Inductive Platform := web | android | ios.

#[global] Instance Platform_eq_dec : EqDecision Platform.
Proof. solve_decision. Defined.

Record Host := {
  (** [LocalTZA(t, isUTC)]: the offset of local time, in milliseconds. *)
  LocalTZA : Z -> bool -> Z;
  (** [Date.parse]: the time value of a string, [None] for [NaN]. Only the
      ISO format is fixed by the standard; the rest is the engine's. *)
  DateParse : string -> option Z;
  (** [Platform.OS] *)
  OS : Platform
}.

(** A [Date] object is its time value; [None] is the invalid date. The
    methods that mutate a date return the new time value. *)
Abbreviation TimeValue := (option Z).

Section Dates.

Variable host : Host.

Definition LocalTime (t : Z) : Z := t + LocalTZA host t true.
Definition UTC (t : Z) : Z := t - LocalTZA host t false.

(** [new Date(value)] of one argument: a string is parsed, any other
    primitive is converted to a number. On these values the constructor
    returns; it has no path that throws. *)
Definition newDate (v : Val) : Outcome TimeValue :=
  match v with
  | VString s => Ok (DateParse host s ≫= TimeClip)
  | VNumber n => Ok (TimeClip n)
  | VBool b => Ok (TimeClip (if b then 1 else 0))
  | VNull => Ok (TimeClip 0)
  | VUndefined => Ok None
  end.

(** [new Date(year, month, date)]: local midnight of that day; a year from
    0 to 99 counts from 1900. *)
Definition newDateYMD (year month date : Z) : TimeValue :=
  let yr := if (0 <=? year) && (year <=? 99) then 1900 + year else year in
  MakeDay yr month date ≫= fun day => TimeClip (UTC (MakeDate day (MakeTime 0 0 0 0))).

(** [d.setHours(hour, min, sec, ms)] *)
Definition setHours (d : TimeValue) (hour min sec ms : Z) : TimeValue :=
  d ≫= fun tv =>
  let t := LocalTime tv in
  TimeClip (UTC (MakeDate (Day t) (MakeTime hour min sec ms))).

(** [d.getDate()] *)
Definition getDate (d : TimeValue) : option Z :=
  (fun tv => DateFromTime (LocalTime tv)) <$> d.

(** [d.setDate(date)] *)
Definition setDate (d : TimeValue) (date : option Z) : TimeValue :=
  d ≫= fun tv =>
  date ≫= fun dt =>
  let t := LocalTime tv in
  MakeDay (YearFromTime t) (MonthFromTime t) dt ≫= fun day =>
  TimeClip (UTC (MakeDate day (TimeWithinDay t))).

(** [Math.ceil((a - b) / (1000 * 60 * 60 * 24))] for two dates: [NaN] as
    soon as one of them is invalid. The difference of two time values is an
    integer; for a clock within a few thousand years of the epoch it is
    below 2^53 and its quotient by 86400000 is rounded by less than the
    distance from a quotient that is not whole to the nearest whole number,
    so the ceiling of the double is the ceiling of the exact quotient. *)
Definition ceilDays (a b : TimeValue) : option Z :=
  a ≫= fun x => b ≫= fun y => Some (ceilDiv (x - y) msPerDay).

(** Comparisons with a number that may be [NaN]: false on [NaN]. *)
Definition ltNum (a : option Z) (n : Z) : bool :=
  match a with Some x => x <? n | None => false end.
Definition leNum (a : option Z) (n : Z) : bool :=
  match a with Some x => x <=? n | None => false end.
Definition geNum (a : option Z) (n : Z) : bool :=
  match a with Some x => n <=? x | None => false end.

(** [isNaN(d.getTime())] *)
Definition isInvalid (d : TimeValue) : bool :=
  match d with Some _ => false | None => true end.

(** [v.split(/[\/\-]/)] on a property value: only strings have [split]. *)
Definition splitVal (v : Val) : Outcome (list string) :=
  match v with
  | VString s => Ok (JSString.split s)
  | VUndefined | VNull => Throw (TypeError "Cannot read properties")
  | _ => Throw (TypeError "split is not a function")
  end.

(** The day-first reading both functions spell out:
<<
  const parts = str.split(/[\/\-]/);
  if (parts.length === 3) {
    const [d, m, y] = parts.map((p) => parseInt(p, 10));
    if (!isNaN(d) && !isNaN(m) && !isNaN(y)) {
      expiryDate = new Date(y, m - 1, d);
    }
  }
>>
    It leaves [expiryDate] as it was ([keep]) unless all three parse. *)
Definition dayFirst {A} (v : Val) (keep : A) (set : TimeValue -> A) : Outcome A :=
  obind (splitVal v) (fun parts =>
  match parts with
  | [p1; p2; p3] =>
      match JSString.parseInt p1, JSString.parseInt p2, JSString.parseInt p3 with
      | Some d, Some m, Some y => Ok (set (newDateYMD y (m - 1) d))
      | _, _, _ => Ok keep
      end
  | _ => Ok keep
  end).

End Dates.

(** [const today = new Date(); today.setHours(0, 0, 0, 0);] with the clock
    reading [now]. *)
Definition today (host : Host) (now : Z) : TimeValue :=
  setHours host (Some now) 0 0 0 0.

(** ** [calculateExpiryStatus] *)

Inductive Status := fresh | expiring | expired.

#[global] Instance Status_eq_dec : EqDecision Status.
Proof. solve_decision. Defined.

Section Classifier.

Variable host : Host.

(** The clock: the time value [new Date()] reads. *)
Variable now : Z.

(** Lines 62-76: [expiryDate] starts as [null] ([None] here); the
    constructor runs inside [try], the day-first reading inside [catch]. *)
Definition classifierExpiryDate (expiryDateStr : Val) : Outcome (option TimeValue) :=
  tryCatch
    (obind (newDate host expiryDateStr) (fun d => Ok (Some d)))
    (fun _ => dayFirst host expiryDateStr None Some).

(** Lines 82-97, once [expiryDate] is a valid date. *)
Definition statusOfDays (daysUntilExpiry : option Z) : Status :=
  if ltNum daysUntilExpiry 0 then expired
  else if leNum daysUntilExpiry 3 then expiring
  else fresh.

Definition classifierDaysUntilExpiry (expiryDate : TimeValue) : option Z :=
  let today := today host now in
  let expiryDate := setHours host expiryDate 0 0 0 0 in
  ceilDays expiryDate today.

(** The body of the outer [try]. *)
Definition calculateExpiryStatusBody (expiryDateStr : Val) : Outcome Status :=
  obind (classifierExpiryDate expiryDateStr) (fun expiryDate =>
  match expiryDate with
  | None => Ok fresh
  | Some d =>
      if isInvalid d then Ok fresh
      else Ok (statusOfDays (classifierDaysUntilExpiry d))
  end).

(** The outer [catch] logs and returns ['fresh']; the function returns a
    status on every path. *)
Definition calculateExpiryStatus (expiryDateStr : Val) : Status :=
  if negb (ToBoolean expiryDateStr) then fresh
  else match calculateExpiryStatusBody expiryDateStr with
       | Ok st => st
       | Throw _ => fresh
       end.

End Classifier.

(** ** The notification subsystem

    [expo-notifications] is a library outside the repository. What the
    functions here need of it is its contract: a call resolves or rejects,
    [cancelAllScheduledNotificationsAsync] empties what is scheduled, a
    request with a date is kept until it fires and one with [trigger: null]
    is shown at once. Whether a call resolves is an input of the run. *)

Inductive Trigger :=
| Immediately                 (* [trigger: null] *)
| AtDate (d : TimeValue).     (* [trigger: <Date>] *)

#[global] Instance Trigger_eq_dec : EqDecision Trigger.
Proof. solve_decision. Defined.

Record Content := {
  title : string;
  body : string;
  dataItemId : Val;
  dataItemName : Val;
  dataType : string;
  sound : bool;
  priority : option string
}.

#[global] Instance Content_eq_dec : EqDecision Content.
Proof. solve_decision. Defined.

Record Request := {
  content : Content;
  trigger : Trigger
}.

#[global] Instance Request_eq_dec : EqDecision Request.
Proof. solve_decision. Defined.

(** What the device holds and what the run has written. *)
Record World := {
  (** requests accepted with a date, waiting to fire *)
  scheduled : list Request;
  (** requests accepted with [trigger: null], shown at once *)
  presented : list Request;
  (** Android channels configured *)
  channels : list string;
  (** lines written with [console.log] and [console.error] *)
  console : list string;
  (** every request handed to [scheduleNotificationAsync], accepted or not *)
  attempts : list Request
}.

(** How the subsystem answers during one run. *)
Record Answers := {
  cancelAllResolves : bool;
  existingPermission : Outcome string;
  requestedPermission : Outcome string;
  setChannelResolves : bool;
  (** whether the [n]-th call of [scheduleNotificationAsync] resolves *)
  scheduleResolves : nat -> bool
}.

Record RunState := {
  world : World;
  calls : nat
}.

(** An [async] body: it reads and writes the world, and returns or throws. *)
Definition Run (A : Type) : Type := RunState -> Outcome A * RunState.

#[global] Instance Run_ret : MRet Run := fun A a st => (Ok a, st).

#[global] Instance Run_bind : MBind Run := fun A B k m st =>
  match m st with
  | (Ok a, st') => k a st'
  | (Throw e, st') => (Throw e, st')
  end.

Definition tryRun {A} (m : Run A) (h : Exn -> Run A) : Run A := fun st =>
  match m st with
  | (Ok a, st') => (Ok a, st')
  | (Throw e, st') => h e st'
  end.

Definition liftOutcome {A} (o : Outcome A) : Run A := fun st => (o, st).

Definition whenRun (c : bool) (m : Run unit) : Run unit :=
  if c then m else mret tt.

Definition updWorld (f : World -> World) : Run unit := fun st =>
  (Ok tt, {| world := f (world st); calls := calls st |}).

Definition consoleWrite (line : string) : Run unit :=
  updWorld (fun w =>
    {| scheduled := scheduled w; presented := presented w;
       channels := channels w; console := console w ++ [line];
       attempts := attempts w |}).

(** Nothing waits any more; what was shown or written stays. *)
Definition clearScheduled (w : World) : World :=
  {| scheduled := []; presented := presented w;
     channels := channels w; console := console w;
     attempts := attempts w |}.

Section Subsystem.

Variable answers : Answers.

Definition cancelAllScheduledNotificationsAsync : Run unit :=
  if cancelAllResolves answers then updWorld clearScheduled
  else liftOutcome (Throw (Rejected "cancelAllScheduledNotificationsAsync")).

Definition getPermissionsAsync : Run string :=
  liftOutcome (existingPermission answers).

Definition requestPermissionsAsync : Run string :=
  liftOutcome (requestedPermission answers).

Definition setNotificationChannelAsync (name : string) : Run unit :=
  if setChannelResolves answers then
    updWorld (fun w =>
      {| scheduled := scheduled w; presented := presented w;
         channels := channels w ++ [name]; console := console w;
         attempts := attempts w |})
  else liftOutcome (Throw (Rejected "setNotificationChannelAsync")).

Definition recordAttempt (r : Request) (w : World) : World :=
  {| scheduled := scheduled w; presented := presented w;
     channels := channels w; console := console w;
     attempts := attempts w ++ [r] |}.

(** A request with a date waits; one with [trigger: null] is shown at once. *)
Definition accept (r : Request) (w : World) : World :=
  match trigger r with
  | Immediately =>
      {| scheduled := scheduled w; presented := presented w ++ [r];
         channels := channels w; console := console w;
         attempts := attempts w |}
  | AtDate _ =>
      {| scheduled := scheduled w ++ [r]; presented := presented w;
         channels := channels w; console := console w;
         attempts := attempts w |}
  end.

(** The call is recorded, counted, and then accepted or rejected. *)
Definition scheduleNotificationAsync (r : Request) : Run unit := fun st =>
  let w := recordAttempt r (world st) in
  if scheduleResolves answers (calls st) then
    (Ok tt, {| world := accept r w; calls := S (calls st) |})
  else
    (Throw (Rejected "scheduleNotificationAsync"),
     {| world := w; calls := S (calls st) |}).

(** Requests handed over one after the other; the first rejection ends it. *)
Fixpoint submit (rs : list Request) : Run unit :=
  match rs with
  | [] => mret tt
  | r :: rest => scheduleNotificationAsync r;; submit rest
  end.

End Subsystem.

(** ** [requestNotificationPermissions] and [scheduleExpiryNotifications] *)

Section Scheduler.

Variable host : Host.
Variable answers : Answers.
Variable now : Z.

(** Returns the [granted] field of the result. *)
Definition requestNotificationPermissions : Run bool :=
  if decide (OS host = web) then mret false
  else
    tryRun
      (existingStatus ← getPermissionsAsync answers;
       finalStatus ←
         (if negb (String.eqb existingStatus "granted")
          then requestPermissionsAsync answers
          else mret existingStatus);
       if negb (String.eqb finalStatus "granted") then
         consoleWrite "Notification permissions not granted";;
         mret false
       else
         whenRun (bool_decide (OS host = android))
                 (setNotificationChannelAsync answers "expiry-alerts");;
         mret true)
      (fun _ =>
         consoleWrite "Error requesting notification permissions:";;
         mret false).

(** [`${item.emoji || '🍎'} ${item.name}`] *)
Definition label (item : Obj) : string :=
  ToString (orElse (prop item "emoji") (VString "🍎")) +:+ " "
  +:+ ToString (prop item "name").

Definition itemName (item : Obj) : string := ToString (prop item "name").

(** [`Error scheduling notification for ${item.name}:`] *)
Definition errorLine (item : Obj) : string :=
  "Error scheduling notification for " +:+ itemName item +:+ ":".

(** Lines 149-161: the reminder of the expiry day, at 9 AM. *)
Definition expiryDayRequest (item : Obj) (expiryDate : TimeValue) : Request :=
  let expiryDay := setHours host expiryDate 9 0 0 0 in
  {| content :=
       {| title := "⚠️ " +:+ label item +:+ " expires today!";
          body := "Your " +:+ itemName item
                  +:+ " expires today. Use it now to avoid waste!";
          dataItemId := prop item "id";
          dataItemName := prop item "name";
          dataType := "expiry";
          sound := true;
          priority := Some "high" |};
     trigger := AtDate expiryDay |}.

(** Lines 166-179: one day before, at 9 AM. *)
Definition oneDayBeforeRequest (item : Obj) (expiryDate : TimeValue) : Request :=
  let oneDayBefore := setDate host expiryDate ((fun d => d - 1) <$> getDate host expiryDate) in
  let oneDayBefore := setHours host oneDayBefore 9 0 0 0 in
  {| content :=
       {| title := "⏰ " +:+ label item +:+ " expires tomorrow!";
          body := "Your " +:+ itemName item
                  +:+ " expires tomorrow. Plan to use it soon!";
          dataItemId := prop item "id";
          dataItemName := prop item "name";
          dataType := "expiry";
          sound := true;
          priority := Some "high" |};
     trigger := AtDate oneDayBefore |}.

(** Lines 184-196: three days before, at 9 AM. *)
Definition threeDaysBeforeRequest (item : Obj) (expiryDate : TimeValue) : Request :=
  let threeDaysBefore := setDate host expiryDate ((fun d => d - 3) <$> getDate host expiryDate) in
  let threeDaysBefore := setHours host threeDaysBefore 9 0 0 0 in
  {| content :=
       {| title := "📅 " +:+ label item +:+ " expiring soon!";
          body := "Your " +:+ itemName item
                  +:+ " expires in 3 days. Consider using it soon!";
          dataItemId := prop item "id";
          dataItemName := prop item "name";
          dataType := "expiry";
          sound := true;
          priority := None |};
     trigger := AtDate threeDaysBefore |}.

(** Lines 202-211: the item has expired; sent at once. *)
Definition expiredRequest (item : Obj) : Request :=
  {| content :=
       {| title := "❌ " +:+ label item +:+ " has expired!";
          body := "Your " +:+ itemName item
                  +:+ " has expired. Please check if it's still safe to consume.";
          dataItemId := prop item "id";
          dataItemName := prop item "name";
          dataType := "expired";
          sound := true;
          priority := Some "high" |};
     trigger := Immediately |}.

(** Lines 129-140: the constructor first, the day-first reading when the
    date it gives is invalid. *)
Definition schedulerExpiryDate (v : Val) : Outcome TimeValue :=
  obind (newDate host v) (fun expiryDate =>
  if isInvalid expiryDate then dayFirst host v expiryDate (fun d => d)
  else Ok expiryDate).

(** Lines 144-212, in the order of the source. *)
Definition scheduleReminders (today : TimeValue) (item : Obj) (expiryDate : TimeValue) : Run unit :=
  let expiryDate := setHours host expiryDate 0 0 0 0 in
  let daysUntilExpiry := ceilDays expiryDate today in
  whenRun (geNum daysUntilExpiry 0)
          (scheduleNotificationAsync answers (expiryDayRequest item expiryDate));;
  whenRun (geNum daysUntilExpiry 1)
          (scheduleNotificationAsync answers (oneDayBeforeRequest item expiryDate));;
  whenRun (geNum daysUntilExpiry 3)
          (scheduleNotificationAsync answers (threeDaysBeforeRequest item expiryDate));;
  whenRun (ltNum daysUntilExpiry 0 && geNum daysUntilExpiry (-1))
          (scheduleNotificationAsync answers (expiredRequest item)).

(** One turn of the [for] loop, lines 126-215. *)
Definition scheduleItem (today : TimeValue) (item : Obj) : Run unit :=
  if negb (ToBoolean (prop item "expiry_date")) then mret tt
  else
    tryRun
      (expiryDate ← liftOutcome (schedulerExpiryDate (prop item "expiry_date"));
       if isInvalid expiryDate then mret tt
       else scheduleReminders today item expiryDate)
      (fun _ => consoleWrite (errorLine item)).

Fixpoint forEachItem (today : TimeValue) (items : list Obj) : Run unit :=
  match items with
  | [] => mret tt
  | item :: rest => scheduleItem today item;; forEachItem today rest
  end.

(** Lines 117-216: what follows the cancellation inside the [try]. *)
Definition afterCancel (items : list Obj) : Run unit :=
  granted ← requestNotificationPermissions;
  if negb granted then mret tt
  else
    let today := today host now in
    forEachItem today items.

Definition scheduleExpiryNotificationsRun (items : list Obj) : Run unit :=
  if decide (OS host = web) then mret tt
  else
    tryRun
      (cancelAllScheduledNotificationsAsync answers;;
       afterCancel items)
      (fun _ => consoleWrite "Error scheduling expiry notifications:").

(** The world after the promise settles. *)
Definition scheduleExpiryNotifications (items : list Obj) (w : World) : World :=
  world (snd (scheduleExpiryNotificationsRun items {| world := w; calls := 0 |})).

End Scheduler.

(** ** [checkAndUpdateExpiryStatus] *)

Definition statusName (st : Status) : string :=
  match st with
  | fresh => "fresh"
  | expiring => "expiring"
  | expired => "expired"
  end.

Section Batch.

Variable host : Host.
Variable now : Z.

(** [{ ...item, status: calculatedStatus }] *)
Definition withStatus (item : Obj) : Obj :=
  let calculatedStatus := calculateExpiryStatus host now (prop item "expiry_date") in
  <["status" := VString (statusName calculatedStatus)]> item.

(** On values: the array of the new objects. Every item is classified
    against the same reading of the clock. *)
Definition checkAndUpdateExpiryStatus (items : list Obj) : list Obj :=
  map withStatus items.

End Batch.

(** ** [checkAndUpdateExpiryStatus] on a store of objects

    In the engine an array holds references, and [{ ...item, status }]
    allocates. The store makes that visible: a location is an index into
    the list of objects allocated so far, and nothing is ever freed. *)

Module Store.

Abbreviation Loc := nat.
Abbreviation Heap := (list Obj).

Definition alloc (o : Obj) (h : Heap) : Loc * Heap := (length h, h ++ [o]).

Section Batch.

Variable host : Host.
Variable now : Z.

(** [items.map((item) => ({ ...item, status: calculateExpiryStatus(item.expiry_date) }))]:
    [None] only for a reference to nothing, which no array holds. *)
Fixpoint checkAndUpdateExpiryStatus (items : list Loc) (h : Heap) : option (list Loc * Heap) :=
  match items with
  | [] => Some ([], h)
  | l :: rest =>
      item ← h !! l;
      let '(l', h1) := alloc (withStatus host now item) h in
      '(ls, h2) ← checkAndUpdateExpiryStatus rest h1;
      Some (l' :: ls, h2)
  end.

End Batch.

(** The objects an array of references denotes. *)
Definition deref (h : Heap) (items : list Loc) : option (list Obj) :=
  mapM (fun l => h !! l) items.

End Store.

Definition emptyWorld : World :=
  {| scheduled := []; presented := []; channels := []; console := []; attempts := [] |}.

(** Worlds side by side: what [d] holds comes after what [w] holds. *)
Definition wapp (w d : World) : World :=
  {| scheduled := scheduled w ++ scheduled d;
     presented := presented w ++ presented d;
     channels := channels w ++ channels d;
     console := console w ++ console d;
     attempts := attempts w ++ attempts d |}.

(** A body that only adds to the world: run from [w], it leaves [w] followed
    by what it leaves when run from the empty world. *)
Definition framed {A} (m : Run A) : Prop :=
  forall w k,
    m {| world := w; calls := k |}
    = (fst (m {| world := emptyWorld; calls := k |}),
       {| world := wapp w (world (snd (m {| world := emptyWorld; calls := k |})));
          calls := calls (snd (m {| world := emptyWorld; calls := k |})) |}).

(** The requests of [rs] that [submit] reaches when the count of calls
    stands at [k]: up to the first rejection, that one included. *)
Fixpoint submitted (a : Answers) (k : nat) (rs : list Request) : list Request :=
  match rs with
  | [] => []
  | r :: rest => r :: (if scheduleResolves a k then submitted a (S k) rest else [])
  end.

Fixpoint allAccepted (a : Answers) (k : nat) (rs : list Request) : bool :=
  match rs with
  | [] => true
  | _ :: rest => scheduleResolves a k && allAccepted a (S k) rest
  end.

(** ** The reminder plan

    The source has no planner of its own: the events are decided inside
    [scheduleExpiryNotifications]. The plan of an item is what one turn of
    the loop hands to the subsystem when every call resolves. *)

Definition allResolve : Answers :=
  {| cancelAllResolves := true;
     existingPermission := Ok "granted";
     requestedPermission := Ok "granted";
     setChannelResolves := true;
     scheduleResolves := fun _ => true |}.

Section Plan.

Variable host : Host.
Variable now : Z.

Definition itemPlan (item : Obj) : list Request :=
  attempts (world (snd (scheduleItem host allResolve (today host now) item
                          {| world := emptyWorld; calls := 0 |}))).

Definition plan (items : list Obj) : list Request :=
  attempts (world (snd (forEachItem host allResolve (today host now) items
                          {| world := emptyWorld; calls := 0 |}))).

(** The date of an item the loop does not skip, at local midnight. *)
Definition itemExpiryDate (item : Obj) : TimeValue :=
  if negb (ToBoolean (prop item "expiry_date")) then None
  else match schedulerExpiryDate host (prop item "expiry_date") with
       | Ok d => setHours host d 0 0 0 0
       | Throw _ => None
       end.

(** The [daysUntilExpiry] the loop computes for it. *)
Definition itemDaysUntilExpiry (item : Obj) : option Z :=
  ceilDays (itemExpiryDate item) (today host now).

(** The four guarded calls of lines 147-212, as the list they hand over. *)
Definition remindersFor (item : Obj) (expiryDate : TimeValue) (daysUntilExpiry : option Z)
  : list Request :=
  (if geNum daysUntilExpiry 0 then [expiryDayRequest host item expiryDate] else [])
  ++ (if geNum daysUntilExpiry 1 then [oneDayBeforeRequest host item expiryDate] else [])
  ++ (if geNum daysUntilExpiry 3 then [threeDaysBeforeRequest host item expiryDate] else [])
  ++ (if ltNum daysUntilExpiry 0 && geNum daysUntilExpiry (-1)
      then [expiredRequest item] else []).

Definition itemReminders (item : Obj) : list Request :=
  remindersFor item (itemExpiryDate item) (itemDaysUntilExpiry item).

End Plan.

(** ** The item handlers of [App.js] *)

Record Toast := {
  toastType : string;
  text1 : string;
  text2 : string
}.

Record App := {
  pantryItems : list Obj;
  pantryLoading : bool;
  editingItem : option Obj;
  screen : string;
  toasts : list Toast;
  appConsole : list string;
  device : World
}.

(** The identifiers of a collection, in order. *)
Definition ids (items : list Obj) : list Val := map (fun o => prop o "id") items.

(** [a === b] on primitive values. *)
Definition strictEq (a b : Val) : bool := bool_decide (a = b).

Definition setPantryItems (f : list Obj -> list Obj) (st : App) : App :=
  {| pantryItems := f (pantryItems st); pantryLoading := pantryLoading st;
     editingItem := editingItem st; screen := screen st; toasts := toasts st;
     appConsole := appConsole st; device := device st |}.

Definition setPantryLoading (b : bool) (st : App) : App :=
  {| pantryItems := pantryItems st; pantryLoading := b;
     editingItem := editingItem st; screen := screen st; toasts := toasts st;
     appConsole := appConsole st; device := device st |}.

Definition setEditingItem (e : option Obj) (st : App) : App :=
  {| pantryItems := pantryItems st; pantryLoading := pantryLoading st;
     editingItem := e; screen := screen st; toasts := toasts st;
     appConsole := appConsole st; device := device st |}.

Definition setScreen (s : string) (st : App) : App :=
  {| pantryItems := pantryItems st; pantryLoading := pantryLoading st;
     editingItem := editingItem st; screen := s; toasts := toasts st;
     appConsole := appConsole st; device := device st |}.

Definition showToast (t : Toast) (st : App) : App :=
  {| pantryItems := pantryItems st; pantryLoading := pantryLoading st;
     editingItem := editingItem st; screen := screen st; toasts := toasts st ++ [t];
     appConsole := appConsole st; device := device st |}.

Definition consoleError (line : string) (st : App) : App :=
  {| pantryItems := pantryItems st; pantryLoading := pantryLoading st;
     editingItem := editingItem st; screen := screen st; toasts := toasts st;
     appConsole := appConsole st ++ [line]; device := device st |}.

Definition onDevice (f : World -> World) (st : App) : App :=
  {| pantryItems := pantryItems st; pantryLoading := pantryLoading st;
     editingItem := editingItem st; screen := screen st; toasts := toasts st;
     appConsole := appConsole st; device := f (device st) |}.

(** [error?.message || fallback] *)
Definition messageOr (e : Exn) (fallback : string) : string :=
  let m := match e with TypeError m | Rejected m => m end in
  if String.eqb m "" then fallback else m.

Section Handlers.

Variable host : Host.
Variable answers : Answers.
Variable now : Z.

(** The handler is a closure of one render: [rendered] is the [pantryItems]
    it captured, while the updater functions read the state of the moment. *)
Variable rendered : list Obj.

(** [handleDeleteItem], up to the [await]: lines 197-199. *)
Definition deleteOptimistic (itemId : Val) (st : App) : option Obj * App :=
  let item := find (fun i => strictEq (prop i "id") itemId) rendered in
  (item,
   setPantryItems (filter (fun it => negb (strictEq (prop it "id") itemId))) st).

(** [[...prev, item].filter(Boolean)]: an object is truthy, [undefined] not. *)
Definition reinsert (item : option Obj) (prev : list Obj) : list Obj :=
  prev ++ match item with Some i => [i] | None => [] end.

(** [handleDeleteItem], after the store has answered: lines 200-216. *)
Definition deleteSettled (item : option Obj) (remote : Outcome unit) (st : App) : App :=
  match remote with
  | Ok _ =>
      showToast
        {| toastType := "success"; text1 := "Item Deleted";
           text2 := match item with
                    | Some i => ToString (orElse (prop i "name") (VString "Item"))
                    | None => "Item"
                    end +:+ " has been removed" |} st
  | Throw e =>
      let st := consoleError "Failed to delete pantry item" st in
      let st := setPantryItems (reinsert item) st in
      showToast
        {| toastType := "error"; text1 := "Delete Failed";
           text2 := messageOr e "Unable to delete this item." |} st
  end.

Definition handleDeleteItem (itemId : Val) (remote : Outcome unit) (st : App) : App :=
  let '(item, st1) := deleteOptimistic itemId st in
  deleteSettled item remote st1.

(** [handleUpdateItem]: lines 162-194. [editing] is the [editingItem] of the
    render, [remote] what [updatePantryItem] settled to. *)
Definition replaceById (editing : Obj) (new : Obj) (items : list Obj) : list Obj :=
  map (fun item => if strictEq (prop item "id") (prop editing "id") then new else item) items.

Definition handleUpdateItem (editing : option Obj) (updatedItem : Obj)
    (remote : Outcome Obj) (st : App) : App :=
  match editing with
  | None => st
  | Some editingItem =>
      let st := setPantryLoading true st in
      let st :=
        match remote with
        | Ok updated =>
            let st :=
              setPantryItems
                (replaceById editingItem
                   (<["id" := VString (ToString (prop updated "id"))]> updated)) st in
            let itemsWithStatus :=
              checkAndUpdateExpiryStatus host now (replaceById editingItem updated rendered) in
            let st := setPantryItems (fun _ => itemsWithStatus) st in
            let st := onDevice (scheduleExpiryNotifications host answers now itemsWithStatus) st in
            let st := setEditingItem None st in
            let st := setScreen "Home" st in
            showToast
              {| toastType := "success"; text1 := "Item Updated";
                 text2 := ToString (prop updatedItem "name") +:+ " has been updated" |} st
        | Throw e =>
            let st := consoleError "Failed to update pantry item" st in
            showToast
              {| toastType := "error"; text1 := "Update Failed";
                 text2 := messageOr e "Unable to update this item." |} st
        end in
      setPantryLoading false st
  end.

End Handlers.

(** ** A host to run the functions on

    A device at UTC+8 without daylight saving, on Android, whose [Date.parse]
    reads the ISO date form [YYYY-MM-DD] (as UTC, as the standard says) and
    the textual form [Mmm D, YYYY] (as local time), and nothing else. *)

Module Manila.

Definition tza : Z := 8 * msPerHour.

Definition monthOfName (s : string) : option Z :=
  list_find (String.eqb s)
    ["Jan"; "Feb"; "Mar"; "Apr"; "May"; "Jun";
     "Jul"; "Aug"; "Sep"; "Oct"; "Nov"; "Dec"]
  ≫= fun '(i, _) => Some (Z.of_nat i).

Definition dropChars (n : nat) (s : string) : string :=
  String.substring n (String.length s - n) s.

(** Exactly [n] digits at the head of [s], and what follows them. *)
Definition digits (n : nat) (s : string) : option (Z * string) :=
  let '(v, k) := JSString.readDigits 0 0%nat (String.substring 0 n s) in
  if (k =? n)%nat then Some (v, dropChars n s) else None.

Definition midnight (offset y m d : Z) : option Z :=
  if (1 <=? d) && (d <=? 31) then
    MakeDay y m d ≫= fun day => TimeClip (MakeDate day 0 - offset)
  else None.

(** [Mmm D, YYYY] *)
Definition parseTextual (s : string) : option Z :=
  m ← monthOfName (String.substring 0 3 s);
  rest ← JSString.dropPrefix " " (dropChars 3 s);
  let '(d, k) := JSString.readDigits 0 0%nat rest in
  if (k =? 0)%nat then None
  else
    rest ← JSString.dropPrefix ", " (dropChars k rest);
    '(y, rest) ← digits 4 rest;
    if String.eqb rest "" then midnight tza y m d else None.

(** [YYYY-MM-DD] *)
Definition parseISO (s : string) : option Z :=
  '(y, rest) ← digits 4 s;
  rest ← JSString.dropPrefix "-" rest;
  '(m, rest) ← digits 2 rest;
  rest ← JSString.dropPrefix "-" rest;
  '(d, rest) ← digits 2 rest;
  if String.eqb rest "" && (1 <=? m) && (m <=? 12) then midnight 0 y (m - 1) d
  else None.

Definition parse (s : string) : option Z :=
  match parseISO s with
  | Some t => Some t
  | None => parseTextual s
  end.

Definition host : Host :=
  {| LocalTZA := fun _ _ => tza; DateParse := parse; OS := android |}.

(** Local date and hour to a time value. *)
Definition at_ (y m d hour : Z) : Z :=
  (DayFromYear y + daysBeforeMonth (DaysInYear y =? 366) (m - 1) + d - 1) * msPerDay
  + hour * msPerHour - tza.

Definition item (id name expiry : string) : Obj :=
  <["id" := VString id]> (<["name" := VString name]>
  (<["expiry_date" := VString expiry]> (<["quantity" := VString "1"]> ∅))).

(** A subsystem that grants the permission and rejects the first call of
    [scheduleNotificationAsync] of a run. *)
Definition rejectFirst : Answers :=
  {| cancelAllResolves := true;
     existingPermission := Ok "granted";
     requestedPermission := Ok "granted";
     setChannelResolves := true;
     scheduleResolves := fun n => negb (n =? 0)%nat |}.

Definition app (items : list Obj) : App :=
  {| pantryItems := items; pantryLoading := false; editingItem := None;
     screen := "Home"; toasts := []; appConsole := []; device := emptyWorld |}.

End Manila.

(** ** The other handlers of [App.js] *)

Section MoreHandlers.

Variable host : Host.
Variable answers : Answers.
Variable now : Z.
Variable rendered : list Obj.

(** [loadPantry]: lines 47-67. [remote] is what [fetchPantryItems] settled
    to. *)
Definition loadPantry (remote : Outcome (list Obj)) (st : App) : App :=
  let st := setPantryLoading true st in
  let st :=
    match remote with
    | Ok items =>
        let itemsWithStatus := checkAndUpdateExpiryStatus host now items in
        let st := setPantryItems (fun _ => itemsWithStatus) st in
        onDevice (scheduleExpiryNotifications host answers now itemsWithStatus) st
    | Throw e =>
        let st := consoleError "Failed to load pantry items" st in
        showToast
          {| toastType := "error"; text1 := "Pantry Error";
             text2 := messageOr e "Unable to load your pantry items." |} st
    end in
  setPantryLoading false st.

(** [handleAddItem]: lines 128-155. [remote] is what [createPantryItem]
    settled to. *)
Definition handleAddItem (newItem : Obj) (remote : Outcome Obj) (st : App) : App :=
  let st := setPantryLoading true st in
  let st :=
    match remote with
    | Ok created =>
        let updatedItems := rendered ++ [created] in
        let itemsWithStatus := checkAndUpdateExpiryStatus host now updatedItems in
        let st := setPantryItems (fun _ => itemsWithStatus) st in
        let st := onDevice (scheduleExpiryNotifications host answers now itemsWithStatus) st in
        let st := setScreen "Home" st in
        showToast
          {| toastType := "success"; text1 := "Item Added";
             text2 := ToString (prop newItem "name") +:+ " has been added to your pantry" |} st
    | Throw e =>
        let st := consoleError "Failed to add pantry item" st in
        showToast
          {| toastType := "error"; text1 := "Add Failed";
             text2 := messageOr e "Unable to add this item." |} st
    end in
  setPantryLoading false st.

(** The body of the five-minute interval and of the foreground listener,
    lines 251-255 and 261-265: the updater classifies the collection of the
    moment and starts a reconciliation. *)
Definition tick (st : App) : App :=
  let updatedItems := checkAndUpdateExpiryStatus host now (pantryItems st) in
  let st := onDevice (scheduleExpiryNotifications host answers now updatedItems) st in
  setPantryItems (fun _ => updatedItems) st.

End MoreHandlers.

(** ** [trim] and [includes] *)

Module JSText.

Definition reverse (s : string) : string :=
  string_of_list_ascii (List.rev (list_ascii_of_string s)).

(** The white space characters, each read from its last byte. *)
Definition whiteSpaceReversed : list string := map reverse JSString.whiteSpace.

Fixpoint dropReversedFuel (fuel : nat) (s : string) : string :=
  match fuel with
  | O => s
  | S fuel' =>
      match JSString.firstPrefix whiteSpaceReversed s with
      | Some rest => dropReversedFuel fuel' rest
      | None => s
      end
  end.

Definition trimEnd (s : string) : string :=
  reverse (dropReversedFuel (String.length s) (reverse s)).

(** [s.trim()] *)
Definition trim (s : string) : string := trimEnd (JSString.trimStart s).

Definition startsWith (s q : string) : bool :=
  match JSString.dropPrefix q s with
  | Some _ => true
  | None => false
  end.

(** [s.includes(q)]. On well-formed text a run of bytes occurs in the
    UTF-8 form exactly where the run of code units occurs in the engine's. *)
Fixpoint includes (s q : string) : bool :=
  startsWith s q
  || match s with
     | EmptyString => false
     | String _ rest => includes rest q
     end.

End JSText.

(** ** [src/data/categories.js] *)

Record Category := {
  catId : string;
  catName : string;
  catEmoji : string
}.

Definition foodCategories : list Category :=
  [ {| catId := "fruits"; catName := "Fruits"; catEmoji := "🍎" |};
    {| catId := "vegetables"; catName := "Vegetables"; catEmoji := "🥕" |};
    {| catId := "dairy"; catName := "Dairy"; catEmoji := "🥛" |};
    {| catId := "meat"; catName := "Meat & Seafood"; catEmoji := "🍗" |};
    {| catId := "grains"; catName := "Grains & Bread"; catEmoji := "🍞" |};
    {| catId := "snacks"; catName := "Snacks"; catEmoji := "🍪" |};
    {| catId := "beverages"; catName := "Beverages"; catEmoji := "🥤" |};
    {| catId := "frozen"; catName := "Frozen"; catEmoji := "🧊" |};
    {| catId := "condiments"; catName := "Condiments"; catEmoji := "🧂" |};
    {| catId := "other"; catName := "Other"; catEmoji := "📦" |} ].

(** [foodCategories.find(cat => cat.id === id) || foodCategories[foodCategories.length - 1]]:
    [None] is [undefined]. *)
Definition getCategoryById (id : Val) : option Category :=
  match find (fun cat => strictEq (VString (catId cat)) id) foodCategories with
  | Some cat => Some cat
  | None => foodCategories !! (length foodCategories - 1)%nat
  end.

Definition getCategoryName (id : Val) : string :=
  match getCategoryById id with
  | Some category => catName category
  | None => "Other"
  end.

(** ** The home screen: filters and counters *)

Section Home.

(** [String.prototype.toLowerCase], a table of the Unicode standard. *)
Variable toLowerCase : string -> string.

(** [v.toLowerCase()] on a property value. *)
Definition lowerVal (v : Val) : Outcome string :=
  match v with
  | VString s => Ok (toLowerCase s)
  | VUndefined | VNull => Throw (TypeError "Cannot read properties")
  | _ => Throw (TypeError "toLowerCase is not a function")
  end.

(** The callback of the search filter, lines 24-27 of the home screen; its
    result is used as a condition. *)
Definition matchesSearch (query : string) (item : Obj) : Outcome bool :=
  obind (lowerVal (prop item "name")) (fun itemName =>
  if JSText.includes itemName query then Ok true
  else if ToBoolean (prop item "category") then
    Ok (JSText.includes (toLowerCase (getCategoryName (prop item "category"))) query)
  else Ok false).

(** [items.filter(callback)] with a callback that may throw. *)
Fixpoint filterWith (p : Obj -> Outcome bool) (items : list Obj) : Outcome (list Obj) :=
  match items with
  | [] => Ok []
  | item :: rest =>
      obind (p item) (fun keep =>
      obind (filterWith p rest) (fun kept =>
      Ok (if keep then item :: kept else kept)))
  end.

Definition hasStatus (status : string) (item : Obj) : bool :=
  strictEq (prop item "status") (VString status).

Definition hasCategory (category : string) (item : Obj) : bool :=
  strictEq (prop item "category") (VString category).

(** [filteredItems], lines 18-41. *)
Definition filteredItems (items : list Obj) (searchQuery statusFilter categoryFilter : string)
  : Outcome (list Obj) :=
  obind (if negb (String.eqb (JSText.trim searchQuery) "")
         then let query := toLowerCase searchQuery in
              filterWith (matchesSearch query) items
         else Ok items) (fun filtered =>
  let filtered :=
    if negb (String.eqb statusFilter "all")
    then List.filter (hasStatus statusFilter) filtered else filtered in
  let filtered :=
    if negb (String.eqb categoryFilter "all")
    then List.filter (hasCategory categoryFilter) filtered else filtered in
  Ok filtered).

End Home.

(** The three counters of lines 43-45. *)
Definition expiringSoon (items : list Obj) : list Obj := List.filter (hasStatus "expiring") items.
Definition expiredItems (items : list Obj) : list Obj := List.filter (hasStatus "expired") items.
Definition freshItems (items : list Obj) : list Obj := List.filter (hasStatus "fresh") items.

(** ** The item forms: [AddItemScreen] and [EditItemScreen] *)

(** The fields both forms keep. *)
Record ItemForm := {
  fName : string;
  fQuantity : string;
  fExpiryDate : string;
  fEmoji : string;
  fValue : string;
  fCategory : string;
  fLoading : bool;
  fErrors : gmap string string
}.

Section Forms.

Variable host : Host.
Variable now : Z.

(** [Number(string)] gives a floating point number. The forms only ask
    whether it is [NaN] and whether it is below zero, and hand it over. *)
Variable Num : Type.
Variable NumberOf : string -> Num.
Variable numIsNaN : Num -> bool.
Variable numIsNegative : Num -> bool.

(** What [onAddItem] and [onUpdate] receive. *)
Record Payload := {
  pName : string;
  pQuantity : string;
  pExpiryDate : string;
  pEmoji : string;
  pValue : option Num;         (* [undefined] when the field is blank *)
  pCategory : option string    (* [category || null] *)
}.

(** [parseExpiryDate], lines 38-63 and 898-920: [None] is [null], [Some d]
    the date at the start of its day. *)
Definition parseExpiryDate (value : string) : Outcome (option TimeValue) :=
  let trimmed := JSText.trim value in
  if String.eqb trimmed "" then Ok None
  else
    obind (newDate host (VString trimmed)) (fun parsed =>
    obind (if isInvalid parsed
           then dayFirst host (VString trimmed) parsed (fun d => d)
           else Ok parsed) (fun parsed =>
    if isInvalid parsed then Ok None
    else Ok (Some (setHours host parsed 0 0 0 0)))).

(** [a < b] on two dates: false as soon as one is invalid. *)
Definition dateBefore (a b : TimeValue) : bool :=
  match a, b with
  | Some x, Some y => x <? y
  | _, _ => false
  end.

(** [validateForm], lines 65-97 and 922-953: the [newErrors] it stores; it
    returns whether that object has no key. *)
Definition validateForm (f : ItemForm) : Outcome (gmap string string) :=
  let newErrors : gmap string string := ∅ in
  let newErrors :=
    if String.eqb (JSText.trim (fName f)) ""
    then <["name" := "Item name is required"]> newErrors else newErrors in
  let newErrors :=
    if String.eqb (JSText.trim (fQuantity f)) ""
    then <["quantity" := "Quantity is required"]> newErrors else newErrors in
  obind
    (if String.eqb (JSText.trim (fExpiryDate f)) ""
     then Ok (<["expiryDate" := "Expiry date is required"]> newErrors)
     else
       obind (parseExpiryDate (fExpiryDate f)) (fun parsed =>
       match parsed with
       | None =>
           Ok (<["expiryDate" := "Enter a valid date (e.g. 30/11/2025)"]> newErrors)
       | Some parsed =>
           if dateBefore parsed (today host now)
           then Ok (<["expiryDate" := "Expiry date cannot be in the past"]> newErrors)
           else Ok newErrors
       end)) (fun newErrors =>
  let newErrors :=
    if negb (String.eqb (JSText.trim (fValue f)) "") then
      let numeric := NumberOf (JSText.trim (fValue f)) in
      if numIsNaN numeric || numIsNegative numeric
      then <["value" := "Enter a valid non-negative number"]> newErrors
      else newErrors
    else newErrors in
  Ok newErrors).

Definition setErrors (errors : gmap string string) (f : ItemForm) : ItemForm :=
  {| fName := fName f; fQuantity := fQuantity f; fExpiryDate := fExpiryDate f;
     fEmoji := fEmoji f; fValue := fValue f; fCategory := fCategory f;
     fLoading := fLoading f; fErrors := errors |}.

(** The object both forms build for their callback. *)
Definition payloadOf (f : ItemForm) : Payload :=
  let numericValue :=
    if negb (String.eqb (JSText.trim (fValue f)) "")
    then Some (NumberOf (JSText.trim (fValue f))) else None in
  {| pName := JSText.trim (fName f);
     pQuantity := JSText.trim (fQuantity f);
     pExpiryDate := JSText.trim (fExpiryDate f);
     pEmoji := fEmoji f;
     pValue := numericValue;
     pCategory := if String.eqb (fCategory f) "" then None else Some (fCategory f) |}.

Definition validationToast : Toast :=
  {| toastType := "error"; text1 := "Validation Error";
     text2 := "Please fill in all required fields" |}.

(** [handleSave] of the add form, lines 328-360, once its timer has fired:
    the form it leaves, what it hands to [onAddItem], and the toast. *)
Definition handleSave (f : ItemForm) : Outcome (ItemForm * option Payload * option Toast) :=
  obind (validateForm f) (fun newErrors =>
  let f := setErrors newErrors f in
  if negb (bool_decide (newErrors = ∅)) then Ok (f, None, Some validationToast)
  else
    Ok ({| fName := ""; fQuantity := ""; fExpiryDate := "";
           fEmoji := "🥬"; fValue := ""; fCategory := fCategory f;
           fLoading := false; fErrors := fErrors f |},
        Some (payloadOf f), None)).

(** [handleUpdate] of the edit form, lines 955-979. *)
Definition handleUpdate (f : ItemForm) : Outcome (ItemForm * option Payload * option Toast) :=
  obind (validateForm f) (fun newErrors =>
  let f := setErrors newErrors f in
  if negb (bool_decide (newErrors = ∅)) then Ok (f, None, Some validationToast)
  else
    Ok ({| fName := fName f; fQuantity := fQuantity f; fExpiryDate := fExpiryDate f;
           fEmoji := fEmoji f; fValue := fValue f; fCategory := fCategory f;
           fLoading := false; fErrors := fErrors f |},
        Some (payloadOf f), None)).

End Forms.

Arguments validateForm host now {Num} NumberOf numIsNaN numIsNegative f.
Arguments payloadOf {Num} NumberOf f.
Arguments handleSave host now {Num} NumberOf numIsNaN numIsNegative f.
Arguments handleUpdate host now {Num} NumberOf numIsNaN numIsNegative f.
Arguments pName {Num} _.
Arguments pQuantity {Num} _.
Arguments pExpiryDate {Num} _.
Arguments pEmoji {Num} _.
Arguments pValue {Num} _.
Arguments pCategory {Num} _.

(** ** The store client: [buildFriendlyErrorMessage] and [deletePantryItem] *)

Record Response := {
  respOk : bool;        (* [response.ok] *)
  respStatus : Z;       (* [response.status] *)
  respText : string     (* what [response.text()] resolves to *)
}.

(** What [fetch] and the reading of the body settle to. *)
Inductive Fetched :=
| FetchRejected (e : Exn)
| Responded (r : Response).

Section Service.

(** [JSON.parse(rawText)] as far as the function looks at it: the [detail]
    of the parsed value when the text parses to a value that is truthy and
    whose [detail] is a string, [None] otherwise, a parse error included. *)
Variable jsonDetail : string -> option string.

Definition unavailable : string :=
  "Service is not available right now. Please try again later.".

Definition buildFriendlyErrorMessage
    (response : option Response) (rawText defaultMessage : string) : string :=
  if String.eqb rawText "" then
    match response with
    | None => "Unable to reach the server. Please check your connection."
    | Some r => if respStatus r =? 404 then unavailable else defaultMessage
    end
  else
    match jsonDetail rawText with
    | Some detail => if String.eqb detail "Not Found" then unavailable else detail
    | None =>
        if (0 <? String.length (JSText.trim rawText))%nat then rawText
        else defaultMessage
    end.

(** [deletePantryItem], lines 236-257: an [Error] is [Rejected] with its
    message; a [TypeError] is replaced, anything else thrown again. *)
Definition deletePantryItem (fetched : Fetched) : Outcome unit :=
  tryCatch
    (match fetched with
     | FetchRejected e => Throw e
     | Responded r =>
         if negb (respOk r) then
           Throw (Rejected (buildFriendlyErrorMessage (Some r) (respText r)
                              "Unable to delete item. Please try again."))
         else Ok tt
     end)
    (fun error =>
       match error with
       | TypeError _ =>
           Throw (Rejected
                    "Unable to reach the server. Please check your internet connection.")
       | _ => Throw error
       end).

End Service.

(** ** Sample inputs for the screens *)

Module Demo.

(** Lower case of the letters A to Z; other bytes are kept. *)
Definition lowerAscii (c : ascii) : ascii :=
  let n := nat_of_ascii c in
  if ((65 <=? n) && (n <=? 90))%nat then ascii_of_nat (n + 32) else c.

Fixpoint toLowerCase (s : string) : string :=
  match s with
  | EmptyString => EmptyString
  | String c rest => String (lowerAscii c) (toLowerCase rest)
  end.

(** Whole numbers stand for the values typed in the form. *)
Definition NumberOf (s : string) : option Z := JSString.parseInt s.
Definition numIsNaN (n : option Z) : bool := isInvalid n.
Definition numIsNegative (n : option Z) : bool := ltNum n 0.

Definition form (name quantity expiry value : string) : ItemForm :=
  {| fName := name; fQuantity := quantity; fExpiryDate := expiry;
     fEmoji := "🥬"; fValue := value; fCategory := "dairy";
     fLoading := false; fErrors := ∅ |}.

Definition denied : Answers :=
  {| cancelAllResolves := true;
     existingPermission := Ok "undetermined";
     requestedPermission := Ok "denied";
     setChannelResolves := true;
     scheduleResolves := fun _ => true |}.

End Demo.

(** * Properties *)

(** ** The built-ins on sample inputs *)

Example split_day_first : JSString.split "30/11/2025" = ["30"; "11"; "2025"].
Proof. reflexivity. Qed.

Example split_empty_parts : JSString.split "a//b-" = ["a"; ""; "b"; ""].
Proof. reflexivity. Qed.

Example split_no_separator : JSString.split "Nov 30, 2025" = ["Nov 30, 2025"].
Proof. reflexivity. Qed.

Example parseInt_samples :
  JSString.parseInt "  -12ab" = Some (-12)
  /\ JSString.parseInt "007" = Some 7
  /\ JSString.parseInt "x12" = None
  /\ JSString.parseInt "" = None
  /\ JSString.parseInt "-" = None.
Proof. repeat split; vm_compute; reflexivity. Qed.

Example MakeDay_2025_11_30 :
  MakeDay 2025 10 30 = Some 20422
  /\ YearFromTime (20422 * msPerDay) = 2025
  /\ MonthFromTime (20422 * msPerDay) = 10
  /\ DateFromTime (20422 * msPerDay) = 30.
Proof. repeat split; reflexivity. Qed.

(** Month 44 rolls over: "13/45/2025" read day-first is 13 September 2028. *)
Example MakeDay_rolls_over : MakeDay 2025 44 13 = MakeDay 2028 8 13.
Proof. reflexivity. Qed.

Example Manila_parse_samples :
  Manila.parse "Nov 30, 2025" = Some (Manila.at_ 2025 11 30 0)
  /\ Manila.parse "2025-11-30" = Some (Manila.at_ 2025 11 30 8)
  /\ Manila.parse "30/11/2025" = None
  /\ Manila.parse "not a date" = None
  /\ Manila.parse "" = None.
Proof. repeat split; vm_compute; reflexivity. Qed.

(** ** The calendar *)

Lemma DayFromYear_step (y : Z) : DayFromYear (y + 1) - DayFromYear y = DaysInYear y.
Proof.
  unfold DayFromYear, DaysInYear.
  destruct (Z.eqb_spec (y mod 4) 0), (Z.eqb_spec (y mod 100) 0),
    (Z.eqb_spec (y mod 400) 0); simpl; Z.div_mod_to_equations; lia.
Qed.

(** [YearFromTime] is the year the standard asks for: the largest one whose
    first day is not after [t]. *)
Lemma YearFromTime_spec (t : Z) :
  DayFromYear (YearFromTime t) <= Day t < DayFromYear (YearFromTime t + 1).
Proof.
  unfold YearFromTime, DayFromYear.
  generalize (Day t) as d. intros d.
  set (y0 := 1970 + d * 400 / 146097).
  destruct (Z.leb_spec (365 * (y0 + 1 - 1970) + (y0 + 1 - 1969) / 4
                        - (y0 + 1 - 1901) / 100 + (y0 + 1 - 1601) / 400) d);
    [| destruct (Z.leb_spec (365 * (y0 - 1970) + (y0 - 1969) / 4
                             - (y0 - 1901) / 100 + (y0 - 1601) / 400) d)];
    subst y0; Z.div_mod_to_equations; lia.
Qed.

Lemma MonthFromTime_range (t : Z) : 0 <= MonthFromTime t <= 11.
Proof.
  unfold MonthFromTime.
  repeat match goal with
         | |- context [if ?c then _ else _] => destruct c
         end; lia.
Qed.

(** [d.setDate(d.getDate() - k)] moves the day back by [k]: within the
    month or across its start. *)
Lemma MakeDay_back (t k day : Z) :
  MakeDay (YearFromTime t) (MonthFromTime t) (DateFromTime t - k) = Some day ->
  day = Day t - k.
Proof.
  pose proof (MonthFromTime_range t) as Hm.
  unfold MakeDay.
  replace (MonthFromTime t / 12) with 0 by (symmetry; apply Z.div_small; lia).
  rewrite Z.mod_small by lia. rewrite Z.add_0_r.
  destruct (maxTime <? _); [discriminate |].
  intros [= <-]. unfold DateFromTime, InLeapYear, DayWithinYear. lia.
Qed.

(** ** Dates and the classifier *)

Lemma ceilDiv_spec (a b : Z) :
  0 < b -> (ceilDiv a b - 1) * b < a <= ceilDiv a b * b.
Proof.
  intros Hb. unfold ceilDiv.
  pose proof (Z.div_mod (- a) b ltac:(lia)) as Hdm.
  pose proof (Z.mod_pos_bound (- a) b Hb) as Hm.
  nia.
Qed.

Lemma ceilDiv_least (a b n : Z) :
  0 < b -> a <= n * b -> ceilDiv a b <= n.
Proof.
  intros Hb Hn. pose proof (ceilDiv_spec a b Hb). nia.
Qed.

Section ClassifierFacts.

Variable host : Host.
Variable now : Z.

Lemma newDate_returns (v : Val) : exists d, newDate host v = Ok d.
Proof. destruct v; simpl; eauto. Qed.

Lemma setHours_midnight (t : Z) :
  setHours host (Some t) 0 0 0 0
  = TimeClip (UTC host (Day (LocalTime host t) * msPerDay)).
Proof.
  unfold setHours, MakeDate, MakeTime. simpl. do 2 f_equal. lia.
Qed.

(** Whatever the [catch] block holds, the [try] block decides the date. *)
Lemma tryCatch_newDate (v : Val) (h : Exn -> Outcome (option TimeValue)) :
  exists d, newDate host v = Ok d
            /\ tryCatch (obind (newDate host v) (fun d => Ok (Some d))) h = Ok (Some d).
Proof.
  destruct (newDate_returns v) as [d Hd]. exists d. rewrite Hd. auto.
Qed.

Lemma calculateExpiryStatus_invalid (v : Val) :
  newDate host v = Ok None -> calculateExpiryStatus host now v = fresh.
Proof.
  intros Hv. unfold calculateExpiryStatus, calculateExpiryStatusBody, classifierExpiryDate.
  rewrite Hv. simpl. destruct (ToBoolean v); reflexivity.
Qed.

Lemma calculateExpiryStatus_valid (v : Val) (t : Z) :
  ToBoolean v = true ->
  newDate host v = Ok (Some t) ->
  calculateExpiryStatus host now v
  = statusOfDays (classifierDaysUntilExpiry host now (Some t)).
Proof.
  intros Hb Hv. unfold calculateExpiryStatus, calculateExpiryStatusBody, classifierExpiryDate.
  rewrite Hb, Hv. reflexivity.
Qed.

Lemma calculateExpiryStatus_falsy (v : Val) :
  ToBoolean v = false -> calculateExpiryStatus host now v = fresh.
Proof. intros Hb. unfold calculateExpiryStatus. rewrite Hb. reflexivity. Qed.

Lemma ToBoolean_string (s : string) : s <> "" -> ToBoolean (VString s) = true.
Proof.
  intros Hs. simpl. destruct (String.eqb_spec s ""); [contradiction | reflexivity].
Qed.

(** The day-first reading cannot succeed where the constructor succeeded:
    a string both strategies reject is in particular one the constructor
    rejects. *)
Lemma schedulerExpiryDate_invalid (v : Val) :
  schedulerExpiryDate host v = Ok None -> newDate host v = Ok None.
Proof.
  unfold schedulerExpiryDate. destruct (newDate_returns v) as [d Hd]. rewrite Hd. simpl.
  destruct d as [t|]; simpl; [discriminate | reflexivity].
Qed.

End ClassifierFacts.

(** Lines 82-97 on a date the constructor gave: [daysUntilExpiry] is the
    ceiling of the difference, in days, of the two local midnights, and the
    result is [expired] below 0, [expiring] from 0 to 3, [fresh] above 3. *)
Lemma constructor_date_thresholds
    (host : Host) (now : Z) (s : string) (t e t0 : Z) :
  s <> "" ->
  newDate host (VString s) = Ok (Some t) ->
  setHours host (Some t) 0 0 0 0 = Some e ->
  setHours host (Some now) 0 0 0 0 = Some t0 ->
  let daysUntilExpiry := ceilDiv (e - t0) msPerDay in
  e = UTC host (Day (LocalTime host t) * msPerDay)
  /\ t0 = UTC host (Day (LocalTime host now) * msPerDay)
  /\ classifierDaysUntilExpiry host now (Some t) = Some daysUntilExpiry
  /\ (daysUntilExpiry - 1) * msPerDay < e - t0 <= daysUntilExpiry * msPerDay
  /\ calculateExpiryStatus host now (VString s)
     = statusOfDays (Some daysUntilExpiry)
  /\ (daysUntilExpiry < 0 -> calculateExpiryStatus host now (VString s) = expired)
  /\ (0 <= daysUntilExpiry <= 3 -> calculateExpiryStatus host now (VString s) = expiring)
  /\ (3 < daysUntilExpiry -> calculateExpiryStatus host now (VString s) = fresh).
Proof.
  intros Hs Hv He Ht0 days.
  assert (Hdays : classifierDaysUntilExpiry host now (Some t) = Some days).
  { unfold classifierDaysUntilExpiry, today. rewrite He, Ht0. reflexivity. }
  assert (Hst : calculateExpiryStatus host now (VString s) = statusOfDays (Some days)).
  { rewrite (calculateExpiryStatus_valid host now _ t (ToBoolean_string s Hs) Hv).
    now rewrite Hdays. }
  split.
  { rewrite setHours_midnight in He. unfold TimeClip in He.
    destruct (maxTime <? _); congruence. }
  split.
  { rewrite setHours_midnight in Ht0. unfold TimeClip in Ht0.
    destruct (maxTime <? _); congruence. }
  split; [exact Hdays |].
  split; [apply ceilDiv_spec; reflexivity |].
  split; [exact Hst |].
  rewrite Hst. unfold statusOfDays, ltNum, leNum.
  repeat split; intros Hd.
  - destruct (Z.ltb_spec days 0); [reflexivity | lia].
  - destruct (Z.ltb_spec days 0); [lia |].
    destruct (Z.leb_spec days 3); [reflexivity | lia].
  - destruct (Z.ltb_spec days 0); [lia |].
    destruct (Z.leb_spec days 3); [lia | reflexivity].
Qed.

(** When the constructor gives a date, the scheduler keeps it; when the
    scheduler has a date the constructor did not give, the constructor gave
    the invalid date and the date is the day-first one. *)
Lemma schedulerExpiryDate_cases (host : Host) (s : string) (t : Z) :
  schedulerExpiryDate host (VString s) = Ok (Some t) ->
  newDate host (VString s) = Ok (Some t)
  \/ (newDate host (VString s) = Ok None
      /\ dayFirst host (VString s) None (fun d => d) = Ok (Some t)).
Proof.
  unfold schedulerExpiryDate.
  destruct (newDate_returns host (VString s)) as [[t' |] Hd]; rewrite Hd; simpl.
  - intros [= ->]. now left.
  - intros Hday. now right.
Qed.

(** C1, with the strings on which the code departs from it. A string
    resolves to a date when the constructor or, failing that, the day-first
    reading gives one: the resolution spelt out in lines 129-142.
    [daysUntilExpiry] is then the ceiling of the difference, in days, of the
    two local midnights. On a date the constructor gave, the classifier
    returns [expired] below 0, [expiring] from 0 to 3 and [fresh] above 3. On
    a date that only the day-first reading gives, the classifier never reads
    it and returns [fresh] whatever [daysUntilExpiry] is, which is not the
    status of the thresholds as soon as [daysUntilExpiry] is 3 or less. *)
Theorem thresholds_missed_on_day_first_dates
    (host : Host) (now : Z) (s : string) (t e t0 : Z) :
  s <> "" ->
  schedulerExpiryDate host (VString s) = Ok (Some t) ->
  setHours host (Some t) 0 0 0 0 = Some e ->
  setHours host (Some now) 0 0 0 0 = Some t0 ->
  let daysUntilExpiry := ceilDiv (e - t0) msPerDay in
  e = UTC host (Day (LocalTime host t) * msPerDay)
  /\ t0 = UTC host (Day (LocalTime host now) * msPerDay)
  /\ ceilDays (setHours host (Some t) 0 0 0 0) (today host now) = Some daysUntilExpiry
  /\ (daysUntilExpiry - 1) * msPerDay < e - t0 <= daysUntilExpiry * msPerDay
  /\ (newDate host (VString s) = Ok (Some t) ->
      calculateExpiryStatus host now (VString s) = statusOfDays (Some daysUntilExpiry)
      /\ (daysUntilExpiry < 0 -> calculateExpiryStatus host now (VString s) = expired)
      /\ (0 <= daysUntilExpiry <= 3 ->
          calculateExpiryStatus host now (VString s) = expiring)
      /\ (3 < daysUntilExpiry -> calculateExpiryStatus host now (VString s) = fresh))
  /\ (newDate host (VString s) <> Ok (Some t) ->
      newDate host (VString s) = Ok None
      /\ dayFirst host (VString s) None (fun d => d) = Ok (Some t)
      /\ calculateExpiryStatus host now (VString s) = fresh
      /\ (daysUntilExpiry < 0 -> statusOfDays (Some daysUntilExpiry) = expired)
      /\ (0 <= daysUntilExpiry <= 3 -> statusOfDays (Some daysUntilExpiry) = expiring)
      /\ (daysUntilExpiry <= 3 ->
          calculateExpiryStatus host now (VString s)
          <> statusOfDays (Some daysUntilExpiry))).
Proof.
  intros Hs Hsch He Ht0 days.
  assert (Hdays : ceilDays (setHours host (Some t) 0 0 0 0) (today host now) = Some days).
  { unfold today. rewrite He, Ht0. reflexivity. }
  assert (Hlow : days < 0 -> statusOfDays (Some days) = expired).
  { intros Hd. unfold statusOfDays, ltNum.
    destruct (Z.ltb_spec days 0); [reflexivity | lia]. }
  assert (Hmid : 0 <= days <= 3 -> statusOfDays (Some days) = expiring).
  { intros Hd. unfold statusOfDays, ltNum, leNum.
    destruct (Z.ltb_spec days 0); [lia |].
    destruct (Z.leb_spec days 3); [reflexivity | lia]. }
  split.
  { rewrite setHours_midnight in He. unfold TimeClip in He.
    destruct (maxTime <? _); congruence. }
  split.
  { rewrite setHours_midnight in Ht0. unfold TimeClip in Ht0.
    destruct (maxTime <? _); congruence. }
  split; [exact Hdays |].
  split; [apply ceilDiv_spec; reflexivity |].
  split.
  - intros Hv.
    destruct (constructor_date_thresholds host now s t e t0 Hs Hv He Ht0)
      as (_ & _ & _ & _ & Hst & Hexpired & Hexpiring & Hfresh).
    split_and!; assumption.
  - intros Hv.
    destruct (schedulerExpiryDate_cases host s t Hsch) as [Hc | [Hnone Hday]];
      [contradiction |].
    assert (Hst : calculateExpiryStatus host now (VString s) = fresh)
      by now apply calculateExpiryStatus_invalid.
    split_and!; try assumption.
    intros Hd. rewrite Hst.
    destruct (Z.lt_ge_cases days 0) as [Hneg | Hpos].
    + now rewrite Hlow.
    + rewrite Hmid by lia. discriminate.
Qed.

(** C2. A string on which date resolution fails is classified [fresh]: the
    empty string, a string the constructor rejects, and so any string that
    both the constructor and the day-first reading reject. It is never
    [expired] and never [expiring]. *)
Theorem calculateExpiryStatus_fail_open (host : Host) (now : Z) (s : string) :
  s = ""
  \/ newDate host (VString s) = Ok None
  \/ schedulerExpiryDate host (VString s) = Ok None ->
  calculateExpiryStatus host now (VString s) = fresh
  /\ calculateExpiryStatus host now (VString s) <> expired
  /\ calculateExpiryStatus host now (VString s) <> expiring.
Proof.
  intros H.
  assert (Hf : calculateExpiryStatus host now (VString s) = fresh).
  { destruct H as [-> | [H | H]].
    - reflexivity.
    - now apply calculateExpiryStatus_invalid.
    - now apply calculateExpiryStatus_invalid, schedulerExpiryDate_invalid. }
  rewrite Hf. repeat split; discriminate.
Qed.

(** ** The run monad and the subsystem *)

Lemma wapp_empty_r (w : World) : wapp w emptyWorld = w.
Proof. destruct w. unfold wapp. simpl. now rewrite !app_nil_r. Qed.

Lemma wapp_empty_l (w : World) : wapp emptyWorld w = w.
Proof. destruct w. reflexivity. Qed.

Lemma wapp_assoc (a b c : World) : wapp (wapp a b) c = wapp a (wapp b c).
Proof. unfold wapp. simpl. now rewrite <- !app_assoc. Qed.

Lemma framed_ret {A} (a : A) : framed (mret a).
Proof. intros w k. cbn. now rewrite wapp_empty_r. Qed.

Lemma framed_liftOutcome {A} (o : Outcome A) : framed (liftOutcome o).
Proof. intros w k. cbn. now rewrite wapp_empty_r. Qed.

Lemma framed_bind {A B} (m : Run A) (f : A -> Run B) :
  framed m -> (forall a, framed (f a)) -> framed (m ≫= f).
Proof.
  intros Hm Hf w k. unfold mbind, Run_bind. rewrite (Hm w k).
  destruct (m {| world := emptyWorld; calls := k |}) as [[a | e] [w1 k1]]; simpl.
  - rewrite (Hf a (wapp w w1) k1), (Hf a w1 k1). simpl. now rewrite wapp_assoc.
  - reflexivity.
Qed.

Lemma framed_tryRun {A} (m : Run A) (h : Exn -> Run A) :
  framed m -> (forall e, framed (h e)) -> framed (tryRun m h).
Proof.
  intros Hm Hh w k. unfold tryRun. rewrite (Hm w k).
  destruct (m {| world := emptyWorld; calls := k |}) as [[a | e] [w1 k1]]; simpl.
  - reflexivity.
  - rewrite (Hh e (wapp w w1) k1), (Hh e w1 k1). simpl. now rewrite wapp_assoc.
Qed.

Lemma framed_whenRun (c : bool) (m : Run unit) : framed m -> framed (whenRun c m).
Proof. destruct c; simpl; [auto | intros _; apply framed_ret]. Qed.

Lemma framed_consoleWrite (line : string) : framed (consoleWrite line).
Proof. intros w k. cbn. unfold wapp. simpl. now rewrite !app_nil_r. Qed.

Lemma framed_setNotificationChannelAsync (a : Answers) (name : string) :
  framed (setNotificationChannelAsync a name).
Proof.
  intros w k. unfold setNotificationChannelAsync.
  destruct (setChannelResolves a); cbn; unfold wapp; simpl; rewrite ?app_nil_r;
    [reflexivity | now destruct w].
Qed.

Lemma framed_scheduleNotificationAsync (a : Answers) (r : Request) :
  framed (scheduleNotificationAsync a r).
Proof.
  intros w k. unfold scheduleNotificationAsync, accept, recordAttempt. simpl.
  destruct (scheduleResolves a k), (trigger r); cbn; unfold wapp; simpl;
    now rewrite !app_nil_r.
Qed.

Lemma framed_submit (a : Answers) (rs : list Request) : framed (submit a rs).
Proof.
  induction rs as [| r rs IH]; simpl.
  - apply framed_ret.
  - apply framed_bind; [apply framed_scheduleNotificationAsync | intros _; exact IH].
Qed.

Create HintDb framed.

#[local] Hint Resolve framed_ret framed_liftOutcome framed_consoleWrite
  framed_setNotificationChannelAsync framed_scheduleNotificationAsync
  framed_submit framed_whenRun : framed.

Lemma framed_ext {A} (m m' : Run A) :
  (forall st, m st = m' st) -> framed m' -> framed m.
Proof. intros He Hm w k. rewrite !He. apply Hm. Qed.

(** What [submit] leaves behind. *)
Lemma submit_attempts (a : Answers) (rs : list Request) (st : RunState) :
  attempts (world (snd (submit a rs st)))
  = attempts (world st) ++ submitted a (calls st) rs.
Proof.
  revert st. induction rs as [| r rs IH]; intros st; simpl.
  - cbn. now rewrite app_nil_r.
  - unfold mbind, Run_bind, scheduleNotificationAsync.
    destruct (scheduleResolves a (calls st)).
    + rewrite IH. simpl. unfold accept, recordAttempt.
      destruct (trigger r); simpl; now rewrite <- app_assoc.
    + simpl. reflexivity.
Qed.

Lemma submit_console (a : Answers) (rs : list Request) (st : RunState) :
  console (world (snd (submit a rs st))) = console (world st).
Proof.
  revert st. induction rs as [| r rs IH]; intros st; simpl.
  - reflexivity.
  - unfold mbind, Run_bind, scheduleNotificationAsync.
    destruct (scheduleResolves a (calls st)).
    + rewrite IH. simpl. unfold accept, recordAttempt. destruct (trigger r); reflexivity.
    + reflexivity.
Qed.

Lemma submit_returns (a : Answers) (rs : list Request) (st : RunState) :
  fst (submit a rs st)
  = if allAccepted a (calls st) rs then Ok tt
    else Throw (Rejected "scheduleNotificationAsync").
Proof.
  revert st. induction rs as [| r rs IH]; intros st; simpl.
  - reflexivity.
  - unfold mbind, Run_bind, scheduleNotificationAsync.
    destruct (scheduleResolves a (calls st)); simpl.
    + now rewrite IH.
    + reflexivity.
Qed.

Lemma submitted_allAccepted (a : Answers) (k : nat) (rs : list Request) :
  allAccepted a k rs = true -> submitted a k rs = rs.
Proof.
  revert k. induction rs as [| r rs IH]; intros k; simpl; [reflexivity |].
  destruct (scheduleResolves a k); simpl; [| discriminate].
  intros H. now rewrite IH.
Qed.

Lemma submitted_head (a : Answers) (k : nat) (rs : list Request) :
  head (submitted a k rs) = head rs.
Proof. destruct rs; reflexivity. Qed.

Lemma allAccepted_allResolve (k : nat) (rs : list Request) :
  allAccepted allResolve k rs = true.
Proof. revert k. induction rs; intros k; simpl; auto. Qed.

(** ** One turn of the loop *)

Section LoopFacts.

Variable host : Host.
Variable answers : Answers.
Variable now : Z.

(** The four guarded calls hand over [remindersFor], in that order. *)
Lemma scheduleReminders_submit (item : Obj) (d : TimeValue) (st : RunState) :
  scheduleReminders host answers (today host now) item d st
  = submit answers
      (remindersFor host item (setHours host d 0 0 0 0)
         (ceilDays (setHours host d 0 0 0 0) (today host now))) st.
Proof.
  unfold scheduleReminders, remindersFor.
  generalize (ceilDays (setHours host d 0 0 0 0) (today host now)) as days.
  intros days.
  destruct (geNum days 0), (geNum days 1), (geNum days 3),
    (ltNum days 0 && geNum days (-1)); simpl;
    unfold mbind, Run_bind, mret, Run_ret, scheduleNotificationAsync; simpl;
    repeat (match goal with
            | |- context [scheduleResolves answers ?k] =>
                destruct (scheduleResolves answers k); simpl
            end);
    reflexivity.
Qed.

(** A turn hands over the reminders of the item and catches what is thrown. *)
Lemma scheduleItem_submit (item : Obj) (st : RunState) :
  scheduleItem host answers (today host now) item st
  = match (if ToBoolean (prop item "expiry_date")
           then schedulerExpiryDate host (prop item "expiry_date")
           else Ok None) with
    | Ok _ =>
        tryRun (submit answers (itemReminders host now item))
               (fun _ => consoleWrite (errorLine item)) st
    | Throw _ => consoleWrite (errorLine item) st
    end.
Proof.
  unfold scheduleItem, itemReminders, itemDaysUntilExpiry, itemExpiryDate.
  destruct (ToBoolean (prop item "expiry_date")); simpl.
  - unfold tryRun at 1. unfold mbind, Run_bind, liftOutcome.
    destruct (schedulerExpiryDate host (prop item "expiry_date")) as [d | e]; simpl.
    + destruct d as [t |]; simpl.
      * rewrite scheduleReminders_submit. reflexivity.
      * reflexivity.
    + reflexivity.
  - reflexivity.
Qed.

Lemma framed_scheduleItem (item : Obj) :
  framed (scheduleItem host answers (today host now) item).
Proof.
  eapply framed_ext; [apply scheduleItem_submit |].
  destruct (if ToBoolean (prop item "expiry_date")
            then schedulerExpiryDate host (prop item "expiry_date")
            else Ok None).
  - apply framed_tryRun; auto with framed.
  - auto with framed.
Qed.

Lemma framed_forEachItem (items : list Obj) :
  framed (forEachItem host answers (today host now) items).
Proof.
  induction items as [| item rest IH]; simpl.
  - apply framed_ret.
  - apply framed_bind; [apply framed_scheduleItem | intros _; exact IH].
Qed.

Lemma framed_requestNotificationPermissions :
  framed (requestNotificationPermissions host answers).
Proof.
  unfold requestNotificationPermissions.
  destruct (decide (OS host = web)); [apply framed_ret |].
  apply framed_tryRun.
  - apply framed_bind; [apply framed_liftOutcome |]. intros existing.
    apply framed_bind.
    + destruct (negb (existing =? "granted")%string);
        [apply framed_liftOutcome | apply framed_ret].
    + intros final. destruct (negb (final =? "granted")%string).
      * apply framed_bind; [apply framed_consoleWrite | intros _; apply framed_ret].
      * apply framed_bind; [| intros _; apply framed_ret].
        apply framed_whenRun, framed_setNotificationChannelAsync.
  - intros _. apply framed_bind; [apply framed_consoleWrite | intros _; apply framed_ret].
Qed.

(** A turn returns: whatever is thrown inside is caught and logged. It
    reaches the reminders of its item up to the first rejection. *)
Lemma scheduleItem_turn (item : Obj) (st : RunState) :
  fst (scheduleItem host answers (today host now) item st) = Ok tt
  /\ attempts (world (snd (scheduleItem host answers (today host now) item st)))
     = attempts (world st) ++ submitted answers (calls st) (itemReminders host now item)
  /\ (allAccepted answers (calls st) (itemReminders host now item) = false ->
      console (world (snd (scheduleItem host answers (today host now) item st)))
      = console (world st) ++ [errorLine item]).
Proof.
  rewrite scheduleItem_submit.
  destruct (if ToBoolean (prop item "expiry_date")
            then schedulerExpiryDate host (prop item "expiry_date")
            else Ok None) as [d | e] eqn:Hres.
  - unfold tryRun.
    pose proof (submit_returns answers (itemReminders host now item) st) as Hr.
    pose proof (submit_attempts answers (itemReminders host now item) st) as Ha.
    pose proof (submit_console answers (itemReminders host now item) st) as Hc.
    destruct (submit answers (itemReminders host now item) st) as [[[] | e] st'];
      simpl in *.
    + repeat split; [exact Ha |].
      intros Hf. rewrite Hf in Hr. discriminate.
    + repeat split; [exact Ha |]. intros _. now rewrite Hc.
  - assert (Hnil : itemReminders host now item = []).
    { unfold itemReminders, itemDaysUntilExpiry, itemExpiryDate.
      destruct (ToBoolean (prop item "expiry_date")); simpl in *; [| discriminate].
      rewrite Hres. reflexivity. }
    rewrite Hnil. simpl. rewrite app_nil_r. repeat split; reflexivity.
Qed.

Lemma forEachItem_returns (items : list Obj) (st : RunState) :
  fst (forEachItem host answers (today host now) items st) = Ok tt.
Proof.
  revert st. induction items as [| item rest IH]; intros st; simpl; [reflexivity |].
  unfold mbind, Run_bind.
  destruct (scheduleItem_turn item st) as [Hr _].
  destruct (scheduleItem host answers (today host now) item st) as [[[] | e] st'];
    simpl in Hr; [apply IH | discriminate].
Qed.

(** The loop reaches the first reminder of every item. *)
Lemma forEachItem_attempts (items : list Obj) (st : RunState) :
  exists l,
    attempts (world (snd (forEachItem host answers (today host now) items st)))
    = attempts (world st) ++ l
    /\ forall item r,
         item ∈ items -> head (itemReminders host now item) = Some r -> r ∈ l.
Proof.
  revert st. induction items as [| item rest IH]; intros st; simpl.
  - exists []. split; [now rewrite app_nil_r |]. intros item r Hin. inversion Hin.
  - unfold mbind, Run_bind.
    destruct (scheduleItem_turn item st) as (Hr & Ha & _).
    destruct (scheduleItem host answers (today host now) item st) as [[[] | e] st'];
      simpl in Hr, Ha; [| discriminate].
    destruct (IH st') as (l & Hl & Hin).
    exists (submitted answers (calls st) (itemReminders host now item) ++ l).
    split; [rewrite Hl, Ha; now rewrite <- app_assoc |].
    intros x r Hx Hhead. apply elem_of_cons in Hx as [-> | Hx].
    + apply elem_of_app. left.
      rewrite <- (submitted_head answers (calls st)) in Hhead.
      destruct (submitted answers (calls st) (itemReminders host now item));
        simpl in Hhead; [discriminate |].
      injection Hhead as ->. apply elem_of_cons. now left.
    + apply elem_of_app. right. eauto.
Qed.

End LoopFacts.

(** With every call resolving, a turn reaches all the reminders of its item. *)
Lemma itemPlan_reminders (host : Host) (now : Z) (item : Obj) :
  itemPlan host now item = itemReminders host now item.
Proof.
  unfold itemPlan.
  destruct (scheduleItem_turn host allResolve now item
              {| world := emptyWorld; calls := 0 |}) as (_ & Ha & _).
  rewrite Ha. simpl.
  apply submitted_allAccepted, allAccepted_allResolve.
Qed.



(** ** The whole run *)

Section RunFacts.

Variable host : Host.
Variable answers : Answers.
Variable now : Z.

Lemma framed_afterCancel (items : list Obj) :
  framed (afterCancel host answers now items).
Proof.
  apply framed_bind; [apply framed_requestNotificationPermissions |].
  intros granted. destruct granted; simpl;
    [apply framed_forEachItem | apply framed_ret].
Qed.

Lemma run_web (items : list Obj) (st : RunState) :
  OS host = web -> scheduleExpiryNotificationsRun host answers now items st = (Ok tt, st).
Proof.
  intros Hweb. unfold scheduleExpiryNotificationsRun.
  destruct (decide (OS host = web)); [reflexivity | contradiction].
Qed.

Lemma run_cancel_rejected (items : list Obj) (st : RunState) :
  OS host <> web -> cancelAllResolves answers = false ->
  scheduleExpiryNotificationsRun host answers now items st
  = consoleWrite "Error scheduling expiry notifications:" st.
Proof.
  intros Hweb Hc. unfold scheduleExpiryNotificationsRun.
  destruct (decide (OS host = web)); [contradiction |].
  unfold tryRun, mbind, Run_bind, cancelAllScheduledNotificationsAsync.
  rewrite Hc. reflexivity.
Qed.

Lemma run_cancel_resolved (items : list Obj) (w : World) (k : nat) :
  OS host <> web -> cancelAllResolves answers = true ->
  scheduleExpiryNotificationsRun host answers now items {| world := w; calls := k |}
  = tryRun (afterCancel host answers now items)
           (fun _ => consoleWrite "Error scheduling expiry notifications:")
           {| world := clearScheduled w; calls := k |}.
Proof.
  intros Hweb Hc. unfold scheduleExpiryNotificationsRun.
  destruct (decide (OS host = web)); [contradiction |].
  unfold tryRun, mbind at 1, Run_bind at 1, cancelAllScheduledNotificationsAsync.
  rewrite Hc. reflexivity.
Qed.

(** After a cancellation that resolved, what waits does not depend on the
    world the run started from. *)
Lemma scheduled_after_cancel (items : list Obj) (w : World) :
  OS host <> web -> cancelAllResolves answers = true ->
  scheduled (scheduleExpiryNotifications host answers now items w)
  = scheduled (scheduleExpiryNotifications host answers now items emptyWorld).
Proof.
  intros Hweb Hc. unfold scheduleExpiryNotifications.
  rewrite !run_cancel_resolved by assumption.
  assert (Hf : framed (tryRun (afterCancel host answers now items)
                         (fun _ => consoleWrite "Error scheduling expiry notifications:"))).
  { apply framed_tryRun; [apply framed_afterCancel | intros _; apply framed_consoleWrite]. }
  rewrite (Hf (clearScheduled w) 0%nat), (Hf (clearScheduled emptyWorld) 0%nat).
  reflexivity.
Qed.

Lemma run_granted (items : list Obj) (w : World) :
  OS host <> web -> cancelAllResolves answers = true ->
  fst (requestNotificationPermissions host answers
         {| world := emptyWorld; calls := 0 |}) = Ok true ->
  exists st,
    scheduleExpiryNotificationsRun host answers now items {| world := w; calls := 0 |}
    = forEachItem host answers (today host now) items st.
Proof.
  intros Hweb Hc Hg. rewrite run_cancel_resolved by assumption.
  unfold tryRun, afterCancel, mbind, Run_bind.
  rewrite (framed_requestNotificationPermissions host answers (clearScheduled w) 0%nat).
  rewrite Hg. simpl.
  match goal with
  | |- context [forEachItem host answers (today host now) items ?st0] => exists st0
  end.
  pose proof (forEachItem_returns host answers now items) as Hr.
  match goal with
  | |- context [forEachItem host answers (today host now) items ?st0] =>
      specialize (Hr st0);
      destruct (forEachItem host answers (today host now) items st0) as [[[] | e] st']
  end; simpl in Hr; [reflexivity | discriminate].
Qed.

End RunFacts.

Lemma run_same_day (host : Host) (answers : Answers) (now1 now2 : Z)
    (items : list Obj) (w : World) :
  today host now1 = today host now2 ->
  scheduleExpiryNotifications host answers now1 items w
  = scheduleExpiryNotifications host answers now2 items w.
Proof.
  intros Hday.
  unfold scheduleExpiryNotifications, scheduleExpiryNotificationsRun, afterCancel.
  now rewrite Hday.
Qed.

(** ** The claims about the reminders *)


(** C5. Reconciliation is idempotent: a second run over the same items on
    the same day, answered by the subsystem as the first was, leaves the
    same reminders waiting as the first run alone. The reason is the
    cancellation: once it has resolved, what waits after a run does not
    depend on what waited before. *)
Theorem scheduleExpiryNotifications_idempotent
    (host : Host) (answers : Answers) (now1 now2 : Z) (items : list Obj) (w : World) :
  today host now1 = today host now2 ->
  scheduled (scheduleExpiryNotifications host answers now2 items
               (scheduleExpiryNotifications host answers now1 items w))
  = scheduled (scheduleExpiryNotifications host answers now1 items w)
  /\ (OS host <> web -> cancelAllResolves answers = true ->
      scheduled (scheduleExpiryNotifications host answers now1 items w)
      = scheduled (scheduleExpiryNotifications host answers now1 items emptyWorld)).
Proof.
  intros Hday. split; [| now apply scheduled_after_cancel].
  rewrite <- (run_same_day host answers now1 now2) by exact Hday.
  destruct (decide (OS host = web)) as [Hweb | Hweb].
  - unfold scheduleExpiryNotifications. now rewrite !run_web.
  - destruct (cancelAllResolves answers) eqn:Hc.
    + rewrite (scheduled_after_cancel host answers now1 items
                 (scheduleExpiryNotifications host answers now1 items w)) by assumption.
      now rewrite (scheduled_after_cancel host answers now1 items w).
    + unfold scheduleExpiryNotifications.
      rewrite !run_cancel_rejected by assumption. reflexivity.
Qed.

(** C7, as the code has it. The [try] is around the whole turn of an item,
    not around each call: a rejected call is logged and ends the remaining
    calls of that item, and the loop goes on with the next item. So the
    first reminder planned for every item is handed over whatever was
    rejected before it, every turn returns, and a turn in which a call was
    rejected writes its line on the console. *)
Theorem scheduleExpiryNotifications_items_independent
    (host : Host) (answers : Answers) (now : Z) (items : list Obj) (w : World) :
  OS host <> web ->
  cancelAllResolves answers = true ->
  fst (requestNotificationPermissions host answers
         {| world := emptyWorld; calls := 0 |}) = Ok true ->
  (forall item r,
      item ∈ items -> head (itemPlan host now item) = Some r ->
      r ∈ attempts (scheduleExpiryNotifications host answers now items w))
  /\ (forall item st,
        let turn := scheduleItem host answers (today host now) item st in
        fst turn = Ok tt
        /\ attempts (world (snd turn))
           = attempts (world st) ++ submitted answers (calls st) (itemPlan host now item)
        /\ (allAccepted answers (calls st) (itemPlan host now item) = false ->
            console (world (snd turn)) = console (world st) ++ [errorLine item])).
Proof.
  intros Hweb Hc Hg. split.
  - intros item r Hin Hhead.
    destruct (run_granted host answers now items w Hweb Hc Hg) as [st Hst].
    unfold scheduleExpiryNotifications. rewrite Hst.
    destruct (forEachItem_attempts host answers now items st) as (l & Hl & Hall).
    rewrite Hl. apply elem_of_app. right.
    apply (Hall item r Hin). now rewrite <- itemPlan_reminders.
  - intros item st turn. subst turn. rewrite itemPlan_reminders.
    apply scheduleItem_turn.
Qed.

(** ** The handlers *)

Lemma strictEq_true (a b : Val) : strictEq a b = true <-> a = b.
Proof. unfold strictEq. apply bool_decide_eq_true. Qed.

Lemma strictEq_false (a b : Val) : strictEq a b = false <-> a <> b.
Proof. unfold strictEq. apply bool_decide_eq_false. Qed.

Lemma elem_of_ids (i : Val) (items : list Obj) :
  i ∈ ids items <-> exists o, o ∈ items /\ prop o "id" = i.
Proof.
  unfold ids. rewrite list_elem_of_In, in_map_iff.
  split; intros (o & H1 & H2); exists o.
  - split; [now apply list_elem_of_In | exact H1].
  - split; [exact H2 | now apply list_elem_of_In].
Qed.

Lemma find_by_id (itemId : Val) (items : list Obj) :
  itemId ∈ ids items ->
  exists item, find (fun i => strictEq (prop i "id") itemId) items = Some item
               /\ prop item "id" = itemId.
Proof.
  intros Hin. apply elem_of_ids in Hin as (o & Ho & Hid).
  destruct (find (fun i => strictEq (prop i "id") itemId) items) as [item |] eqn:Hf.
  - exists item. split; [reflexivity |].
    apply find_some in Hf as [_ Hf]. now apply strictEq_true.
  - apply list_elem_of_In in Ho.
    pose proof (find_none _ _ Hf o Ho) as Hn. simpl in Hn.
    apply strictEq_false in Hn. contradiction.
Qed.

Lemma ids_without (itemId i : Val) (items : list Obj) :
  (i ∈ ids (filter (fun it => negb (strictEq (prop it "id") itemId)) items))
  <-> (i ∈ ids items /\ i <> itemId).
Proof.
  rewrite !elem_of_ids. split.
  - intros (o & Ho & Hid). apply list_elem_of_filter in Ho as [Hp Ho].
    split; [eauto |]. subst i. apply negb_prop_elim in Hp.
    intros Heq. apply Hp. apply Is_true_true. now apply strictEq_true.
  - intros [(o & Ho & Hid) Hne]. exists o. split; [| exact Hid].
    apply list_elem_of_filter. split; [| exact Ho].
    apply negb_prop_intro. intros Ht. apply Is_true_true in Ht.
    apply strictEq_true in Ht. congruence.
Qed.


(** ** Batch classification *)

Section BatchFacts.

Variable host : Host.
Variable now : Z.

Lemma withStatus_status (item : Obj) :
  withStatus host now item !! "status"
  = Some (VString (statusName (calculateExpiryStatus host now (prop item "expiry_date")))).
Proof. unfold withStatus. apply lookup_insert_eq. Qed.

Lemma withStatus_other (item : Obj) (k : string) :
  k <> "status" -> withStatus host now item !! k = item !! k.
Proof. intros Hk. unfold withStatus. now apply lookup_insert_ne. Qed.

Lemma withStatus_prop (item : Obj) (k : string) :
  k <> "status" -> prop (withStatus host now item) k = prop item k.
Proof. intros Hk. unfold prop. now rewrite withStatus_other. Qed.

(** The run on the store, in closed form: the new objects are allocated at
    the end of the store, in order, and nothing else is written. *)
Lemma store_run (items : list Store.Loc) (objs : list Obj) (h : Store.Heap) :
  Forall2 (fun l o => h !! l = Some o) items objs ->
  Store.checkAndUpdateExpiryStatus host now items h
  = Some (seq (length h) (length items), h ++ map (withStatus host now) objs).
Proof.
  intros HF. revert h HF. revert objs.
  induction items as [| l rest IH]; intros objs h HF.
  - inversion HF; subst. simpl. now rewrite app_nil_r.
  - inversion HF as [| l0 o rest0 objs0 Hl Hrest]; subst. simpl.
    rewrite Hl. simpl.
    rewrite (IH objs0 (h ++ [withStatus host now o])).
    + simpl. rewrite length_app. simpl.
      replace (length h + 1)%nat with (S (length h)) by lia.
      now rewrite <- app_assoc.
    + eapply Forall2_impl; [exact Hrest |]. intros l1 o1 H1.
      now apply lookup_app_l_Some.
Qed.

Lemma store_objects (items : list Store.Loc) (h : Store.Heap) :
  Forall (fun l => (l < length h)%nat) items ->
  exists objs, Forall2 (fun l o => h !! l = Some o) items objs.
Proof.
  induction 1 as [| l rest Hl _ (objs & IH)].
  - exists []. constructor.
  - apply lookup_lt_is_Some_2 in Hl as [o Ho]. exists (o :: objs). now constructor.
Qed.

(** Read back, the new references denote the collection classified on
    values. *)
Lemma store_deref (items : list Store.Loc) (objs : list Obj) (h : Store.Heap) :
  Forall2 (fun l o => h !! l = Some o) items objs ->
  Store.deref (h ++ map (withStatus host now) objs) (seq (length h) (length items))
  = Some (checkAndUpdateExpiryStatus host now objs).
Proof.
  intros HF. apply mapM_Some. unfold checkAndUpdateExpiryStatus.
  pose proof (Forall2_length _ _ _ HF) as Hlen.
  apply Forall2_same_length_lookup_2.
  - rewrite length_seq, length_map. exact Hlen.
  - intros i l o Hl Ho. apply lookup_seq in Hl as [-> Hi].
    rewrite lookup_app_r by lia.
    replace (length h + i - length h)%nat with i by lia. exact Ho.
Qed.

End BatchFacts.

(** C9. Batch classification returns a new collection: every input object
    is left as it was, every output object is newly allocated, and the
    output at a position is the input at that position with its [status]
    replaced by the classification of its own [expiry_date] and all other
    properties kept. What one position holds does not affect another. *)
Theorem checkAndUpdateExpiryStatus_fresh_copy
    (host : Host) (now : Z) (items : list Store.Loc) (h : Store.Heap) :
  Forall (fun l => (l < length h)%nat) items ->
  exists out h',
    Store.checkAndUpdateExpiryStatus host now items h = Some (out, h')
    /\ (forall l o, h !! l = Some o -> h' !! l = Some o)
    /\ length out = length items
    /\ (forall l', l' ∈ out -> (length h <= l')%nat /\ l' ∉ items)
    /\ (forall i l,
          items !! i = Some l ->
          exists item l' item',
            h !! l = Some item /\ out !! i = Some l' /\ h' !! l' = Some item'
            /\ item' !! "status"
               = Some (VString (statusName
                         (calculateExpiryStatus host now (prop item "expiry_date"))))
            /\ forall k, k <> "status" -> item' !! k = item !! k)
    /\ (exists objs,
          Store.deref h items = Some objs
          /\ Store.deref h' out = Some (checkAndUpdateExpiryStatus host now objs))
    /\ (forall (c1 c2 : list Obj) i,
          c1 !! i = c2 !! i ->
          checkAndUpdateExpiryStatus host now c1 !! i
          = checkAndUpdateExpiryStatus host now c2 !! i).
Proof.
  intros Hall. destruct (store_objects items h Hall) as [objs HF].
  exists (seq (length h) (length items)), (h ++ map (withStatus host now) objs).
  split; [now apply store_run |].
  split; [intros l o Hl; now apply lookup_app_l_Some |].
  split; [apply length_seq |].
  split.
  { intros l' Hl'. apply elem_of_seq in Hl' as [Hge _]. split; [exact Hge |].
    intros Hin. rewrite Forall_forall in Hall.
    specialize (Hall l' Hin). simpl in Hall. lia. }
  split.
  { intros i l Hi.
    destruct (Forall2_lookup_l _ _ _ _ _ HF Hi) as (item & Hitem & Hl).
    exists item, (length h + i)%nat, (withStatus host now item).
    split; [exact Hl |].
    split; [apply lookup_seq_lt; now apply lookup_lt_Some in Hi |].
    split.
    - rewrite lookup_app_r by lia.
      replace (length h + i - length h)%nat with i by lia.
      change (map (withStatus host now) objs) with (withStatus host now <$> objs).
      now rewrite list_lookup_fmap, Hitem.
    - split; [apply withStatus_status | intros k Hk; now apply withStatus_other]. }
  split.
  { exists objs. split; [now apply mapM_Some |]. now apply store_deref. }
  intros c1 c2 i Hi. unfold checkAndUpdateExpiryStatus.
  change (map (withStatus host now) c1) with (withStatus host now <$> c1).
  change (map (withStatus host now) c2) with (withStatus host now <$> c2).
  now rewrite !list_lookup_fmap, Hi.
Qed.

(** ** Update and reclassification *)

Section UpdateFacts.

Variable host : Host.
Variable now : Z.

Lemma classified_fixed (items : list Obj) :
  checkAndUpdateExpiryStatus host now items = items ->
  forall item, item ∈ items -> withStatus host now item = item.
Proof.
  unfold checkAndUpdateExpiryStatus.
  induction items as [| x rest IH]; simpl; intros Heq item Hin.
  - inversion Hin.
  - injection Heq as Hx Hrest. apply elem_of_cons in Hin as [-> | Hin]; auto.
Qed.

(** An item whose date the constructor resolves is not read day-first. *)
Lemma schedulerExpiryDate_valid (v : Val) (t : Z) :
  newDate host v = Ok (Some t) -> schedulerExpiryDate host v = Ok (Some t).
Proof. intros Hv. unfold schedulerExpiryDate. rewrite Hv. reflexivity. Qed.

Lemma itemDaysUntilExpiry_valid (item : Obj) (t : Z) :
  ToBoolean (prop item "expiry_date") = true ->
  newDate host (prop item "expiry_date") = Ok (Some t) ->
  itemDaysUntilExpiry host now item = classifierDaysUntilExpiry host now (Some t).
Proof.
  intros Hb Hv. unfold itemDaysUntilExpiry, itemExpiryDate, classifierDaysUntilExpiry.
  rewrite Hb. simpl. now rewrite (schedulerExpiryDate_valid _ _ Hv).
Qed.





End UpdateFacts.



(** ** The day-first reading *)

Lemma parseInt_30_11_2025 :
  JSString.parseInt "30" = Some 30
  /\ JSString.parseInt "11" = Some 11
  /\ JSString.parseInt "2025" = Some 2025.
Proof. repeat split; vm_compute; reflexivity. Qed.

Lemma dayFirst_30_11_2025 (host : Host) {A} (keep : A) (set : TimeValue -> A) :
  dayFirst host (VString "30/11/2025") keep set = Ok (set (newDateYMD host 2025 10 30)).
Proof.
  unfold dayFirst, splitVal, obind. rewrite split_day_first.
  destruct parseInt_30_11_2025 as (-> & -> & ->). reflexivity.
Qed.

Lemma remindersFor_recent (host : Host) (item : Obj) (e : TimeValue) (n : Z) :
  -1 <= n -> remindersFor host item e (Some n) <> [].
Proof.
  intros Hn. unfold remindersFor, geNum, ltNum.
  destruct (Z.leb_spec 0 n); [discriminate |].
  destruct (Z.leb_spec 1 n); [lia |]. destruct (Z.leb_spec 3 n); [lia |].
  destruct (Z.ltb_spec n 0); [| lia]. destruct (Z.leb_spec (-1) n); [| lia].
  discriminate.
Qed.

(** C10. In [calculateExpiryStatus] the day-first reading sits in the
    [catch] of a [try] whose body cannot throw, so it never runs: the date
    is the constructor's whatever the [catch] holds, and a string the
    constructor rejects is classified [fresh]. [scheduleExpiryNotifications]
    reads the same string day-first, because it tests the date instead, and
    plans reminders for it: for "30/11/2025", those of 30 November 2025. *)
Theorem classifier_day_first_unreachable (host : Host) (now : Z) (s : string) :
  DateParse host s = None ->
  (forall v h, exists d,
      newDate host v = Ok d
      /\ tryCatch (obind (newDate host v) (fun d => Ok (Some d))) h = Ok (Some d))
  /\ classifierExpiryDate host (VString s) = Ok (Some None)
  /\ calculateExpiryStatus host now (VString s) = fresh
  /\ schedulerExpiryDate host (VString s) = dayFirst host (VString s) None (fun d => d)
  /\ (s = "30/11/2025" ->
      schedulerExpiryDate host (VString s) = Ok (newDateYMD host 2025 10 30)
      /\ forall item,
           prop item "expiry_date" = VString s ->
           itemExpiryDate host item
           = setHours host (newDateYMD host 2025 10 30) 0 0 0 0
           /\ itemPlan host now item
              = remindersFor host item (itemExpiryDate host item)
                  (itemDaysUntilExpiry host now item)
           /\ forall n, itemDaysUntilExpiry host now item = Some n -> -1 <= n ->
                        itemPlan host now item <> []).
Proof.
  intros Hs.
  assert (Hnew : newDate host (VString s) = Ok None) by (simpl; now rewrite Hs).
  assert (Hsch : schedulerExpiryDate host (VString s)
                 = dayFirst host (VString s) None (fun d => d)).
  { unfold schedulerExpiryDate. rewrite Hnew. reflexivity. }
  split; [intros v h; apply tryCatch_newDate |].
  split; [unfold classifierExpiryDate; now rewrite Hnew |].
  split; [now apply calculateExpiryStatus_invalid |].
  split; [exact Hsch |].
  intros ->. rewrite Hsch, dayFirst_30_11_2025.
  split; [reflexivity |].
  intros item Hitem.
  assert (He : itemExpiryDate host item
               = setHours host (newDateYMD host 2025 10 30) 0 0 0 0).
  { unfold itemExpiryDate. rewrite Hitem, Hsch, dayFirst_30_11_2025. reflexivity. }
  split; [exact He |].
  split; [apply itemPlan_reminders |].
  intros n Hn Hge. rewrite itemPlan_reminders. unfold itemReminders. rewrite Hn.
  now apply remindersFor_recent.
Qed.

(** C4, at the input where the code departs from it. On a device whose
    [Date.parse] rejects "30/11/2025", the scheduler resolves that string
    and "Nov 30, 2025" to the same date, one day ahead, while the
    classifier resolves only the second: the first is stamped [fresh], the
    second [expiring]. *)
Theorem day_first_only_in_scheduler :
  let now := Manila.at_ 2025 11 29 10 in
  DateParse Manila.host "30/11/2025" = None
  /\ schedulerExpiryDate Manila.host (VString "30/11/2025")
     = schedulerExpiryDate Manila.host (VString "Nov 30, 2025")
  /\ schedulerExpiryDate Manila.host (VString "30/11/2025")
     = Ok (Some (Manila.at_ 2025 11 30 0))
  /\ itemDaysUntilExpiry Manila.host now (Manila.item "1" "Milk" "30/11/2025") = Some 1
  /\ itemDaysUntilExpiry Manila.host now (Manila.item "1" "Milk" "Nov 30, 2025") = Some 1
  /\ classifierExpiryDate Manila.host (VString "30/11/2025") = Ok (Some None)
  /\ classifierExpiryDate Manila.host (VString "Nov 30, 2025")
     = Ok (Some (Some (Manila.at_ 2025 11 30 0)))
  /\ calculateExpiryStatus Manila.host now (VString "30/11/2025") = fresh
  /\ calculateExpiryStatus Manila.host now (VString "Nov 30, 2025") = expiring.
Proof. repeat split; vm_compute; reflexivity. Qed.

(** C7, as stated, fails: with the first call rejected, the two later
    reminders planned for the same item are never handed over. *)
Lemma rejected_call_ends_the_item :
  let now := Manila.at_ 2025 11 25 10 in
  let milk := Manila.item "1" "Milk" "Nov 30, 2025" in
  let e := Some (Manila.at_ 2025 11 30 0) in
  let after :=
    scheduleExpiryNotifications Manila.host Manila.rejectFirst now [milk] emptyWorld in
  plan Manila.host now [milk]
  = [expiryDayRequest Manila.host milk e; oneDayBeforeRequest Manila.host milk e;
     threeDaysBeforeRequest Manila.host milk e]
  /\ attempts after = [expiryDayRequest Manila.host milk e]
  /\ console after = [errorLine milk]
  /\ ~ (forall r, r ∈ plan Manila.host now [milk] -> r ∈ attempts after).
Proof.
  intros now milk e after.
  assert (Hplan : plan Manila.host now [milk]
                  = [expiryDayRequest Manila.host milk e;
                     oneDayBeforeRequest Manila.host milk e;
                     threeDaysBeforeRequest Manila.host milk e])
    by (vm_compute; reflexivity).
  assert (Hatt : attempts after = [expiryDayRequest Manila.host milk e])
    by (vm_compute; reflexivity).
  split; [exact Hplan |]. split; [exact Hatt |].
  split; [vm_compute; reflexivity |].
  intros Hall.
  specialize (Hall (oneDayBeforeRequest Manila.host milk e)).
  rewrite Hplan, Hatt in Hall.
  assert (Hin : oneDayBeforeRequest Manila.host milk e
                ∈ [expiryDayRequest Manila.host milk e]).
  { apply Hall. apply elem_of_cons. right. apply elem_of_cons. now left. }
  apply list_elem_of_singleton in Hin. vm_compute in Hin. discriminate Hin.
Qed.

(** ** The sample device *)

(** The three reminders of milk that expires on 30 November fire at 9 AM
    on the 30th, the 29th and the 27th. *)
Example reminder_fire_times :
  map trigger (itemPlan Manila.host (Manila.at_ 2025 11 25 10)
                 (Manila.item "1" "Milk" "30/11/2025"))
  = [AtDate (Some (Manila.at_ 2025 11 30 9));
     AtDate (Some (Manila.at_ 2025 11 29 9));
     AtDate (Some (Manila.at_ 2025 11 27 9))].
Proof. vm_compute. reflexivity. Qed.

(** Nothing waits for an item that expired yesterday, but its immediate
    reminder is shown by every run. *)
Example immediate_reminder_repeats :
  let now := Manila.at_ 2025 11 25 10 in
  let items := [Manila.item "1" "Milk" "Nov 24, 2025"] in
  let once := scheduleExpiryNotifications Manila.host allResolve now items emptyWorld in
  let twice := scheduleExpiryNotifications Manila.host allResolve now items once in
  scheduled once = [] /\ scheduled twice = []
  /\ length (presented once) = 1%nat /\ length (presented twice) = 2%nat.
Proof. repeat split; vm_compute; reflexivity. Qed.

(** Without the permission the earlier reminders are cancelled and none is
    scheduled. *)
Example permission_denied_clears :
  let now := Manila.at_ 2025 11 25 10 in
  let items := [Manila.item "1" "Milk" "Nov 30, 2025"] in
  let denied :=
    {| cancelAllResolves := true; existingPermission := Ok "denied";
       requestedPermission := Ok "denied"; setChannelResolves := true;
       scheduleResolves := fun _ => true |} in
  let before := scheduleExpiryNotifications Manila.host allResolve now items emptyWorld in
  length (scheduled before) = 3%nat
  /\ scheduled (scheduleExpiryNotifications Manila.host denied now items before) = [].
Proof. repeat split; vm_compute; reflexivity. Qed.


(** "24/11/2025", seen on 25 November 2025 at 10:00: the day-first reading
    is 24 November, one day back, and the classifier answers [fresh]. *)
Lemma thresholds_missed_on_day_first_dates_witness :
  let now := Manila.at_ 2025 11 25 10 in
  "24/11/2025" <> ""
  /\ schedulerExpiryDate Manila.host (VString "24/11/2025")
     = Ok (Some (Manila.at_ 2025 11 24 0))
  /\ schedulerExpiryDate Manila.host (VString "Nov 24, 2025")
     = Ok (Some (Manila.at_ 2025 11 24 0))
  /\ setHours Manila.host (Some (Manila.at_ 2025 11 24 0)) 0 0 0 0
     = Some (Manila.at_ 2025 11 24 0)
  /\ setHours Manila.host (Some now) 0 0 0 0 = Some (Manila.at_ 2025 11 25 0)
  /\ newDate Manila.host (VString "24/11/2025") = Ok None
  /\ ceilDiv (Manila.at_ 2025 11 24 0 - Manila.at_ 2025 11 25 0) msPerDay = -1
  /\ calculateExpiryStatus Manila.host now (VString "24/11/2025") = fresh
  /\ statusOfDays (Some (-1)) = expired
  /\ calculateExpiryStatus Manila.host now (VString "Nov 24, 2025") = expired.
Proof.
  intros now.
  assert (H1 : "24/11/2025" <> "") by discriminate.
  assert (H2 : schedulerExpiryDate Manila.host (VString "24/11/2025")
               = Ok (Some (Manila.at_ 2025 11 24 0))) by (vm_compute; reflexivity).
  assert (H3 : setHours Manila.host (Some (Manila.at_ 2025 11 24 0)) 0 0 0 0
               = Some (Manila.at_ 2025 11 24 0)) by (vm_compute; reflexivity).
  assert (H4 : setHours Manila.host (Some now) 0 0 0 0 = Some (Manila.at_ 2025 11 25 0))
    by (vm_compute; reflexivity).
  assert (H5 : newDate Manila.host (VString "24/11/2025")
               <> Ok (Some (Manila.at_ 2025 11 24 0))) by (vm_compute; discriminate).
  assert (H6 : ceilDiv (Manila.at_ 2025 11 24 0 - Manila.at_ 2025 11 25 0) msPerDay = -1)
    by (vm_compute; reflexivity).
  destruct (thresholds_missed_on_day_first_dates Manila.host now _ _ _ _ H1 H2 H3 H4)
    as (_ & _ & _ & _ & _ & Hday).
  destruct (Hday H5) as (Hnone & _ & Hfresh & Hexpired & _).
  split; [exact H1 |]. split; [exact H2 |].
  split; [vm_compute; reflexivity |].
  split; [exact H3 |]. split; [exact H4 |]. split; [exact Hnone |].
  split; [exact H6 |]. split; [exact Hfresh |].
  split; [| vm_compute; reflexivity].
  rewrite <- H6. apply Hexpired. rewrite H6. lia.
Defined.

(** A string of spaces is rejected and classified [fresh]. *)
Lemma calculateExpiryStatus_fail_open_witness :
  newDate Manila.host (VString "   ") = Ok None
  /\ calculateExpiryStatus Manila.host (Manila.at_ 2025 11 25 10) (VString "   ") = fresh.
Proof.
  assert (H : newDate Manila.host (VString "   ") = Ok None) by (vm_compute; reflexivity).
  split; [exact H |].
  apply (calculateExpiryStatus_fail_open Manila.host (Manila.at_ 2025 11 25 10) "   ").
  right. left. exact H.
Defined.


(** Two runs on the same day, at 10:00 and at 15:00. *)
Lemma scheduleExpiryNotifications_idempotent_witness :
  let now1 := Manila.at_ 2025 11 25 10 in
  let now2 := Manila.at_ 2025 11 25 15 in
  let items := [Manila.item "1" "Milk" "Nov 30, 2025"] in
  today Manila.host now1 = today Manila.host now2
  /\ scheduled (scheduleExpiryNotifications Manila.host allResolve now2 items
                  (scheduleExpiryNotifications Manila.host allResolve now1 items emptyWorld))
     = scheduled (scheduleExpiryNotifications Manila.host allResolve now1 items emptyWorld).
Proof.
  intros now1 now2 items.
  assert (H : today Manila.host now1 = today Manila.host now2)
    by (vm_compute; reflexivity).
  split; [exact H |].
  destruct (scheduleExpiryNotifications_idempotent Manila.host allResolve now1 now2 items
              emptyWorld H) as [Hsame _].
  exact Hsame.
Defined.


(** The milk's first call is rejected; the eggs' first reminder is still
    handed over. *)
Lemma scheduleExpiryNotifications_items_independent_witness :
  let now := Manila.at_ 2025 11 25 10 in
  let milk := Manila.item "1" "Milk" "Nov 30, 2025" in
  let eggs := Manila.item "2" "Eggs" "Nov 26, 2025" in
  OS Manila.host <> web
  /\ cancelAllResolves Manila.rejectFirst = true
  /\ fst (requestNotificationPermissions Manila.host Manila.rejectFirst
            {| world := emptyWorld; calls := 0 |}) = Ok true
  /\ (expiryDayRequest Manila.host eggs (Some (Manila.at_ 2025 11 26 0))
      ∈ attempts (scheduleExpiryNotifications Manila.host Manila.rejectFirst now
                    [milk; eggs] emptyWorld)).
Proof.
  intros now milk eggs.
  assert (H1 : OS Manila.host <> web) by discriminate.
  assert (H2 : cancelAllResolves Manila.rejectFirst = true) by reflexivity.
  assert (H3 : fst (requestNotificationPermissions Manila.host Manila.rejectFirst
                      {| world := emptyWorld; calls := 0 |}) = Ok true)
    by (vm_compute; reflexivity).
  split; [exact H1 |]. split; [exact H2 |]. split; [exact H3 |].
  destruct (scheduleExpiryNotifications_items_independent Manila.host Manila.rejectFirst
              now [milk; eggs] emptyWorld H1 H2 H3) as (Hfirst & _).
  apply (Hfirst eggs).
  - apply elem_of_cons. right. apply elem_of_cons. now left.
  - vm_compute. reflexivity.
Defined.


(** Two objects in the store, both in the array. *)
Lemma checkAndUpdateExpiryStatus_fresh_copy_witness :
  let now := Manila.at_ 2025 11 25 10 in
  let h := [Manila.item "1" "Milk" "Nov 30, 2025"; Manila.item "2" "Eggs" "bad date"] in
  Forall (fun l => (l < length h)%nat) [0%nat; 1%nat]
  /\ exists out h',
       Store.checkAndUpdateExpiryStatus Manila.host now [0%nat; 1%nat] h = Some (out, h')
       /\ length out = 2%nat.
Proof.
  intros now h.
  assert (H : Forall (fun l => (l < length h)%nat) [0%nat; 1%nat]).
  { repeat constructor. }
  split; [exact H |].
  destruct (checkAndUpdateExpiryStatus_fresh_copy Manila.host now [0%nat; 1%nat] h H)
    as (out & h' & Hrun & _ & Hlen & _).
  exists out, h'. split; [exact Hrun | exact Hlen].
Defined.

(** "30/11/2025" on a device that does not parse it. *)
Lemma classifier_day_first_unreachable_witness :
  DateParse Manila.host "30/11/2025" = None
  /\ calculateExpiryStatus Manila.host (Manila.at_ 2025 11 25 10) (VString "30/11/2025")
     = fresh
  /\ schedulerExpiryDate Manila.host (VString "30/11/2025")
     = Ok (newDateYMD Manila.host 2025 10 30).
Proof.
  assert (H : DateParse Manila.host "30/11/2025" = None) by (vm_compute; reflexivity).
  destruct (classifier_day_first_unreachable Manila.host (Manila.at_ 2025 11 25 10)
              "30/11/2025" H) as (_ & _ & Hfresh & _ & Hsch).
  split; [exact H |]. split; [exact Hfresh |].
  apply Hsch. reflexivity.
Defined.

(** * More of the code *)

(** ** [requestNotificationPermissions] *)

Section PermissionFacts.

Variable host : Host.
Variable answers : Answers.

(** The request returns on every path, and touches neither the reminders
    nor the count of calls. *)
Lemma requestNotificationPermissions_result (st : RunState) :
  exists b st',
    requestNotificationPermissions host answers st = (Ok b, st')
    /\ calls st' = calls st
    /\ scheduled (world st') = scheduled (world st)
    /\ presented (world st') = presented (world st)
    /\ attempts (world st') = attempts (world st).
Proof.
  unfold requestNotificationPermissions.
  destruct (decide (OS host = web)); [exists false, st; repeat split |].
  unfold tryRun, mbind, Run_bind, getPermissionsAsync, requestPermissionsAsync,
    liftOutcome, whenRun, setNotificationChannelAsync, consoleWrite, updWorld,
    mret, Run_ret.
  destruct (existingPermission answers) as [existing | e]; simpl;
    [| eexists _, _; repeat split].
  destruct (negb (existing =? "granted")%string); simpl.
  - destruct (requestedPermission answers) as [final | e]; simpl;
      [| eexists _, _; repeat split].
    destruct (negb (final =? "granted")%string); simpl;
      [eexists _, _; repeat split |].
    destruct (bool_decide (OS host = android)); simpl;
      [| eexists _, _; repeat split].
    destruct (setChannelResolves answers); simpl; eexists _, _; repeat split.
  - destruct (negb (existing =? "granted")%string); simpl;
      [eexists _, _; repeat split |].
    destruct (bool_decide (OS host = android)); simpl;
      [| eexists _, _; repeat split].
    destruct (setChannelResolves answers); simpl; eexists _, _; repeat split.
Qed.

End PermissionFacts.

(** [requestNotificationPermissions] never throws, and reports the
    permission as granted only off the web, when the status it ends with is
    ['granted'] and, on Android, once the channel ['expiry-alerts'] is
    configured. *)
Theorem requestNotificationPermissions_granted
    (host : Host) (answers : Answers) (st : RunState) :
  exists b st',
    requestNotificationPermissions host answers st = (Ok b, st')
    /\ (b = true ->
        OS host <> web
        /\ (existingPermission answers = Ok "granted"
            \/ requestedPermission answers = Ok "granted")
        /\ (OS host = android ->
            channels (world st') = channels (world st) ++ ["expiry-alerts"]))
    /\ (OS host = web -> b = false /\ st' = st).
Proof.
  unfold requestNotificationPermissions.
  destruct (decide (OS host = web)) as [Hweb | Hweb].
  { exists false, st. split; [reflexivity |]. split; [discriminate | auto]. }
  unfold tryRun, mbind, Run_bind, getPermissionsAsync, requestPermissionsAsync,
    liftOutcome, whenRun, setNotificationChannelAsync, consoleWrite, updWorld,
    mret, Run_ret.
  destruct (existingPermission answers) as [existing | e]; simpl;
    [| eexists _, _; split; [reflexivity |]; split; [discriminate | contradiction]].
  destruct (String.eqb_spec existing "granted") as [-> | Hex]; simpl.
  - destruct (bool_decide_reflect (OS host = android)) as [Hand | Hand]; simpl.
    + destruct (setChannelResolves answers); simpl;
        eexists _, _; (split; [reflexivity |]); (split; [| contradiction]).
      * intros _. repeat split; auto.
      * discriminate.
    + eexists _, _. split; [reflexivity |]. split; [| contradiction].
      intros _. repeat split; auto. contradiction.
  - destruct (requestedPermission answers) as [final | e]; simpl;
      [| eexists _, _; split; [reflexivity |]; split; [discriminate | contradiction]].
    destruct (String.eqb_spec final "granted") as [-> | Hfin]; simpl.
    + destruct (bool_decide_reflect (OS host = android)) as [Hand | Hand]; simpl.
      * destruct (setChannelResolves answers); simpl;
          eexists _, _; (split; [reflexivity |]); (split; [| contradiction]).
        -- intros _. repeat split; auto.
        -- discriminate.
      * eexists _, _. split; [reflexivity |]. split; [| contradiction].
        intros _. repeat split; auto. contradiction.
    + eexists _, _. split; [reflexivity |]. split; [discriminate | contradiction].
Qed.

(** ** What a run adds to the world *)

Lemma submitted_incl (a : Answers) (k : nat) (rs : list Request) (r : Request) :
  r ∈ submitted a k rs -> r ∈ rs.
Proof.
  revert k. induction rs as [| x rs IH]; intros k; simpl; [auto |].
  intros Hin. apply elem_of_cons in Hin as [-> | Hin]; [apply elem_of_cons; now left |].
  destruct (scheduleResolves a k); [| inversion Hin].
  apply elem_of_cons. right. eauto.
Qed.

Lemma submitted_length (a : Answers) (k : nat) (rs : list Request) :
  (length (submitted a k rs) <= length rs)%nat.
Proof.
  revert k. induction rs as [| x rs IH]; intros k; simpl; [lia |].
  destruct (scheduleResolves a k); simpl; [specialize (IH (S k)) |]; lia.
Qed.

(** What [submit] leaves scheduled or shown was handed over. *)
Lemma submit_kept (a : Answers) (rs : list Request) (st : RunState) :
  exists ls lp,
    scheduled (world (snd (submit a rs st))) = scheduled (world st) ++ ls
    /\ presented (world (snd (submit a rs st))) = presented (world st) ++ lp
    /\ forall r, r ∈ ls \/ r ∈ lp -> r ∈ rs.
Proof.
  revert st. induction rs as [| x rs IH]; intros st; simpl.
  - exists [], []. rewrite !app_nil_r. repeat split. intros r [H | H]; inversion H.
  - unfold mbind, Run_bind, scheduleNotificationAsync.
    destruct (scheduleResolves a (calls st)).
    + match goal with
      | |- context [submit a rs ?st0] => destruct (IH st0) as (ls & lp & Hs & Hp & Hin)
      end.
      rewrite Hs, Hp. simpl. unfold accept, recordAttempt.
      destruct (trigger x); simpl.
      * exists ls, (x :: lp). rewrite <- app_assoc. repeat split.
        intros r [H | H]; apply elem_of_cons.
        -- right. apply Hin. now left.
        -- apply elem_of_cons in H as [-> | H]; [now left | right; apply Hin; now right].
      * exists (x :: ls), lp. rewrite <- app_assoc. repeat split.
        intros r [H | H]; apply elem_of_cons.
        -- apply elem_of_cons in H as [-> | H]; [now left | right; apply Hin; now left].
        -- right. apply Hin. now right.
    + simpl. exists [], []. rewrite !app_nil_r. repeat split.
      intros r [H | H]; inversion H.
Qed.

Section AddedFacts.

Variable host : Host.
Variable answers : Answers.
Variable now : Z.

Lemma remindersFor_le_3 (item : Obj) (e : TimeValue) (days : option Z) :
  (length (remindersFor host item e days) <= 3)%nat.
Proof.
  unfold remindersFor, geNum, ltNum. destruct days as [n |]; simpl; [| lia].
  destruct (Z.leb_spec 0 n), (Z.leb_spec 1 n), (Z.leb_spec 3 n), (Z.ltb_spec n 0),
    (Z.leb_spec (-1) n); simpl; lia.
Qed.

(** The reminder sent at once comes alone. *)
Lemma remindersFor_immediate (item : Obj) (e : TimeValue) (days : option Z) (r : Request) :
  r ∈ remindersFor host item e days -> trigger r = Immediately ->
  remindersFor host item e days = [expiredRequest item].
Proof.
  unfold remindersFor, geNum, ltNum. destruct days as [n |]; simpl;
    [| intros H; inversion H].
  destruct (Z.leb_spec 0 n), (Z.leb_spec 1 n), (Z.leb_spec 3 n), (Z.ltb_spec n 0),
    (Z.leb_spec (-1) n); simpl; try lia; intros Hin Ht;
    repeat (apply elem_of_cons in Hin as [-> | Hin]; [discriminate Ht |]);
    solve [inversion Hin | reflexivity].
Qed.

(** Every reminder of an item carries its identifier and its name. *)
Lemma remindersFor_data (item : Obj) (e : TimeValue) (days : option Z) (r : Request) :
  r ∈ remindersFor host item e days ->
  dataItemId (content r) = prop item "id" /\ dataItemName (content r) = prop item "name".
Proof.
  unfold remindersFor. intros Hin.
  repeat (apply elem_of_app in Hin as [Hin | Hin]);
    match type of Hin with
    | _ ∈ (if ?c then _ else _) => destruct c
    end;
    try (inversion Hin; fail);
    apply list_elem_of_singleton in Hin; subst r; split; reflexivity.
Qed.

(** What one turn adds. *)
Lemma scheduleItem_adds (item : Obj) (st : RunState) :
  exists la ls lp,
    attempts (world (snd (scheduleItem host answers (today host now) item st)))
    = attempts (world st) ++ la
    /\ scheduled (world (snd (scheduleItem host answers (today host now) item st)))
       = scheduled (world st) ++ ls
    /\ presented (world (snd (scheduleItem host answers (today host now) item st)))
       = presented (world st) ++ lp
    /\ (forall r, r ∈ la \/ r ∈ ls \/ r ∈ lp -> r ∈ itemReminders host now item)
    /\ (length la <= 3)%nat.
Proof.
  rewrite scheduleItem_submit.
  destruct (if ToBoolean (prop item "expiry_date")
            then schedulerExpiryDate host (prop item "expiry_date")
            else Ok None) as [d | e].
  - unfold tryRun.
    pose proof (submit_attempts answers (itemReminders host now item) st) as Ha.
    destruct (submit_kept answers (itemReminders host now item) st)
      as (ls & lp & Hs & Hp & Hin).
    exists (submitted answers (calls st) (itemReminders host now item)), ls, lp.
    assert (Hlen : (length (submitted answers (calls st) (itemReminders host now item))
                    <= 3)%nat).
    { etransitivity; [apply submitted_length |]. apply remindersFor_le_3. }
    assert (Hall : forall r,
               r ∈ submitted answers (calls st) (itemReminders host now item)
               \/ r ∈ ls \/ r ∈ lp -> r ∈ itemReminders host now item).
    { intros r [H | H]; [eapply submitted_incl; exact H | now apply Hin]. }
    destruct (submit answers (itemReminders host now item) st) as [[[] | e] st'];
      simpl in *; split_and!; assumption.
  - exists [], [], []. simpl. rewrite !app_nil_r. split_and!; [reflexivity .. | | simpl; lia].
    intros r [H | [H | H]]; inversion H.
Qed.

(** What the loop adds. *)
Lemma forEachItem_adds (items : list Obj) (st : RunState) :
  exists la ls lp,
    attempts (world (snd (forEachItem host answers (today host now) items st)))
    = attempts (world st) ++ la
    /\ scheduled (world (snd (forEachItem host answers (today host now) items st)))
       = scheduled (world st) ++ ls
    /\ presented (world (snd (forEachItem host answers (today host now) items st)))
       = presented (world st) ++ lp
    /\ (forall r, r ∈ la \/ r ∈ ls \/ r ∈ lp ->
                  exists item, item ∈ items /\ r ∈ itemReminders host now item)
    /\ (length la <= 3 * length items)%nat.
Proof.
  revert st. induction items as [| item rest IH]; intros st; simpl.
  - exists [], [], []. rewrite !app_nil_r. split_and!; [reflexivity .. | | simpl; lia].
    intros r [H | [H | H]]; inversion H.
  - unfold mbind, Run_bind.
    destruct (scheduleItem_turn host answers now item st) as (Hr & _).
    destruct (scheduleItem_adds item st) as (la1 & ls1 & lp1 & Ha1 & Hs1 & Hp1 & Hin1 & Hl1).
    destruct (scheduleItem host answers (today host now) item st) as [[[] | e] st'];
      simpl in Hr, Ha1, Hs1, Hp1; [| discriminate].
    destruct (IH st') as (la2 & ls2 & lp2 & Ha2 & Hs2 & Hp2 & Hin2 & Hl2).
    exists (la1 ++ la2), (ls1 ++ ls2), (lp1 ++ lp2).
    rewrite Ha2, Hs2, Hp2, Ha1, Hs1, Hp1, <- !app_assoc.
    split_and!; [reflexivity .. | | rewrite length_app; lia].
    intros r Hin.
    assert (Hcase : (r ∈ la1 \/ r ∈ ls1 \/ r ∈ lp1) \/ (r ∈ la2 \/ r ∈ ls2 \/ r ∈ lp2)).
    { destruct Hin as [H | [H | H]]; apply elem_of_app in H as [H | H]; tauto. }
    destruct Hcase as [H | H].
    + exists item. split; [apply elem_of_cons; now left | now apply Hin1].
    + destruct (Hin2 r H) as (x & Hx & Hrx). exists x.
      split; [apply elem_of_cons; now right | exact Hrx].
Qed.

(** What a whole run adds. Off the web and once the cancellation has
    resolved, nothing that waited before still waits. *)
Lemma run_adds (items : list Obj) (w : World) :
  exists la ls lp,
    attempts (scheduleExpiryNotifications host answers now items w) = attempts w ++ la
    /\ scheduled (scheduleExpiryNotifications host answers now items w)
       = (if decide (OS host = web) then scheduled w
          else if cancelAllResolves answers then [] else scheduled w) ++ ls
    /\ presented (scheduleExpiryNotifications host answers now items w)
       = presented w ++ lp
    /\ (forall r, r ∈ la \/ r ∈ ls \/ r ∈ lp ->
                  exists item, item ∈ items /\ r ∈ itemReminders host now item)
    /\ (length la <= 3 * length items)%nat.
Proof.
  assert (Hnone : forall r : Request, r ∈ [] \/ r ∈ [] \/ r ∈ [] ->
                    exists item, item ∈ items /\ r ∈ itemReminders host now item).
  { intros r [H | [H | H]]; inversion H. }
  unfold scheduleExpiryNotifications.
  destruct (decide (OS host = web)) as [Hweb | Hweb].
  { rewrite run_web by assumption. exists [], [], []. simpl. rewrite !app_nil_r.
    split_and!; [reflexivity .. | exact Hnone | simpl; lia]. }
  destruct (cancelAllResolves answers) eqn:Hc.
  - rewrite run_cancel_resolved by assumption.
    unfold tryRun, afterCancel, mbind, Run_bind.
    destruct (requestNotificationPermissions_result host answers
                {| world := clearScheduled w; calls := 0 |})
      as (b & st' & Hr & _ & Hs & Hp & Ha).
    rewrite Hr. simpl in Hs, Hp, Ha. destruct b; simpl.
    + pose proof (forEachItem_returns host answers now items st') as Hret.
      destruct (forEachItem_adds items st') as (la & ls & lp & Ha' & Hs' & Hp' & Hin & Hl).
      destruct (forEachItem host answers (today host now) items st') as [[[] | e] st''];
        simpl in Hret, Ha', Hs', Hp'; [| discriminate].
      exists la, ls, lp. simpl. rewrite Ha', Hs', Hp', Ha, Hs, Hp.
      split_and!; solve [reflexivity | assumption].
    + exists [], [], []. rewrite Ha, Hs, Hp, !app_nil_r.
      split_and!; [reflexivity .. | exact Hnone | simpl; lia].
  - rewrite run_cancel_rejected by assumption.
    exists [], [], []. simpl. rewrite !app_nil_r.
    split_and!; [reflexivity .. | exact Hnone | simpl; lia].
Qed.

End AddedFacts.

(** Without the permission a run cancels what was scheduled and hands
    nothing to the subsystem. *)
Theorem scheduleExpiryNotifications_without_permission
    (host : Host) (answers : Answers) (now : Z) (items : list Obj) (w : World) :
  OS host <> web ->
  cancelAllResolves answers = true ->
  fst (requestNotificationPermissions host answers
         {| world := emptyWorld; calls := 0 |}) = Ok false ->
  scheduled (scheduleExpiryNotifications host answers now items w) = []
  /\ presented (scheduleExpiryNotifications host answers now items w) = presented w
  /\ attempts (scheduleExpiryNotifications host answers now items w) = attempts w.
Proof.
  intros Hweb Hc Hdenied. unfold scheduleExpiryNotifications.
  rewrite run_cancel_resolved by assumption.
  unfold tryRun, afterCancel, mbind, Run_bind.
  pose proof (framed_requestNotificationPermissions host answers (clearScheduled w) 0%nat)
    as Hframe.
  destruct (requestNotificationPermissions_result host answers
              {| world := clearScheduled w; calls := 0 |})
    as (b & st' & Hr & _ & Hs & Hp & Ha).
  rewrite Hr in Hframe. rewrite Hdenied in Hframe. injection Hframe as -> _.
  rewrite Hr. simpl. simpl in Hs, Hp, Ha. auto.
Qed.

(** An item gets at most three reminders, the one sent at once never comes
    with another, and a run hands over at most three requests per item,
    whatever the subsystem answers. *)
Theorem reminders_bounded
    (host : Host) (answers : Answers) (now : Z) (items : list Obj) (w : World) :
  (forall item,
      (length (itemPlan host now item) <= 3)%nat
      /\ forall r, r ∈ itemPlan host now item -> trigger r = Immediately ->
                   itemPlan host now item = [expiredRequest item])
  /\ exists added,
       attempts (scheduleExpiryNotifications host answers now items w)
       = attempts w ++ added
       /\ (length added <= 3 * length items)%nat.
Proof.
  split.
  - intros item. rewrite itemPlan_reminders. unfold itemReminders. split.
    + apply remindersFor_le_3.
    + apply remindersFor_immediate.
  - destruct (run_adds host answers now items w) as (la & _ & _ & Ha & _ & _ & _ & Hl).
    exists la. split; assumption.
Qed.

(** After a run whose cancellation resolved, every reminder that waits
    belongs to an item of the collection the run was given: it carries the
    identifier and the name of an item whose plan holds it. *)
Theorem scheduled_reminders_belong
    (host : Host) (answers : Answers) (now : Z) (items : list Obj) (w : World)
    (r : Request) :
  OS host <> web ->
  cancelAllResolves answers = true ->
  r ∈ scheduled (scheduleExpiryNotifications host answers now items w) ->
  exists item,
    item ∈ items
    /\ r ∈ itemPlan host now item
    /\ dataItemId (content r) = prop item "id"
    /\ dataItemName (content r) = prop item "name".
Proof.
  intros Hweb Hc Hin.
  destruct (run_adds host answers now items w) as (la & ls & lp & _ & Hs & _ & Hall & _).
  rewrite Hs in Hin. destruct (decide (OS host = web)); [contradiction |].
  rewrite Hc in Hin. simpl in Hin.
  destruct (Hall r (or_intror (or_introl Hin))) as (item & Hitem & Hr).
  exists item. split; [exact Hitem |]. rewrite itemPlan_reminders.
  split; [exact Hr |]. unfold itemReminders in Hr.
  eapply remindersFor_data. exact Hr.
Qed.

(** ** The classifier and the scheduler on the same item *)

Lemma itemExpiryDate_valid (host : Host) (item : Obj) (t : Z) :
  ToBoolean (prop item "expiry_date") = true ->
  newDate host (prop item "expiry_date") = Ok (Some t) ->
  itemExpiryDate host item = setHours host (Some t) 0 0 0 0.
Proof.
  intros Hb Hv. unfold itemExpiryDate. rewrite Hb. simpl.
  now rewrite (schedulerExpiryDate_valid _ _ _ Hv).
Qed.

Lemma statusOfDays_expired (n : Z) : statusOfDays (Some n) = expired <-> n < 0.
Proof.
  unfold statusOfDays, ltNum, leNum.
  destruct (Z.ltb_spec n 0); [tauto |].
  destruct (Z.leb_spec n 3); split; (discriminate || lia).
Qed.

Lemma statusOfDays_fresh (n : Z) : statusOfDays (Some n) = fresh -> 3 < n.
Proof.
  unfold statusOfDays, ltNum, leNum.
  destruct (Z.ltb_spec n 0); [discriminate |].
  destruct (Z.leb_spec n 3); [discriminate | auto].
Qed.

Lemma remindersFor_past (host : Host) (item : Obj) (e : TimeValue) (n : Z) (r : Request) :
  n < 0 -> r ∈ remindersFor host item e (Some n) -> r = expiredRequest item.
Proof.
  intros Hn. unfold remindersFor, geNum, ltNum.
  destruct (Z.leb_spec 0 n); [lia |]. destruct (Z.leb_spec 1 n); [lia |].
  destruct (Z.leb_spec 3 n); [lia |]. simpl.
  destruct (_ && _); intros Hin; [| inversion Hin].
  now apply list_elem_of_singleton in Hin.
Qed.

Lemma remindersFor_ahead (host : Host) (item : Obj) (e : TimeValue) (n : Z) :
  0 <= n ->
  head (remindersFor host item e (Some n)) = Some (expiryDayRequest host item e).
Proof.
  intros Hn. unfold remindersFor, geNum.
  destruct (Z.leb_spec 0 n); [reflexivity | lia].
Qed.

Lemma remindersFor_far (host : Host) (item : Obj) (e : TimeValue) (n : Z) :
  3 < n ->
  remindersFor host item e (Some n)
  = [expiryDayRequest host item e; oneDayBeforeRequest host item e;
     threeDaysBeforeRequest host item e].
Proof.
  intros Hn. unfold remindersFor, geNum, ltNum.
  destruct (Z.leb_spec 0 n); [| lia]. destruct (Z.leb_spec 1 n); [| lia].
  destruct (Z.leb_spec 3 n); [| lia]. destruct (Z.ltb_spec n 0); [lia |].
  reflexivity.
Qed.

(** For a date the constructor resolves, the status stamped on an item and
    the reminders planned for it tell the same story: it is [expired]
    exactly when [daysUntilExpiry] is negative, and then no dated reminder
    is planned; otherwise the reminder of the expiry day is planned first;
    and a [fresh] item gets all three. *)
Theorem status_agrees_with_plan (host : Host) (now : Z) (item : Obj) (t n : Z) :
  ToBoolean (prop item "expiry_date") = true ->
  newDate host (prop item "expiry_date") = Ok (Some t) ->
  classifierDaysUntilExpiry host now (Some t) = Some n ->
  let status := calculateExpiryStatus host now (prop item "expiry_date") in
  let e := setHours host (Some t) 0 0 0 0 in
  itemDaysUntilExpiry host now item = Some n
  /\ (status = expired <-> n < 0)
  /\ (status = expired ->
      forall r, r ∈ itemPlan host now item -> r = expiredRequest item)
  /\ (status <> expired ->
      head (itemPlan host now item) = Some (expiryDayRequest host item e))
  /\ (status = fresh ->
      itemPlan host now item
      = [expiryDayRequest host item e; oneDayBeforeRequest host item e;
         threeDaysBeforeRequest host item e]).
Proof.
  intros Hb Hv Hn status e.
  assert (Hdays : itemDaysUntilExpiry host now item = Some n).
  { now rewrite (itemDaysUntilExpiry_valid host now item t Hb Hv). }
  assert (Hst : status = statusOfDays (Some n)).
  { subst status. now rewrite (calculateExpiryStatus_valid host now _ t Hb Hv), Hn. }
  assert (Hplan : itemPlan host now item = remindersFor host item e (Some n)).
  { rewrite itemPlan_reminders. unfold itemReminders.
    now rewrite Hdays, (itemExpiryDate_valid host item t Hb Hv). }
  split; [exact Hdays |]. rewrite Hst, Hplan.
  split; [apply statusOfDays_expired |].
  split.
  { intros Hs r Hin. apply statusOfDays_expired in Hs.
    eapply remindersFor_past; [exact Hs | exact Hin]. }
  split.
  { intros Hs. apply remindersFor_ahead.
    destruct (Z.lt_ge_cases n 0) as [Hneg | Hpos]; [| lia].
    exfalso. apply Hs. now apply statusOfDays_expired. }
  intros Hs. apply remindersFor_far. now apply statusOfDays_fresh.
Qed.

Lemma ceilDiv_mul (k b : Z) : b <> 0 -> ceilDiv (k * b) b = k.
Proof.
  intros Hb. unfold ceilDiv. rewrite <- Z.mul_opp_l, Z.div_mul by exact Hb. lia.
Qed.

(** Where local time keeps a fixed offset from UTC, [daysUntilExpiry] is
    the number of local calendar days from today to the expiry date: the
    times of day of the clock and of the date play no part, and the ceiling
    rounds nothing. *)
Theorem daysUntilExpiry_fixed_offset (host : Host) (now t c e t0 : Z) :
  (forall u b, LocalTZA host u b = c) ->
  setHours host (Some t) 0 0 0 0 = Some e ->
  setHours host (Some now) 0 0 0 0 = Some t0 ->
  classifierDaysUntilExpiry host now (Some t) = Some (Day (t + c) - Day (now + c))
  /\ e - t0 = (Day (t + c) - Day (now + c)) * msPerDay.
Proof.
  intros Hc He Ht0.
  assert (He' : e = Day (t + c) * msPerDay - c).
  { rewrite setHours_midnight in He. unfold TimeClip, UTC, LocalTime in He.
    rewrite !Hc in He. destruct (maxTime <? _); congruence. }
  assert (Ht0' : t0 = Day (now + c) * msPerDay - c).
  { rewrite setHours_midnight in Ht0. unfold TimeClip, UTC, LocalTime in Ht0.
    rewrite !Hc in Ht0. destruct (maxTime <? _); congruence. }
  assert (Hdiff : e - t0 = (Day (t + c) - Day (now + c)) * msPerDay) by lia.
  split; [| exact Hdiff].
  unfold classifierDaysUntilExpiry, today. rewrite He, Ht0. simpl.
  rewrite Hdiff, ceilDiv_mul; [reflexivity | discriminate].
Qed.

(** ** [checkAndUpdateExpiryStatus], again *)

Lemma withStatus_idempotent (host : Host) (now : Z) (item : Obj) :
  withStatus host now (withStatus host now item) = withStatus host now item.
Proof.
  unfold withStatus at 1.
  rewrite (withStatus_prop host now item "expiry_date") by discriminate.
  unfold withStatus. apply insert_insert_eq.
Qed.

Lemma checkAndUpdateExpiryStatus_twice (host : Host) (now : Z) (items : list Obj) :
  checkAndUpdateExpiryStatus host now (checkAndUpdateExpiryStatus host now items)
  = checkAndUpdateExpiryStatus host now items.
Proof.
  unfold checkAndUpdateExpiryStatus. rewrite map_map. apply map_ext.
  intros item. apply withStatus_idempotent.
Qed.

Lemma checkAndUpdateExpiryStatus_ids (host : Host) (now : Z) (items : list Obj) :
  ids (checkAndUpdateExpiryStatus host now items) = ids items.
Proof.
  unfold ids, checkAndUpdateExpiryStatus. rewrite map_map. apply map_ext.
  intros item. now apply withStatus_prop.
Qed.

(** Classifying a collection that was classified for the same day changes
    nothing; classification keeps the number, the order and the identifiers
    of the items, and stamps each with one of the three statuses. *)
Theorem checkAndUpdateExpiryStatus_idempotent (host : Host) (now : Z) (items : list Obj) :
  checkAndUpdateExpiryStatus host now (checkAndUpdateExpiryStatus host now items)
  = checkAndUpdateExpiryStatus host now items
  /\ length (checkAndUpdateExpiryStatus host now items) = length items
  /\ ids (checkAndUpdateExpiryStatus host now items) = ids items
  /\ forall item,
       item ∈ checkAndUpdateExpiryStatus host now items ->
       prop item "status" = VString "fresh"
       \/ prop item "status" = VString "expiring"
       \/ prop item "status" = VString "expired".
Proof.
  split; [apply checkAndUpdateExpiryStatus_twice |].
  split; [unfold checkAndUpdateExpiryStatus; apply length_map |].
  split; [apply checkAndUpdateExpiryStatus_ids |].
  intros item Hin. unfold checkAndUpdateExpiryStatus in Hin.
  apply list_elem_of_In, in_map_iff in Hin as (x & <- & _).
  unfold prop. rewrite withStatus_status. simpl.
  destruct (calculateExpiryStatus host now (prop x "expiry_date")); auto.
Qed.

(** ** The handlers, their failures and what they keep *)

Section HandlerFacts.

Variable host : Host.
Variable answers : Answers.
Variable now : Z.

Lemma classified_filter (P : Obj -> Prop) `{!forall x, Decision (P x)} (items : list Obj) :
  checkAndUpdateExpiryStatus host now items = items ->
  checkAndUpdateExpiryStatus host now (filter P items) = filter P items.
Proof.
  unfold checkAndUpdateExpiryStatus.
  induction items as [| x rest IH]; simpl; intros Heq; [reflexivity |].
  injection Heq as Hx Hrest. rewrite filter_cons.
  destruct (decide (P x)); simpl; [rewrite Hx |]; now rewrite IH.
Qed.

Lemma classified_app (l1 l2 : list Obj) :
  checkAndUpdateExpiryStatus host now l1 = l1 ->
  checkAndUpdateExpiryStatus host now l2 = l2 ->
  checkAndUpdateExpiryStatus host now (l1 ++ l2) = l1 ++ l2.
Proof.
  unfold checkAndUpdateExpiryStatus. intros H1 H2. now rewrite map_app, H1, H2.
Qed.

Lemma found_in (itemId : Val) (items : list Obj) (item : Obj) :
  find (fun i => strictEq (prop i "id") itemId) items = Some item ->
  item ∈ items /\ prop item "id" = itemId.
Proof.
  intros Hf. apply find_some in Hf as [Hin Hid].
  split; [now apply list_elem_of_In | now apply strictEq_true].
Qed.

End HandlerFacts.

(** Every handler that stores a collection stores one in which each item
    carries the status of its own date, and reconciles the reminders over
    exactly that collection: loading, adding, updating and the periodic
    tick classify before they store, and deleting keeps a classified
    collection classified, rollback included. *)
Theorem stored_collections_are_classified
    (host : Host) (answers : Answers) (now : Z) (rendered : list Obj) (st : App) :
  let stored (st' : App) :=
    checkAndUpdateExpiryStatus host now (pantryItems st') = pantryItems st'
    /\ device st'
       = scheduleExpiryNotifications host answers now (pantryItems st') (device st) in
  (forall items, stored (loadPantry host answers now (Ok items) st))
  /\ (forall newItem created,
        stored (handleAddItem host answers now rendered newItem (Ok created) st))
  /\ (forall editing updatedItem updated,
        stored (handleUpdateItem host answers now rendered (Some editing) updatedItem
                  (Ok updated) st))
  /\ stored (tick host answers now st)
  /\ (checkAndUpdateExpiryStatus host now rendered = rendered ->
      checkAndUpdateExpiryStatus host now (pantryItems st) = pantryItems st ->
      forall itemId remote,
        checkAndUpdateExpiryStatus host now
          (pantryItems (handleDeleteItem rendered itemId remote st))
        = pantryItems (handleDeleteItem rendered itemId remote st)).
Proof.
  intros stored. subst stored. simpl.
  split; [intros items; split; [apply checkAndUpdateExpiryStatus_twice | reflexivity] |].
  split; [intros newItem created; split;
          [apply checkAndUpdateExpiryStatus_twice | reflexivity] |].
  split; [intros editing updatedItem updated; split;
          [apply checkAndUpdateExpiryStatus_twice | reflexivity] |].
  split; [split; [apply checkAndUpdateExpiryStatus_twice | reflexivity] |].
  intros Hr Hs itemId remote. unfold handleDeleteItem, deleteOptimistic.
  destruct remote as [[] | e]; simpl.
  - now apply classified_filter.
  - unfold reinsert. apply classified_app; [now apply classified_filter |].
    destruct (find _ rendered) as [item |] eqn:Hf; [| reflexivity].
    apply found_in in Hf as [Hin _].
    unfold checkAndUpdateExpiryStatus. simpl.
    now rewrite (classified_fixed host now rendered Hr item Hin).
Qed.

(** When the store fails, loading, adding and updating leave the
    collection, the reminders, the screen and the item being edited as they
    were, stop the spinner and show the error; an update with no item being
    edited does nothing at all. *)
Theorem failed_remote_changes_nothing
    (host : Host) (answers : Answers) (now : Z) (rendered : list Obj)
    (newItem updatedItem editing : Obj) (e : Exn) (st : App) :
  let unchanged (title fallback : string) (st' : App) :=
    pantryItems st' = pantryItems st
    /\ device st' = device st
    /\ screen st' = screen st
    /\ editingItem st' = editingItem st
    /\ pantryLoading st' = false
    /\ last (toasts st')
       = Some {| toastType := "error"; text1 := title; text2 := messageOr e fallback |} in
  unchanged "Pantry Error" "Unable to load your pantry items."
    (loadPantry host answers now (Throw e) st)
  /\ unchanged "Add Failed" "Unable to add this item."
       (handleAddItem host answers now rendered newItem (Throw e) st)
  /\ unchanged "Update Failed" "Unable to update this item."
       (handleUpdateItem host answers now rendered (Some editing) updatedItem (Throw e) st)
  /\ (forall remote,
        handleUpdateItem host answers now rendered None updatedItem remote st = st).
Proof.
  intros unchanged. subst unchanged. simpl.
  split_and!; try reflexivity; apply last_snoc.
Qed.

Lemma filter_absent (itemId : Val) (items : list Obj) :
  itemId ∉ ids items ->
  filter (fun it => negb (strictEq (prop it "id") itemId)) items = items.
Proof.
  induction items as [| x rest IH]; simpl; intros Hn; [reflexivity |].
  rewrite filter_cons_True.
  - rewrite IH; [reflexivity |]. intros Hin. apply Hn. apply elem_of_cons. now right.
  - apply negb_prop_intro. intros Ht. apply Is_true_true, strictEq_true in Ht.
    apply Hn. apply elem_of_cons. now left.
Qed.

Lemma find_absent (itemId : Val) (items : list Obj) :
  itemId ∉ ids items ->
  find (fun i => strictEq (prop i "id") itemId) items = None.
Proof.
  intros Hn. destruct (find _ items) as [item |] eqn:Hf; [| reflexivity].
  apply found_in in Hf as [Hin Hid]. exfalso. apply Hn.
  apply elem_of_ids. eauto.
Qed.

(** Deleting never touches the reminders: those of the deleted item stay
    scheduled until the next reconciliation. When the store confirms, the
    item is gone and the others keep their order. An identifier the render
    does not hold is never put back, and one the collection does not hold
    leaves it as it was, whatever the store answers. *)
Theorem handleDeleteItem_outcomes
    (rendered : list Obj) (itemId : Val) (remote : Outcome unit) (st : App) :
  device (handleDeleteItem rendered itemId remote st) = device st
  /\ (pantryItems (handleDeleteItem rendered itemId (Ok tt) st) `sublist_of` pantryItems st
      /\ (itemId ∉ ids (pantryItems (handleDeleteItem rendered itemId (Ok tt) st)))
      /\ forall i, i <> itemId ->
           (i ∈ ids (pantryItems (handleDeleteItem rendered itemId (Ok tt) st))
            <-> i ∈ ids (pantryItems st)))
  /\ (itemId ∉ ids rendered ->
      itemId ∉ ids (pantryItems (handleDeleteItem rendered itemId remote st)))
  /\ (itemId ∉ ids rendered -> itemId ∉ ids (pantryItems st) ->
      pantryItems (handleDeleteItem rendered itemId remote st) = pantryItems st).
Proof.
  split; [destruct remote as [[] | e]; reflexivity |].
  split.
  { simpl. split; [apply sublist_filter |]. split.
    - rewrite ids_without. tauto.
    - intros i Hi. rewrite ids_without. tauto. }
  split.
  - intros Hr. unfold handleDeleteItem, deleteOptimistic.
    rewrite (find_absent itemId rendered Hr).
    destruct remote as [[] | e]; simpl; unfold reinsert; rewrite ?app_nil_r;
      rewrite ids_without; tauto.
  - intros Hr Hs. unfold handleDeleteItem, deleteOptimistic.
    rewrite (find_absent itemId rendered Hr).
    destruct remote as [[] | e]; simpl; unfold reinsert; rewrite ?app_nil_r;
      now apply filter_absent.
Qed.

Lemma rollback_permutation (itemId : Val) (items : list Obj) (item : Obj) :
  NoDup (ids items) ->
  find (fun i => strictEq (prop i "id") itemId) items = Some item ->
  filter (fun it => negb (strictEq (prop it "id") itemId)) items ++ [item] ≡ₚ items.
Proof.
  induction items as [| x rest IH]; simpl; intros Hnd Hf; [discriminate |].
  apply NoDup_cons in Hnd as [Hx Hnd].
  destruct (strictEq (prop x "id") itemId) eqn:Hid.
  - injection Hf as <-. apply strictEq_true in Hid. subst itemId.
    rewrite filter_cons_False.
    + rewrite filter_absent by exact Hx. symmetry. apply Permutation_cons_append.
    + intros Hp. apply negb_prop_elim in Hp. apply Hp. apply Is_true_true.
      now apply strictEq_true.
  - rewrite filter_cons_True.
    + simpl. constructor. now apply IH.
    + apply negb_prop_intro. intros Ht. apply Is_true_true in Ht. congruence.
Qed.

(** With identifiers that are unique and a render that shows the
    collection, a failed delete gives back the collection it started from
    up to order: the item returns, at the end of the list. *)
Theorem handleDeleteItem_rollback_permutation
    (itemId : Val) (e : Exn) (st : App) :
  NoDup (ids (pantryItems st)) ->
  itemId ∈ ids (pantryItems st) ->
  pantryItems (handleDeleteItem (pantryItems st) itemId (Throw e) st) ≡ₚ pantryItems st
  /\ exists item,
       prop item "id" = itemId
       /\ last (pantryItems (handleDeleteItem (pantryItems st) itemId (Throw e) st))
          = Some item.
Proof.
  intros Hnd Hin. destruct (find_by_id itemId (pantryItems st) Hin) as (item & Hf & Hid).
  unfold handleDeleteItem, deleteOptimistic. rewrite Hf. simpl. unfold reinsert. split.
  - now apply rollback_permutation.
  - exists item. split; [exact Hid | apply last_snoc].
Qed.

(** The reminders of a deleted item are left by the delete and removed by
    the next tick: once the tick's cancellation has resolved, no reminder
    that waits carries the deleted identifier. *)
Theorem deleted_item_forgotten_at_tick
    (host : Host) (answers : Answers) (now : Z) (rendered : list Obj)
    (itemId : Val) (st : App) (r : Request) :
  OS host <> web ->
  cancelAllResolves answers = true ->
  let deleted := handleDeleteItem rendered itemId (Ok tt) st in
  r ∈ scheduled (device (tick host answers now deleted)) ->
  scheduled (device deleted) = scheduled (device st)
  /\ dataItemId (content r) <> itemId.
Proof.
  intros Hweb Hc deleted Hin. split; [reflexivity |].
  unfold tick in Hin. simpl in Hin.
  match type of Hin with
  | _ ∈ scheduled (scheduleExpiryNotifications _ _ _ ?items ?w) =>
      destruct (run_adds host answers now items w) as (la & ls & lp & _ & Hs & _ & Hall & _)
  end.
  rewrite Hs in Hin. destruct (decide (OS host = web)); [contradiction |].
  rewrite Hc in Hin. simpl in Hin.
  destruct (Hall r (or_intror (or_introl Hin))) as (item & Hitem & Hr).
  unfold itemReminders in Hr. apply remindersFor_data in Hr as [Hid _].
  rewrite Hid. intros Heq.
  assert (Hids : itemId ∈ ids (checkAndUpdateExpiryStatus host now
                   (filter (fun it => negb (strictEq (prop it "id") itemId))
                      (pantryItems st)))).
  { apply elem_of_ids. eauto. }
  rewrite checkAndUpdateExpiryStatus_ids, ids_without in Hids. tauto.
Qed.

(** ** Categories *)

Lemma foodCategories_last :
  foodCategories !! (length foodCategories - 1)%nat
  = Some {| catId := "other"; catName := "Other"; catEmoji := "📦" |}.
Proof. reflexivity. Qed.

(** [getCategoryById] always answers with an entry of the table: the one
    with the identifier asked for if there is one, the last one, [Other],
    if there is none. So [getCategoryName] never needs its own default. *)
Theorem getCategoryById_lookup (id : Val) :
  (exists cat,
     cat ∈ foodCategories
     /\ getCategoryById id = Some cat
     /\ getCategoryName id = catName cat)
  /\ (forall cat, cat ∈ foodCategories -> id = VString (catId cat) ->
        getCategoryById id = Some cat)
  /\ ((forall cat, cat ∈ foodCategories -> id <> VString (catId cat)) ->
      getCategoryById id = Some {| catId := "other"; catName := "Other"; catEmoji := "📦" |}
      /\ getCategoryName id = "Other").
Proof.
  split; [| split].
  - unfold getCategoryName, getCategoryById.
    destruct (find _ foodCategories) as [cat |] eqn:Hf.
    + exists cat. apply find_some in Hf as [Hin _].
      split; [now apply list_elem_of_In | auto].
    + rewrite foodCategories_last. eexists. split; [| split; reflexivity].
      apply list_elem_of_In. vm_compute. tauto.
  - intros cat Hin ->. unfold foodCategories in Hin.
    repeat (apply elem_of_cons in Hin as [-> | Hin]; [vm_compute; reflexivity |]).
    inversion Hin.
  - intros Hnone. unfold getCategoryName, getCategoryById.
    destruct (find _ foodCategories) as [cat |] eqn:Hf.
    + apply find_some in Hf as [Hin Heq]. apply strictEq_true in Heq.
      exfalso. apply (Hnone cat); [now apply list_elem_of_In | now symmetry].
    + rewrite foodCategories_last. split; reflexivity.
Qed.

(** ** The home screen *)

Section HomeFacts.

Variable toLowerCase : string -> string.

Lemma sublist_List_filter (p : Obj -> bool) (items : list Obj) :
  List.filter p items `sublist_of` items.
Proof.
  induction items as [| x rest IH]; simpl; [constructor |].
  destruct (p x); now constructor.
Qed.

Lemma elem_of_List_filter (p : Obj -> bool) (items : list Obj) (item : Obj) :
  item ∈ List.filter p items <-> item ∈ items /\ p item = true.
Proof. rewrite !list_elem_of_In. apply filter_In. Qed.

Lemma filterWith_spec (p : Obj -> Outcome bool) (items kept : list Obj) :
  filterWith p items = Ok kept ->
  kept `sublist_of` items
  /\ forall item, item ∈ kept <-> item ∈ items /\ p item = Ok true.
Proof.
  revert kept. induction items as [| x rest IH]; simpl; intros kept Hk.
  - injection Hk as <-. split; [constructor |]. intros item. split.
    + intros H. inversion H.
    + intros [H _]. inversion H.
  - destruct (p x) as [keep | e] eqn:Hp; simpl in Hk; [| discriminate].
    destruct (filterWith p rest) as [kept' | e]; simpl in Hk; [| discriminate].
    injection Hk as <-. destruct (IH kept' eq_refl) as [Hsub Hiff].
    destruct keep.
    + split; [now constructor |]. intros item. rewrite !elem_of_cons, Hiff. split.
      * intros [-> | [H1 H2]]; auto.
      * intros [[-> | H1] H2]; auto.
    + split; [now constructor |]. intros item. rewrite elem_of_cons, Hiff. split.
      * intros [H1 H2]; auto.
      * intros [[-> | H1] H2]; [congruence | auto].
Qed.

Lemma filterWith_throws (p : Obj -> Outcome bool) (items : list Obj) (item : Obj) (e : Exn) :
  item ∈ items -> p item = Throw e -> exists e', filterWith p items = Throw e'.
Proof.
  induction items as [| x rest IH]; simpl; intros Hin Hp; [inversion Hin |].
  apply elem_of_cons in Hin as [<- | Hin].
  - rewrite Hp. simpl. eauto.
  - destruct (p x); simpl; [| eauto].
    destruct (IH Hin Hp) as [e' ->]. simpl. eauto.
Qed.

End HomeFacts.

(** What the list of the home screen shows is the items that pass every
    filter in use, in the order of the collection: nothing is added or
    moved, each shown item has the status and the category selected and
    matches the search, and every item that passes is shown. A search made
    of blanks filters nothing. *)
Theorem filteredItems_exact
    (toLowerCase : string -> string) (items shown : list Obj)
    (searchQuery statusFilter categoryFilter : string) :
  filteredItems toLowerCase items searchQuery statusFilter categoryFilter = Ok shown ->
  shown `sublist_of` items
  /\ forall item,
       item ∈ shown
       <-> (item ∈ items
            /\ (JSText.trim searchQuery <> "" ->
                matchesSearch toLowerCase (toLowerCase searchQuery) item = Ok true)
            /\ (statusFilter <> "all" -> prop item "status" = VString statusFilter)
            /\ (categoryFilter <> "all" -> prop item "category" = VString categoryFilter)).
Proof.
  unfold filteredItems. intros Hshown.
  set (searched := if negb (JSText.trim searchQuery =? "")%string
                   then filterWith (matchesSearch toLowerCase (toLowerCase searchQuery)) items
                   else Ok items) in Hshown.
  destruct searched as [l1 | e] eqn:Hsearch; simpl in Hshown; [| discriminate].
  injection Hshown as <-.
  assert (H1 : l1 `sublist_of` items
               /\ forall item, item ∈ l1
                    <-> item ∈ items
                        /\ (JSText.trim searchQuery <> "" ->
                            matchesSearch toLowerCase (toLowerCase searchQuery) item
                            = Ok true)).
  { subst searched. destruct (String.eqb_spec (JSText.trim searchQuery) "") as [Hq | Hq];
      simpl in Hsearch.
    - injection Hsearch as <-. split; [reflexivity |]. intros item. tauto.
    - destruct (filterWith_spec _ _ _ Hsearch) as [Hsub Hiff].
      split; [exact Hsub |]. intros item. rewrite Hiff. tauto. }
  destruct H1 as [Hsub1 Hiff1].
  set (l2 := if negb (statusFilter =? "all")%string
             then List.filter (hasStatus statusFilter) l1 else l1).
  assert (H2 : l2 `sublist_of` l1
               /\ forall item, item ∈ l2
                    <-> item ∈ l1
                        /\ (statusFilter <> "all" ->
                            prop item "status" = VString statusFilter)).
  { subst l2. destruct (String.eqb_spec statusFilter "all") as [Hs | Hs]; simpl.
    - split; [reflexivity |]. intros item. tauto.
    - split; [apply sublist_List_filter |]. intros item.
      rewrite elem_of_List_filter. unfold hasStatus. rewrite strictEq_true. tauto. }
  destruct H2 as [Hsub2 Hiff2].
  set (l3 := if negb (categoryFilter =? "all")%string
             then List.filter (hasCategory categoryFilter) l2 else l2).
  assert (H3 : l3 `sublist_of` l2
               /\ forall item, item ∈ l3
                    <-> item ∈ l2
                        /\ (categoryFilter <> "all" ->
                            prop item "category" = VString categoryFilter)).
  { subst l3. destruct (String.eqb_spec categoryFilter "all") as [Hs | Hs]; simpl.
    - split; [reflexivity |]. intros item. tauto.
    - split; [apply sublist_List_filter |]. intros item.
      rewrite elem_of_List_filter. unfold hasCategory. rewrite strictEq_true. tauto. }
  destruct H3 as [Hsub3 Hiff3].
  split; [etransitivity; [exact Hsub3 |]; etransitivity; eassumption |].
  intros item. rewrite Hiff3, Hiff2, Hiff1. tauto.
Qed.

(** With a search in use, one item whose [name] is not a string makes the
    whole list throw: [toLowerCase] is called on it before anything else. *)
Theorem filteredItems_throws_on_nameless_item
    (toLowerCase : string -> string) (items : list Obj) (item : Obj)
    (searchQuery statusFilter categoryFilter : string) :
  JSText.trim searchQuery <> "" ->
  item ∈ items ->
  (forall s, prop item "name" <> VString s) ->
  exists e,
    filteredItems toLowerCase items searchQuery statusFilter categoryFilter = Throw e.
Proof.
  intros Hq Hin Hname. unfold filteredItems.
  destruct (String.eqb_spec (JSText.trim searchQuery) ""); [contradiction |]. simpl.
  assert (Hthrow : exists e,
             matchesSearch toLowerCase (toLowerCase searchQuery) item = Throw e).
  { unfold matchesSearch, lowerVal.
    destruct (prop item "name") as [| | b | n0 | s]; simpl; eauto.
    exfalso. now apply (Hname s). }
  destruct Hthrow as [e He].
  destruct (filterWith_throws _ _ _ _ Hin He) as [e' ->]. simpl. eauto.
Qed.

Lemma hasStatus_withStatus (host : Host) (now : Z) (item : Obj) (st : Status) :
  hasStatus (statusName st) (withStatus host now item)
  = bool_decide (calculateExpiryStatus host now (prop item "expiry_date") = st).
Proof.
  assert (H : prop (withStatus host now item) "status"
              = VString (statusName
                           (calculateExpiryStatus host now (prop item "expiry_date")))).
  { unfold prop at 1. now rewrite withStatus_status. }
  unfold hasStatus, strictEq. rewrite H.
  destruct (calculateExpiryStatus host now (prop item "expiry_date")), st;
    reflexivity.
Qed.

Lemma count_status (host : Host) (now : Z) (st : Status) (items : list Obj) :
  length (List.filter (hasStatus (statusName st)) (map (withStatus host now) items))
  = length (List.filter
              (fun item =>
                 bool_decide (calculateExpiryStatus host now (prop item "expiry_date") = st))
              items).
Proof.
  induction items as [| x rest IH]; simpl; [reflexivity |].
  rewrite hasStatus_withStatus.
  destruct (bool_decide _); simpl; now rewrite IH.
Qed.

Lemma count_all (host : Host) (now : Z) (items : list Obj) :
  let classifiedAs (st : Status) (item : Obj) :=
    bool_decide (calculateExpiryStatus host now (prop item "expiry_date") = st) in
  (length (List.filter (classifiedAs fresh) items)
   + length (List.filter (classifiedAs expiring) items)
   + length (List.filter (classifiedAs expired) items) = length items)%nat.
Proof.
  intros classifiedAs. subst classifiedAs.
  induction items as [| x rest IH]; simpl; [reflexivity |].
  destruct (calculateExpiryStatus host now (prop x "expiry_date")); simpl; lia.
Qed.

(** Over a collection that has just been classified, the three counters of
    the home screen count every item once: they add up to the number of
    items, and the counter of a status counts the items whose date has
    that classification. *)
Theorem counters_partition (host : Host) (now : Z) (items : list Obj) :
  let shown := checkAndUpdateExpiryStatus host now items in
  let classifiedAs (st : Status) (item : Obj) :=
    bool_decide (calculateExpiryStatus host now (prop item "expiry_date") = st) in
  (length (freshItems shown) + length (expiringSoon shown) + length (expiredItems shown)
   = length items)%nat
  /\ length (freshItems shown) = length (List.filter (classifiedAs fresh) items)
  /\ length (expiringSoon shown) = length (List.filter (classifiedAs expiring) items)
  /\ length (expiredItems shown) = length (List.filter (classifiedAs expired) items).
Proof.
  intros shown classifiedAs. subst shown classifiedAs.
  unfold freshItems, expiringSoon, expiredItems, checkAndUpdateExpiryStatus.
  pose proof (count_status host now fresh items) as Hf.
  pose proof (count_status host now expiring items) as Hg.
  pose proof (count_status host now expired items) as He.
  simpl in Hf, Hg, He. rewrite Hf, Hg, He.
  split; [apply count_all | auto].
Qed.

(** ** The item forms *)

Section FormFacts.

Variable host : Host.
Variable now : Z.
Variable Num : Type.
Variable NumberOf : string -> Num.
Variable numIsNaN : Num -> bool.
Variable numIsNegative : Num -> bool.

Lemma dayFirst_string (s : string) (keep : TimeValue) :
  exists d, dayFirst host (VString s) keep (fun d => d) = Ok d.
Proof.
  unfold dayFirst, splitVal, obind.
  destruct (JSString.split s) as [| p1 [| p2 [| p3 [| p4 ps]]]]; eauto.
  destruct (JSString.parseInt p1), (JSString.parseInt p2), (JSString.parseInt p3); eauto.
Qed.

Lemma schedulerExpiryDate_string (s : string) :
  exists d, schedulerExpiryDate host (VString s) = Ok d.
Proof.
  unfold schedulerExpiryDate. simpl.
  destruct (isInvalid (DateParse host s ≫= TimeClip)); [apply dayFirst_string | eauto].
Qed.

(** The form resolves a string as the scheduler does. *)
Lemma parseExpiryDate_scheduler (value : string) :
  JSText.trim value <> "" ->
  exists d,
    schedulerExpiryDate host (VString (JSText.trim value)) = Ok d
    /\ parseExpiryDate host value
       = Ok (if isInvalid d then None else Some (setHours host d 0 0 0 0)).
Proof.
  intros Ht. unfold parseExpiryDate.
  destruct (String.eqb_spec (JSText.trim value) ""); [contradiction |].
  destruct (schedulerExpiryDate_string (JSText.trim value)) as [d Hd].
  exists d. split; [exact Hd |].
  unfold schedulerExpiryDate in Hd. simpl in Hd. simpl.
  destruct (isInvalid (DateParse host (JSText.trim value) ≫= TimeClip)).
  - rewrite Hd. simpl. destruct (isInvalid d); reflexivity.
  - injection Hd as <-. simpl.
    destruct (isInvalid (DateParse host (JSText.trim value) ≫= TimeClip)); reflexivity.
Qed.

Lemma ceilDiv_nonneg (a b : Z) : 0 < b -> 0 <= a -> 0 <= ceilDiv a b.
Proof. intros Hb Ha. pose proof (ceilDiv_spec a b Hb). nia. Qed.

(** What each key of [newErrors] stands for. *)
Lemma validateForm_keys (f : ItemForm) (errors : gmap string string) :
  validateForm host now NumberOf numIsNaN numIsNegative f = Ok errors ->
  (errors !! "name" = None -> JSText.trim (fName f) <> "")
  /\ (errors !! "quantity" = None -> JSText.trim (fQuantity f) <> "")
  /\ (errors !! "expiryDate" = None ->
      JSText.trim (fExpiryDate f) <> ""
      /\ exists p, parseExpiryDate host (fExpiryDate f) = Ok (Some p)
                   /\ dateBefore p (today host now) = false)
  /\ (errors !! "value" = None ->
      JSText.trim (fValue f) = ""
      \/ (numIsNaN (NumberOf (JSText.trim (fValue f))) = false
          /\ numIsNegative (NumberOf (JSText.trim (fValue f))) = false)).
Proof.
  unfold validateForm.
  destruct (String.eqb_spec (JSText.trim (fName f)) "") as [Hn | Hn];
  destruct (String.eqb_spec (JSText.trim (fQuantity f)) "") as [Hq | Hq];
  destruct (String.eqb_spec (JSText.trim (fExpiryDate f)) "") as [He | He];
  destruct (String.eqb_spec (JSText.trim (fValue f)) "") as [Hv | Hv];
  simpl;
  try (destruct (parseExpiryDate host (fExpiryDate f)) as [[p |] | e] eqn:Hp; simpl;
       [destruct (dateBefore p (today host now)) eqn:Hb; simpl | | discriminate]);
  try (destruct (numIsNaN (NumberOf (JSText.trim (fValue f)))) eqn:Hnan;
       destruct (numIsNegative (NumberOf (JSText.trim (fValue f)))) eqn:Hneg; simpl);
  intros [= <-];
  (split_and!; intros Hk; try (vm_compute in Hk; discriminate Hk));
  solve [ assumption | split; [assumption | eauto] | left; assumption | right; auto ].
Qed.

End FormFacts.

(** The form and the scheduler resolve the same strings to the same dates:
    the form yields a date for the text of its field exactly when the
    scheduler resolves the item that carries the trimmed text, and the date
    is the one the scheduler computes. *)
Theorem parseExpiryDate_agrees_with_scheduler
    (host : Host) (value : string) (item : Obj) :
  prop item "expiry_date" = VString (JSText.trim value) ->
  (parseExpiryDate host value = Ok None /\ itemExpiryDate host item = None)
  \/ (exists t,
        schedulerExpiryDate host (VString (JSText.trim value)) = Ok (Some t)
        /\ parseExpiryDate host value = Ok (Some (itemExpiryDate host item))
        /\ itemExpiryDate host item = setHours host (Some t) 0 0 0 0).
Proof.
  intros Hitem. unfold itemExpiryDate. rewrite Hitem.
  destruct (String.eqb_spec (JSText.trim value) "") as [Hq | Hq].
  - left. unfold parseExpiryDate. rewrite Hq. simpl. auto.
  - rewrite (ToBoolean_string _ Hq). simpl.
    destruct (parseExpiryDate_scheduler host value Hq) as (d & Hd & Hp).
    rewrite Hd, Hp. destruct d as [t |]; simpl; [right; eauto | left; auto].
Qed.

(** A date the form accepts is not stamped [expired] on the day it is
    entered, and the scheduler plans at least the reminder of its expiry
    day. When only the day-first reading resolves it, which the form's own
    hint invites, the item is stamped [fresh] however close the date is. *)
Theorem accepted_date_is_not_expired
    (host : Host) (now : Z) (Num : Type) (NumberOf : string -> Num)
    (numIsNaN numIsNegative : Num -> bool)
    (f : ItemForm) (errors : gmap string string) (item : Obj) :
  validateForm host now NumberOf numIsNaN numIsNegative f = Ok errors ->
  errors !! "expiryDate" = None ->
  prop item "expiry_date" = VString (JSText.trim (fExpiryDate f)) ->
  calculateExpiryStatus host now (prop item "expiry_date") <> expired
  /\ (forall n, itemDaysUntilExpiry host now item = Some n ->
        0 <= n
        /\ head (itemPlan host now item)
           = Some (expiryDayRequest host item (itemExpiryDate host item)))
  /\ (DateParse host (JSText.trim (fExpiryDate f)) = None ->
      calculateExpiryStatus host now (prop item "expiry_date") = fresh).
Proof.
  intros Hv Hk Hitem.
  destruct (validateForm_keys host now Num NumberOf numIsNaN numIsNegative f errors Hv)
    as (_ & _ & Hexp & _).
  destruct (Hexp Hk) as (Hq & p & Hp & Hb). clear Hexp.
  destruct (parseExpiryDate_scheduler host (fExpiryDate f) Hq) as (d & Hd & Hp').
  rewrite Hp in Hp'. destruct d as [t |]; cbn [isInvalid] in Hp'; [| discriminate].
  assert (Hpe : p = setHours host (Some t) 0 0 0 0) by congruence. clear Hp'.
  assert (He : itemExpiryDate host item = setHours host (Some t) 0 0 0 0).
  { unfold itemExpiryDate. rewrite Hitem, (ToBoolean_string _ Hq). simpl.
    now rewrite Hd. }
  assert (Hnonneg : forall n,
             ceilDays (setHours host (Some t) 0 0 0 0) (today host now) = Some n ->
             0 <= n).
  { intros n Hn. rewrite <- Hpe in Hn. unfold dateBefore in Hb. unfold ceilDays in Hn.
    destruct p as [e |]; [| discriminate].
    destruct (today host now) as [t0 |]; [| discriminate].
    simpl in Hn. injection Hn as <-. apply Z.ltb_ge in Hb.
    apply ceilDiv_nonneg; [reflexivity | lia]. }
  clear Hb Hp.
  split; [| split].
  - rewrite Hitem.
    destruct (DateParse host (JSText.trim (fExpiryDate f)) ≫= TimeClip) as [t' |] eqn:Hnat.
    + assert (Hnew : newDate host (VString (JSText.trim (fExpiryDate f))) = Ok (Some t'))
        by (simpl; now rewrite Hnat).
      rewrite (calculateExpiryStatus_valid host now _ t' (ToBoolean_string _ Hq) Hnew).
      assert (t = t').
      { rewrite (schedulerExpiryDate_valid host _ _ Hnew) in Hd. congruence. }
      subst t'. unfold classifierDaysUntilExpiry.
      destruct (ceilDays (setHours host (Some t) 0 0 0 0) (today host now)) as [n |] eqn:Hn.
      * intros Hexpired. apply statusOfDays_expired in Hexpired.
        specialize (Hnonneg n eq_refl). lia.
      * discriminate.
    + rewrite calculateExpiryStatus_invalid; [discriminate |]. simpl. now rewrite Hnat.
  - intros n Hn. unfold itemDaysUntilExpiry in Hn. rewrite He in Hn.
    pose proof (Hnonneg n Hn) as H0. split; [exact H0 |].
    rewrite itemPlan_reminders. unfold itemReminders, itemDaysUntilExpiry.
    rewrite He, Hn. now apply remindersFor_ahead.
  - intros Hnat. rewrite Hitem. apply calculateExpiryStatus_invalid.
    simpl. now rewrite Hnat.
Qed.

(** Neither form hands an item to its callback unless every check passed:
    what [onAddItem] and [onUpdate] receive has a name, a quantity and an
    expiry date that are not blank, a date that resolves and is not before
    today, and a value that is absent or a number not below zero; no
    validation toast is shown then. *)
Theorem forms_hand_over_valid_items
    (host : Host) (now : Z) (Num : Type) (NumberOf : string -> Num)
    (numIsNaN numIsNegative : Num -> bool)
    (f f' : ItemForm) (payload : Payload Num) (toast : option Toast) :
  handleSave host now NumberOf numIsNaN numIsNegative f = Ok (f', Some payload, toast)
  \/ handleUpdate host now NumberOf numIsNaN numIsNegative f = Ok (f', Some payload, toast) ->
  payload = payloadOf NumberOf f
  /\ toast = None
  /\ fErrors f' = ∅
  /\ pName payload <> ""
  /\ pQuantity payload <> ""
  /\ pExpiryDate payload <> ""
  /\ (exists p, parseExpiryDate host (fExpiryDate f) = Ok (Some p)
                /\ dateBefore p (today host now) = false)
  /\ (forall v, pValue payload = Some v -> numIsNaN v = false /\ numIsNegative v = false).
Proof.
  intros Hrun.
  assert (Hok : validateForm host now NumberOf numIsNaN numIsNegative f = Ok ∅
                /\ payload = payloadOf NumberOf f /\ toast = None /\ fErrors f' = ∅).
  { unfold handleSave, handleUpdate in Hrun.
    destruct (validateForm host now NumberOf numIsNaN numIsNegative f) as [errors | e];
      simpl in Hrun; [| destruct Hrun; discriminate].
    destruct (decide (errors = ∅)) as [Heq | Hne].
    - rewrite (bool_decide_eq_true_2 _ Heq) in Hrun. simpl in Hrun. subst errors.
      destruct Hrun as [[= <- <- <-] | [= <- <- <-]]; auto.
    - rewrite (bool_decide_eq_false_2 _ Hne) in Hrun. simpl in Hrun.
      destruct Hrun; discriminate. }
  destruct Hok as (Hv & -> & -> & Herr).
  destruct (validateForm_keys host now Num NumberOf numIsNaN numIsNegative f ∅ Hv)
    as (Hname & Hqty & Hexp & Hval).
  specialize (Hname eq_refl). specialize (Hqty eq_refl).
  destruct (Hexp eq_refl) as (Hq & Hp). specialize (Hval eq_refl).
  split_and!; try assumption; try reflexivity.
  intros v Hpv. unfold payloadOf in Hpv. simpl in Hpv.
  destruct (String.eqb_spec (JSText.trim (fValue f)) "") as [Hblank | Hblank];
    simpl in Hpv; [discriminate |].
  injection Hpv as <-. destruct Hval as [Hval | Hval]; [contradiction | exact Hval].
Qed.

(** ** The store client *)

(** The message built for a failed request is never the bare "Not Found" of
    the server's JSON, is blank only if the server's [detail] or the default
    is, and an empty 404 and a [detail] of "Not Found" read the same. *)
Theorem buildFriendlyErrorMessage_friendly
    (jsonDetail : string -> option string)
    (response : option Response) (rawText defaultMessage : string) :
  let message := buildFriendlyErrorMessage jsonDetail response rawText defaultMessage in
  (message = "" -> defaultMessage = "" \/ jsonDetail rawText = Some "")
  /\ (forall detail, rawText <> "" -> jsonDetail rawText = Some detail ->
        message <> "Not Found"
        /\ (detail <> "Not Found" -> message = detail))
  /\ (forall r, response = Some r -> respStatus r = 404 -> rawText = "" ->
        message = unavailable)
  /\ (rawText <> "" -> jsonDetail rawText = Some "Not Found" -> message = unavailable)
  /\ (rawText <> "" -> jsonDetail rawText = None -> JSText.trim rawText <> "" ->
      message = rawText).
Proof.
  intros message. subst message. unfold buildFriendlyErrorMessage.
  destruct (String.eqb_spec rawText "") as [Hr | Hr].
  - split_and!.
    + destruct response as [r |]; [| discriminate].
      destruct (respStatus r =? 404); [discriminate | auto].
    + intros detail Hne. contradiction.
    + intros r -> H404 _. simpl. now rewrite H404.
    + contradiction.
    + contradiction.
  - split_and!.
    + destruct (jsonDetail rawText) as [detail |].
      * destruct (String.eqb_spec detail "Not Found"); [discriminate |].
        intros ->. auto.
      * destruct (0 <? String.length (JSText.trim rawText))%nat; [contradiction | auto].
    + intros detail _ ->.
      destruct (String.eqb_spec detail "Not Found") as [-> | Hd].
      * split; [discriminate | contradiction].
      * split; [exact Hd | reflexivity].
    + intros r _ _ Hempty. contradiction.
    + intros _ ->. reflexivity.
    + intros _ -> Ht.
      destruct (JSText.trim rawText) as [| c rest]; [contradiction | reflexivity].
Qed.

Lemma rollback_ids (rendered : list Obj) (itemId : Val) (e : Exn) (st : App) (i : Val) :
  itemId ∈ ids rendered ->
  itemId ∈ ids (pantryItems st) ->
  (i ∈ ids (pantryItems (handleDeleteItem rendered itemId (Throw e) st)))
  <-> (i ∈ ids (pantryItems st)).
Proof.
  intros Hr Hs. destruct (find_by_id itemId rendered Hr) as (item & Hfind & Hid).
  unfold handleDeleteItem, deleteOptimistic. rewrite Hfind. simpl.
  unfold reinsert, ids. rewrite map_app, elem_of_app.
  fold (ids (filter (fun it => negb (strictEq (prop it "id") itemId)) (pantryItems st))).
  rewrite ids_without. simpl. rewrite list_elem_of_singleton, Hid.
  fold (ids (pantryItems st)).
  destruct (decide (i = itemId)) as [-> | Hne]; tauto.
Qed.

(** Delete from the button to the collection. [deletePantryItem] resolves
    exactly when the store answers with a response that is [ok]; then the
    item is gone. In every other case it rejects, never with a [TypeError],
    the collection holds the identifiers it held, and the toast carries a
    text that is not empty. *)
Theorem delete_end_to_end
    (jsonDetail : string -> option string) (fetched : Fetched)
    (rendered : list Obj) (itemId : Val) (st : App) :
  itemId ∈ ids rendered ->
  itemId ∈ ids (pantryItems st) ->
  let remote := deletePantryItem jsonDetail fetched in
  let st' := handleDeleteItem rendered itemId remote st in
  (remote = Ok tt <-> exists r, fetched = Responded r /\ respOk r = true)
  /\ (remote = Ok tt -> itemId ∉ ids (pantryItems st'))
  /\ (forall e, remote = Throw e ->
        (forall msg, e <> TypeError msg)
        /\ (forall i, i ∈ ids (pantryItems st') <-> i ∈ ids (pantryItems st))
        /\ exists t, last (toasts st') = Some t
                     /\ toastType t = "error" /\ text2 t <> "").
Proof.
  intros Hr Hs remote st'. subst st'. split; [| split].
  - subst remote. unfold deletePantryItem, tryCatch. split.
    + destruct fetched as [[m | m] | r]; try discriminate.
      destruct (respOk r) eqn:Hok; simpl; [eauto | discriminate].
    + intros (r & -> & Hok). now rewrite Hok.
  - intros ->. simpl. rewrite ids_without. tauto.
  - intros e He. rewrite He. split; [| split].
    + subst remote. unfold deletePantryItem, tryCatch in He.
      destruct fetched as [[m | m] | r].
      * injection He as <-. discriminate.
      * injection He as <-. discriminate.
      * destruct (respOk r); simpl in He; [discriminate |].
        injection He as <-. discriminate.
    + intros i. now apply rollback_ids.
    + eexists. split; [apply last_snoc |]. simpl. split; [reflexivity |].
      unfold messageOr.
      destruct (String.eqb_spec (match e with TypeError m | Rejected m => m end) "");
        [discriminate | assumption].
Qed.

(** ** The further theorems on the sample device *)

(** The permission is refused: what was scheduled is cancelled. *)
Lemma scheduleExpiryNotifications_without_permission_witness :
  let now := Manila.at_ 2025 11 25 10 in
  let items := [Manila.item "1" "Milk" "Nov 30, 2025"] in
  let before := scheduleExpiryNotifications Manila.host allResolve now items emptyWorld in
  OS Manila.host <> web
  /\ cancelAllResolves Demo.denied = true
  /\ fst (requestNotificationPermissions Manila.host Demo.denied
            {| world := emptyWorld; calls := 0 |}) = Ok false
  /\ length (scheduled before) = 3%nat
  /\ scheduled (scheduleExpiryNotifications Manila.host Demo.denied now items before) = [].
Proof.
  intros now items before.
  assert (H1 : OS Manila.host <> web) by discriminate.
  assert (H2 : cancelAllResolves Demo.denied = true) by reflexivity.
  assert (H3 : fst (requestNotificationPermissions Manila.host Demo.denied
                      {| world := emptyWorld; calls := 0 |}) = Ok false)
    by (vm_compute; reflexivity).
  split; [exact H1 |]. split; [exact H2 |]. split; [exact H3 |].
  split; [vm_compute; reflexivity |].
  destruct (scheduleExpiryNotifications_without_permission Manila.host Demo.denied now
              items before H1 H2 H3) as (Hs & _).
  exact Hs.
Defined.

(** The reminder of the eggs' expiry day belongs to the eggs. *)
Lemma scheduled_reminders_belong_witness :
  let now := Manila.at_ 2025 11 25 10 in
  let milk := Manila.item "1" "Milk" "Nov 30, 2025" in
  let eggs := Manila.item "2" "Eggs" "Nov 26, 2025" in
  let r := expiryDayRequest Manila.host eggs (Some (Manila.at_ 2025 11 26 0)) in
  OS Manila.host <> web
  /\ cancelAllResolves allResolve = true
  /\ r ∈ scheduled (scheduleExpiryNotifications Manila.host allResolve now [milk; eggs]
                      emptyWorld)
  /\ exists item, item ∈ [milk; eggs] /\ dataItemId (content r) = prop item "id".
Proof.
  intros now milk eggs r.
  assert (H1 : OS Manila.host <> web) by discriminate.
  assert (H2 : cancelAllResolves allResolve = true) by reflexivity.
  assert (H3 : r ∈ scheduled (scheduleExpiryNotifications Manila.host allResolve now
                                [milk; eggs] emptyWorld)).
  { apply list_elem_of_In. vm_compute. do 3 right. left. reflexivity. }
  split; [exact H1 |]. split; [exact H2 |]. split; [exact H3 |].
  destruct (scheduled_reminders_belong Manila.host allResolve now [milk; eggs] emptyWorld
              r H1 H2 H3) as (item & Hin & _ & Hid & _).
  exists item. split; [exact Hin | exact Hid].
Defined.

(** Milk five days ahead: fresh, and the scheduler counts five days too. *)
Lemma status_agrees_with_plan_witness :
  let now := Manila.at_ 2025 11 25 10 in
  let milk := Manila.item "1" "Milk" "Nov 30, 2025" in
  ToBoolean (prop milk "expiry_date") = true
  /\ newDate Manila.host (prop milk "expiry_date") = Ok (Some (Manila.at_ 2025 11 30 0))
  /\ classifierDaysUntilExpiry Manila.host now (Some (Manila.at_ 2025 11 30 0)) = Some 5
  /\ itemDaysUntilExpiry Manila.host now milk = Some 5.
Proof.
  intros now milk.
  assert (H1 : ToBoolean (prop milk "expiry_date") = true) by (vm_compute; reflexivity).
  assert (H2 : newDate Manila.host (prop milk "expiry_date")
               = Ok (Some (Manila.at_ 2025 11 30 0))) by (vm_compute; reflexivity).
  assert (H3 : classifierDaysUntilExpiry Manila.host now (Some (Manila.at_ 2025 11 30 0))
               = Some 5) by (vm_compute; reflexivity).
  split; [exact H1 |]. split; [exact H2 |]. split; [exact H3 |].
  destruct (status_agrees_with_plan Manila.host now milk _ _ H1 H2 H3) as (Hdays & _).
  exact Hdays.
Defined.

(** At UTC+8 the count is the difference of the calendar days. *)
Lemma daysUntilExpiry_fixed_offset_witness :
  let now := Manila.at_ 2025 11 25 23 in
  let t := Manila.at_ 2025 11 26 1 in
  (forall u b, LocalTZA Manila.host u b = Manila.tza)
  /\ setHours Manila.host (Some t) 0 0 0 0 = Some (Manila.at_ 2025 11 26 0)
  /\ setHours Manila.host (Some now) 0 0 0 0 = Some (Manila.at_ 2025 11 25 0)
  /\ classifierDaysUntilExpiry Manila.host now (Some t)
     = Some (Day (t + Manila.tza) - Day (now + Manila.tza)).
Proof.
  intros now t.
  assert (H1 : forall u b, LocalTZA Manila.host u b = Manila.tza) by reflexivity.
  assert (H2 : setHours Manila.host (Some t) 0 0 0 0 = Some (Manila.at_ 2025 11 26 0))
    by (vm_compute; reflexivity).
  assert (H3 : setHours Manila.host (Some now) 0 0 0 0 = Some (Manila.at_ 2025 11 25 0))
    by (vm_compute; reflexivity).
  split; [exact H1 |]. split; [exact H2 |]. split; [exact H3 |].
  destruct (daysUntilExpiry_fixed_offset Manila.host now t Manila.tza _ _ H1 H2 H3)
    as (Hdays & _).
  exact Hdays.
Defined.

(** The milk, first of two items, comes back last. *)
Lemma handleDeleteItem_rollback_permutation_witness :
  let milk := Manila.item "1" "Milk" "Nov 30, 2025" in
  let eggs := Manila.item "2" "Eggs" "Nov 26, 2025" in
  let st := Manila.app [milk; eggs] in
  NoDup (ids (pantryItems st))
  /\ VString "1" ∈ ids (pantryItems st)
  /\ pantryItems (handleDeleteItem (pantryItems st) (VString "1")
                    (Throw (Rejected "Network request failed")) st) = [eggs; milk]
  /\ pantryItems (handleDeleteItem (pantryItems st) (VString "1")
                    (Throw (Rejected "Network request failed")) st) ≡ₚ pantryItems st.
Proof.
  intros milk eggs st.
  assert (H1 : NoDup (ids (pantryItems st))).
  { apply (bool_decide_unpack _). vm_compute. exact I. }
  assert (H2 : VString "1" ∈ ids (pantryItems st)).
  { apply list_elem_of_In. vm_compute. left. reflexivity. }
  split; [exact H1 |]. split; [exact H2 |].
  split; [vm_compute; reflexivity |].
  destruct (handleDeleteItem_rollback_permutation (VString "1")
              (Rejected "Network request failed") st H1 H2) as (Hperm & _).
  exact Hperm.
Defined.

(** The milk is deleted; after the tick only the eggs' reminders wait. *)
Lemma deleted_item_forgotten_at_tick_witness :
  let now := Manila.at_ 2025 11 25 10 in
  let milk := Manila.item "1" "Milk" "Nov 30, 2025" in
  let eggs := Manila.item "2" "Eggs" "Nov 26, 2025" in
  let st := Manila.app [milk; eggs] in
  let r := expiryDayRequest Manila.host eggs (Some (Manila.at_ 2025 11 26 0)) in
  OS Manila.host <> web
  /\ cancelAllResolves allResolve = true
  /\ r ∈ scheduled (device (tick Manila.host allResolve now
                              (handleDeleteItem [milk; eggs] (VString "1") (Ok tt) st)))
  /\ dataItemId (content r) <> VString "1".
Proof.
  intros now milk eggs st r.
  assert (H1 : OS Manila.host <> web) by discriminate.
  assert (H2 : cancelAllResolves allResolve = true) by reflexivity.
  assert (H3 : r ∈ scheduled (device (tick Manila.host allResolve now
                  (handleDeleteItem [milk; eggs] (VString "1") (Ok tt) st)))).
  { apply list_elem_of_In. vm_compute. left. reflexivity. }
  split; [exact H1 |]. split; [exact H2 |]. split; [exact H3 |].
  destruct (deleted_item_forgotten_at_tick Manila.host allResolve now [milk; eggs]
              (VString "1") st r H1 H2 H3) as (_ & Hid).
  exact Hid.
Defined.

(** A search for "MILK" shows the milk. *)
Lemma filteredItems_exact_witness :
  let milk := Manila.item "1" "Milk" "Nov 30, 2025" in
  let eggs := Manila.item "2" "Eggs" "Nov 26, 2025" in
  filteredItems Demo.toLowerCase [milk; eggs] "MILK" "all" "all" = Ok [milk]
  /\ [milk] `sublist_of` [milk; eggs].
Proof.
  intros milk eggs.
  assert (H : filteredItems Demo.toLowerCase [milk; eggs] "MILK" "all" "all" = Ok [milk])
    by (vm_compute; reflexivity).
  split; [exact H |].
  destruct (filteredItems_exact Demo.toLowerCase [milk; eggs] [milk] "MILK" "all" "all" H)
    as (Hsub & _).
  exact Hsub.
Defined.

(** An item without a name, and a search. *)
Lemma filteredItems_throws_on_nameless_item_witness :
  let milk := Manila.item "1" "Milk" "Nov 30, 2025" in
  let nameless : Obj := <["id" := VString "3"]> ∅ in
  JSText.trim "milk" <> ""
  /\ nameless ∈ [milk; nameless]
  /\ (forall s, prop nameless "name" <> VString s)
  /\ exists e, filteredItems Demo.toLowerCase [milk; nameless] "milk" "all" "all" = Throw e.
Proof.
  intros milk nameless.
  assert (H1 : JSText.trim "milk" <> "") by (vm_compute; discriminate).
  assert (H2 : nameless ∈ [milk; nameless]).
  { apply elem_of_cons. right. apply elem_of_cons. now left. }
  assert (H3 : forall s, prop nameless "name" <> VString s).
  { intros s. vm_compute. discriminate. }
  split; [exact H1 |]. split; [exact H2 |]. split; [exact H3 |].
  apply (filteredItems_throws_on_nameless_item Demo.toLowerCase [milk; nameless] nameless
           "milk" "all" "all" H1 H2 H3).
Defined.

(** The field holds " 30/11/2025 ", the item "30/11/2025". *)
Lemma parseExpiryDate_agrees_with_scheduler_witness :
  let item := Manila.item "1" "Milk" "30/11/2025" in
  prop item "expiry_date" = VString (JSText.trim " 30/11/2025 ")
  /\ parseExpiryDate Manila.host " 30/11/2025 " = Ok (Some (itemExpiryDate Manila.host item)).
Proof.
  intros item.
  assert (H : prop item "expiry_date" = VString (JSText.trim " 30/11/2025 "))
    by (vm_compute; reflexivity).
  split; [exact H |].
  destruct (parseExpiryDate_agrees_with_scheduler Manila.host " 30/11/2025 " item H)
    as [[Hnone _] | (t & _ & Hsome & _)].
  - vm_compute in Hnone. discriminate Hnone.
  - exact Hsome.
Defined.

(** The form accepts "25/11/2025" on the 25th; the item is stamped fresh. *)
Lemma accepted_date_is_not_expired_witness :
  let now := Manila.at_ 2025 11 25 10 in
  let f := Demo.form "Milk" "1 l" "25/11/2025" "12" in
  let item := Manila.item "1" "Milk" "25/11/2025" in
  validateForm Manila.host now Demo.NumberOf Demo.numIsNaN Demo.numIsNegative f = Ok ∅
  /\ (∅ : gmap string string) !! "expiryDate" = None
  /\ prop item "expiry_date" = VString (JSText.trim (fExpiryDate f))
  /\ calculateExpiryStatus Manila.host now (prop item "expiry_date") = fresh.
Proof.
  intros now f item.
  assert (H1 : validateForm Manila.host now Demo.NumberOf Demo.numIsNaN
                 Demo.numIsNegative f = Ok ∅) by (vm_compute; reflexivity).
  assert (H2 : (∅ : gmap string string) !! "expiryDate" = None) by reflexivity.
  assert (H3 : prop item "expiry_date" = VString (JSText.trim (fExpiryDate f)))
    by (vm_compute; reflexivity).
  split; [exact H1 |]. split; [exact H2 |]. split; [exact H3 |].
  destruct (accepted_date_is_not_expired Manila.host now _ Demo.NumberOf Demo.numIsNaN
              Demo.numIsNegative f ∅ item H1 H2 H3) as (_ & _ & Hfresh).
  apply Hfresh. vm_compute. reflexivity.
Defined.

(** A form that validates, saved. *)
Lemma forms_hand_over_valid_items_witness :
  let now := Manila.at_ 2025 11 25 10 in
  let f := Demo.form " Milk " "1 l" "Nov 30, 2025" "" in
  let cleared :=
    {| fName := ""; fQuantity := ""; fExpiryDate := ""; fEmoji := "🥬"; fValue := "";
       fCategory := "dairy"; fLoading := false; fErrors := ∅ |} in
  let payload := payloadOf Demo.NumberOf f in
  handleSave Manila.host now Demo.NumberOf Demo.numIsNaN Demo.numIsNegative f
  = Ok (cleared, Some payload, None)
  /\ pName payload = "Milk"
  /\ pName payload <> "".
Proof.
  intros now f cleared payload.
  assert (H : handleSave Manila.host now Demo.NumberOf Demo.numIsNaN Demo.numIsNegative f
              = Ok (cleared, Some payload, None)) by (vm_compute; reflexivity).
  split; [exact H |]. split; [vm_compute; reflexivity |].
  destruct (forms_hand_over_valid_items Manila.host now _ Demo.NumberOf Demo.numIsNaN
              Demo.numIsNegative f cleared payload None (or_introl H))
    as (_ & _ & _ & Hname & _).
  exact Hname.
Defined.

(** The store answers 404 with an empty body. *)
Lemma delete_end_to_end_witness :
  let milk := Manila.item "1" "Milk" "Nov 30, 2025" in
  let eggs := Manila.item "2" "Eggs" "Nov 26, 2025" in
  let st := Manila.app [milk; eggs] in
  let fetched := Responded {| respOk := false; respStatus := 404; respText := "" |} in
  let remote := deletePantryItem (fun _ => None) fetched in
  VString "1" ∈ ids [milk; eggs]
  /\ VString "1" ∈ ids (pantryItems st)
  /\ remote = Throw (Rejected unavailable)
  /\ (VString "1" ∈ ids (pantryItems (handleDeleteItem [milk; eggs] (VString "1") remote st))).
Proof.
  intros milk eggs st fetched remote.
  assert (H1 : VString "1" ∈ ids [milk; eggs]).
  { apply list_elem_of_In. vm_compute. left. reflexivity. }
  assert (H2 : VString "1" ∈ ids (pantryItems st)) by exact H1.
  assert (H3 : remote = Throw (Rejected unavailable)) by reflexivity.
  split; [exact H1 |]. split; [exact H2 |]. split; [exact H3 |].
  destruct (delete_end_to_end (fun _ => None) fetched [milk; eggs] (VString "1") st H1 H2)
    as (_ & _ & Hfail).
  destruct (Hfail _ H3) as (_ & Hids & _).
  apply Hids. exact H2.
Defined.
